(** * RetailFlow: the inventory ledger and sale-transaction engine

    A shallow embedding of the storage layer of the RetailFlow point-of-sale
    application (server/storage.ts, in its two revisions: the in-memory
    [MemStorage] and the relational [DatabaseStorage], both behind the
    interface [IStorage]) and of the row types of shared/schema.ts.

    Conventions of the model:
    - a JavaScript [Map<string, T>] is an insertion-ordered association
      list ([JsMap.t]); [Map.prototype.set] overwrites in place when the
      key is present and appends otherwise;
    - [integer] columns are [Z]; the code carries [decimal(10,2)] columns
      as strings such as "141.05".  Those it computes with, the amounts of
      a sale and of its lines and [totalSpent] of a customer, are these
      strings, whatever text they hold, and the arithmetic on them is the
      double arithmetic of JavaScript ([JsNumber], [parseFloat],
      [toFixed]); the decimal columns that the storage layer only stores
      and copies are their amount in hundredths ([Decimal]);
    - [randomUUID()] draws from a counter kept in the store and
      [new Date()] reads a clock kept in the store and advances it. *)

From Stdlib Require Import ZArith List String Ascii Bool Lia Sorted.
From Stdlib Require Import Permutation.
From Stdlib Require Import DecimalString DecimalNat.
Import ListNotations.

Local Open Scope string_scope.
Local Open Scope list_scope.
Local Open Scope Z_scope.

(** ** JavaScript Map *)

Module JsMap.

Definition t (V : Type) : Type := list (string * V).

Definition empty {V : Type} : t V := [].

Fixpoint get {V : Type} (k : string) (m : t V) : option V :=
  match m with
  | [] => None
  | (k', v) :: m' => if String.eqb k' k then Some v else get k m'
  end.

Fixpoint set {V : Type} (k : string) (v : V) (m : t V) : t V :=
  match m with
  | [] => [(k, v)]
  | (k', v') :: m' =>
      if String.eqb k' k then (k, v) :: m' else (k', v') :: set k v m'
  end.

Definition has {V : Type} (k : string) (m : t V) : bool :=
  match get k m with Some _ => true | None => false end.

Definition keys {V : Type} (m : t V) : list string := map fst m.

Definition values {V : Type} (m : t V) : list V := map snd m.

Definition entries {V : Type} (m : t V) : list (string * V) := m.

End JsMap.

(** ** JavaScript numbers

    A Number is an IEEE 754 double.  Every finite double is a whole
    multiple of 2^-1074, the smallest positive one, so a finite number is
    kept as that multiple: [Finite n] is the number n * 2^-1074, and
    [Finite one] is 1.  An operation computes the exact result and rounds
    it to the nearest double, ties to even, as the hardware does.  The two
    zeros are one [Finite 0]: nothing modelled here divides by a number or
    asks for the sign of zero. *)

Module JsNumber.

Inductive t : Type :=
| NaN
| Infinity (negative : bool)
| Finite (n : Z).

Definition one : Z := 2 ^ 1074.

Definition zero : t := Finite 0.

(** The integer nearest to [a / d], a tie going to the even one
    ([0 <= a], [0 < d]). *)
Definition round_half_even (a d : Z) : Z :=
  let q := a / d in
  match 2 * (a mod d) ?= d with
  | Lt => q
  | Gt => q + 1
  | Eq => if Z.even q then q else q + 1
  end.

(** The double nearest to the rational [a / d], counted in multiples of
    2^-1074 and taken with the given sign ([0 <= a], [0 < d]): the
    quotient keeps its 53 leading bits, and a magnitude that reaches
    2^1024 overflows to an infinity. *)
Definition nearest (negative : bool) (a d : Z) : t :=
  let shift := Z.max 0 (Z.log2 (a / d) - 52) in
  let m := round_half_even a (d * 2 ^ shift) * 2 ^ shift in
  if 2 ^ 1024 * one <=? m then Infinity negative
  else Finite (if negative then - m else m).

(** The double nearest to [n] multiples of 2^-1074. *)
Definition of_units (n : Z) : t := nearest (n <? 0) (Z.abs n) 1.

(** The Number of an integer. *)
Definition of_Z (z : Z) : t := of_units (z * one).

Definition is_finite (x : t) : bool :=
  match x with
  | Finite _ => true
  | _ => false
  end.

(** [x + y] *)
Definition add (x y : t) : t :=
  match x, y with
  | NaN, _ | _, NaN => NaN
  | Infinity a, Infinity b => if Bool.eqb a b then Infinity a else NaN
  | Infinity a, Finite _ | Finite _, Infinity a => Infinity a
  | Finite a, Finite b => of_units (a + b)
  end.

(** [- x] *)
Definition opp (x : t) : t :=
  match x with
  | NaN => NaN
  | Infinity negative => Infinity (negb negative)
  | Finite n => Finite (- n)
  end.

(** [x - y] *)
Definition sub (x y : t) : t := add x (opp y).

(** [x > 0] *)
Definition positive (x : t) : bool :=
  match x with
  | NaN => false
  | Infinity negative => negb negative
  | Finite n => 0 <? n
  end.

(** [x <= y] as numbers; NaN is below and above nothing. *)
Definition le (x y : t) : Prop :=
  match x, y with
  | NaN, _ | _, NaN => False
  | Infinity true, _ | _, Infinity false => True
  | Infinity false, _ | _, Infinity true => False
  | Finite a, Finite b => a <= b
  end.

(** *** Number.prototype.toFixed *)

Definition digit_char (d : Z) : ascii := ascii_of_N (Z.to_N (48 + d)).

Fixpoint digits_from (fuel : nat) (n : Z) (tail : string) : string :=
  let tail' := String (digit_char (n mod 10)) tail in
  match fuel with
  | O => tail'
  | S fuel' => if n <? 10 then tail' else digits_from fuel' (n / 10) tail'
  end.

(** The decimal digits of [n], [0 <= n]. *)
Definition digits (n : Z) : string :=
  digits_from (Z.to_nat (Z.log2 n)) n "".

(** The last [width] decimal digits of [n], zeros included. *)
Fixpoint fixed_digits (width : nat) (n : Z) : string :=
  match width with
  | O => ""
  | S width' =>
      fixed_digits width' (n / 10) ++ String (digit_char (n mod 10)) ""
  end.

(** [n] with a point after its first digit and the exponent [e - 1]:
    "1.5e+21". *)
Definition exponent_form (n e : Z) : string :=
  match digits n with
  | String d "" => String d ("e+" ++ digits (e - 1))
  | String d ds => String d ("." ++ ds ++ "e+" ++ digits (e - 1))
  | "" => ""
  end.

(** The integer [c] is read back as the double of value [x]. *)
Definition reads_as (x c : Z) : bool :=
  match of_units (c * one) with
  | Finite v => v =? x * one
  | _ => false
  end.

(** Number::toString for a double of integer value [x] with [e] decimal
    digits, 10^21 <= x: the fewest digits [k] that read back as [x], and
    of two candidates the closer one. *)
Fixpoint shortest (fuel : nat) (k : Z) (x e : Z) : string :=
  let scale := 10 ^ (e - k) in
  let lo := x / scale in
  let hi := lo + 1 in
  let write c :=
    if c =? 10 ^ k then exponent_form (10 ^ (k - 1)) (e + 1)
    else exponent_form c e in
  match reads_as x (lo * scale), reads_as x (hi * scale) with
  | true, false => write lo
  | false, true => write hi
  | true, true =>
      match Z.compare (x - lo * scale) (hi * scale - x) with
      | Lt => write lo
      | Gt => write hi
      | Eq => if Z.even lo then write lo else write hi
      end
  | false, false =>
      match fuel with
      | O => write lo
      | S fuel' => shortest fuel' (k + 1) x e
      end
  end.

Definition toString_large (x : Z) : string :=
  shortest 17 1 x (Z.of_nat (String.length (digits x))).

(** [x.toFixed(fractionDigits)]: the integer [n] for which
    [n / 10^fractionDigits - x] is closest to zero, the larger one of two,
    written with the point before its last [fractionDigits] digits; a
    number that is not finite, or 10^21 and more, is written as
    [toString] writes it. *)
Definition toFixed (fractionDigits : nat) (x : t) : string :=
  match x with
  | NaN => "NaN"
  | Infinity negative => if negative then "-Infinity" else "Infinity"
  | Finite v =>
      let s := if v <? 0 then "-" else "" in
      let a := Z.abs v in
      if 10 ^ 21 * one <=? a then s ++ toString_large (a / one)
      else
        let f := 10 ^ Z.of_nat fractionDigits in
        let n := (2 * a * f + one) / (2 * one) in
        s ++ digits (n / f)
          ++ match fractionDigits with
             | O => ""
             | _ => "." ++ fixed_digits fractionDigits (n mod f)
             end
  end.

End JsNumber.

Module Math.

(** [Math.floor(x)] *)
Definition floor (x : JsNumber.t) : JsNumber.t :=
  match x with
  | JsNumber.Finite n => JsNumber.Finite (n / JsNumber.one * JsNumber.one)
  | _ => x
  end.

End Math.

(** *** parseFloat

    The text is taken in UTF-8.  [parseFloat] skips leading white space,
    reads the longest prefix that is a decimal literal (sign, digits,
    point, digits, exponent, or [Infinity]) and returns the double nearest
    to its value, NaN when there is no such prefix. *)

Definition digit_of (c : ascii) : option Z :=
  let n := Z.of_N (N_of_ascii c) in
  if (48 <=? n) && (n <=? 57) then Some (n - 48) else None.

(** The digits at the head of [s]: their value read after [acc], their
    number added to [count], and the rest of [s]. *)
Fixpoint scan_digits (s : string) (acc count : Z) : Z * Z * string :=
  match s with
  | String c s' =>
      match digit_of c with
      | Some d => scan_digits s' (10 * acc + d) (count + 1)
      | None => (acc, count, s)
      end
  | EmptyString => (acc, count, s)
  end.

(** White space and line terminators of one byte: TAB, LF, VT, FF, CR and
    the space. *)
Definition white1 (c : ascii) : bool :=
  let n := Z.of_N (N_of_ascii c) in
  ((9 <=? n) && (n <=? 13)) || (n =? 32).

(** U+00A0. *)
Definition white2 (c1 c2 : ascii) : bool :=
  (Z.of_N (N_of_ascii c1) =? 194) && (Z.of_N (N_of_ascii c2) =? 160).

(** U+1680, U+2000 to U+200A, U+2028, U+2029, U+202F, U+205F, U+3000 and
    U+FEFF. *)
Definition white3 (c1 c2 c3 : ascii) : bool :=
  let a := Z.of_N (N_of_ascii c1) in
  let b := Z.of_N (N_of_ascii c2) in
  let c := Z.of_N (N_of_ascii c3) in
  ((a =? 225) && (b =? 154) && (c =? 128))
  || ((a =? 226) && (b =? 128)
      && (((128 <=? c) && (c <=? 138)) || (c =? 168) || (c =? 169)
          || (c =? 175)))
  || ((a =? 226) && (b =? 129) && (c =? 159))
  || ((a =? 227) && (b =? 128) && (c =? 128))
  || ((a =? 239) && (b =? 187) && (c =? 191)).

Fixpoint trimStart (s : string) : string :=
  match s with
  | String c1 s1 =>
      if white1 c1 then trimStart s1
      else
        match s1 with
        | String c2 s2 =>
            if white2 c1 c2 then trimStart s2
            else
              match s2 with
              | String c3 s3 =>
                  if white3 c1 c2 c3 then trimStart s3 else s
              | EmptyString => s
              end
        | EmptyString => s
        end
  | EmptyString => s
  end.

(** An optional sign. *)
Definition signed (s : string) : bool * string :=
  match s with
  | String "-" s' => (true, s')
  | String "+" s' => (false, s')
  | _ => (false, s)
  end.

(** The value of the exponent part at the head of [s], 0 when there is
    none: [e] or [E], an optional sign, and at least one digit. *)
Definition exponent_of (s : string) : Z :=
  match s with
  | String c s' =>
      if (Ascii.eqb c "e" || Ascii.eqb c "E")%bool then
        let (negative, s'') := signed s' in
        let '(e, count, _) := scan_digits s'' 0 0 in
        if count =? 0 then 0 else if negative then - e else e
      else 0
  | EmptyString => 0
  end.

(** The power of ten is kept within the range where it matters: a
    literal with a digit other than 0 and 10^310 is infinite, and one
    below 10^-330 is zero. *)
Definition parseFloat (inputString : string) : JsNumber.t :=
  let (negative, unsigned) := signed (trimStart inputString) in
  if String.prefix "Infinity" unsigned then JsNumber.Infinity negative
  else
    let '(int, n_int, rest) := scan_digits unsigned 0 0 in
    let '(mantissa, n_frac, rest') :=
      match rest with
      | String "." r => scan_digits r int 0
      | _ => (int, 0, rest)
      end in
    if n_int + n_frac =? 0 then JsNumber.NaN
    else
      let scale :=
        Z.max (- (n_int + n_frac) - 330)
          (Z.min 310 (exponent_of rest' - n_frac)) in
      if 0 <=? scale then
        JsNumber.nearest negative (mantissa * 10 ^ scale * JsNumber.one) 1
      else
        JsNumber.nearest negative (mantissa * JsNumber.one) (10 ^ (- scale)).

(** ** Row types (shared/schema.ts) *)

Definition Date : Type := nat.

(** A [decimal(10,2)] amount that the storage layer only stores and
    copies, in hundredths of the currency unit. *)
Definition Decimal : Type := Z.

(** The text of an amount of [d] hundredths, with two decimals as a
    [decimal(10,2)] column holds it: "141.05" for 14105. *)
Definition decimal_text (d : Decimal) : string :=
  (if d <? 0 then "-" else "")
  ++ JsNumber.digits (Z.abs d / 100)
  ++ "." ++ JsNumber.fixed_digits 2 (Z.abs d mod 100).

(** JavaScript truthiness of an optional string: [undefined], [null] and
    the empty string are falsy. *)
Definition truthy (s : option string) : bool :=
  match s with
  | None => false
  | Some s => negb (String.eqb s "")
  end.

Module User.
Record t : Type := mk
  { id : string; username : string; password : string;
    role : string; isActive : bool }.
End User.

Module Product.
Record t : Type := mk
  { id : string; name : string; sku : string;
    barcode : option string; description : option string;
    categoryId : option string; supplierId : option string;
    costPrice : Decimal; sellingPrice : Decimal;
    quantity : Z; minStockLevel : Z;
    trackStock : bool; isActive : bool;
    imageUrl : option string;
    createdAt : option Date; updatedAt : option Date }.

Definition with_quantity (q : Z) (p : t) : t :=
  mk (id p) (name p) (sku p) (barcode p) (description p) (categoryId p)
     (supplierId p) (costPrice p) (sellingPrice p) q (minStockLevel p)
     (trackStock p) (isActive p) (imageUrl p) (createdAt p) (updatedAt p).

Definition with_costPrice (c : Decimal) (p : t) : t :=
  mk (id p) (name p) (sku p) (barcode p) (description p) (categoryId p)
     (supplierId p) c (sellingPrice p) (quantity p) (minStockLevel p)
     (trackStock p) (isActive p) (imageUrl p) (createdAt p) (updatedAt p).

Definition with_updatedAt (d : option Date) (p : t) : t :=
  mk (id p) (name p) (sku p) (barcode p) (description p) (categoryId p)
     (supplierId p) (costPrice p) (sellingPrice p) (quantity p)
     (minStockLevel p) (trackStock p) (isActive p) (imageUrl p)
     (createdAt p) d.
End Product.

Module Customer.
Record t : Type := mk
  { id : string; name : string; email : option string;
    phone : option string; address : option string; city : option string;
    loyaltyPoints : JsNumber.t; totalSpent : string;
    createdAt : option Date }.

Definition with_spend (spent : string) (points : JsNumber.t) (c : t) : t :=
  mk (id c) (name c) (email c) (phone c) (address c) (city c)
     points spent (createdAt c).
End Customer.

Module InsertSale.
Record t : Type := mk
  { invoiceNumber : string; customerId : option string; userId : string;
    subtotal : string; taxAmount : string; discountAmount : string;
    total : string; paymentMethod : string; status : string }.
End InsertSale.

Module Sale.
Record t : Type := mk
  { id : string; invoiceNumber : string; customerId : option string;
    userId : string;
    subtotal : string; taxAmount : string; discountAmount : string;
    total : string; paymentMethod : string; status : string;
    createdAt : option Date }.

(** [{ ...insertSale, id, createdAt }] *)
Definition of_insert (s : InsertSale.t) (i : string) (d : option Date) : t :=
  mk i (InsertSale.invoiceNumber s) (InsertSale.customerId s)
     (InsertSale.userId s) (InsertSale.subtotal s) (InsertSale.taxAmount s)
     (InsertSale.discountAmount s) (InsertSale.total s)
     (InsertSale.paymentMethod s) (InsertSale.status s) d.
End Sale.

Module InsertSaleItem.
Record t : Type := mk
  { saleId : string; productId : string; quantity : Z;
    unitPrice : string; totalPrice : string }.
End InsertSaleItem.

Module SaleItem.
Record t : Type := mk
  { id : string; saleId : string; productId : string; quantity : Z;
    unitPrice : string; totalPrice : string }.

(** [{ ...itemData, id, saleId }] *)
Definition of_insert (it : InsertSaleItem.t) (i sale : string) : t :=
  mk i sale (InsertSaleItem.productId it) (InsertSaleItem.quantity it)
     (InsertSaleItem.unitPrice it) (InsertSaleItem.totalPrice it).
End SaleItem.

Module StockMovement.
Record t : Type := mk
  { id : string; productId : string; movementType : string;
    quantity : Z; reason : option string; reference : option string;
    userId : string; createdAt : option Date }.
End StockMovement.

Module InsertReturn.
Record t : Type := mk
  { saleId : string; productId : string; quantity : Z;
    reason : string; refundAmount : Decimal; userId : string }.
End InsertReturn.

Module Return.
Record t : Type := mk
  { id : string; saleId : string; productId : string; quantity : Z;
    reason : string; refundAmount : Decimal; userId : string;
    createdAt : option Date }.

(** [{ ...insertReturn, id, createdAt }] *)
Definition of_insert (r : InsertReturn.t) (i : string) (d : option Date) : t :=
  mk i (InsertReturn.saleId r) (InsertReturn.productId r)
     (InsertReturn.quantity r) (InsertReturn.reason r)
     (InsertReturn.refundAmount r) (InsertReturn.userId r) d.
End Return.

Module PurchaseOrder.
Record t : Type := mk
  { id : string; orderNumber : string; supplierId : string;
    status : string; totalAmount : Decimal; userId : string;
    createdAt : option Date; receivedAt : option Date }.

(** [{ ...order, status: 'received', receivedAt }] *)
Definition with_received (d : option Date) (o : t) : t :=
  mk (id o) (orderNumber o) (supplierId o) "received" (totalAmount o)
     (userId o) (createdAt o) d.
End PurchaseOrder.

Module PurchaseOrderItem.
Record t : Type := mk
  { id : string; purchaseOrderId : string; productId : string;
    quantity : Z; unitCost : Decimal; totalCost : Decimal }.
End PurchaseOrderItem.

(** ** The store

    The private maps of [MemStorage]; the same record stands for the
    tables of the relational store, each table keyed by its primary key. *)

Record Store : Type := mkStore
  { users : JsMap.t User.t;
    products : JsMap.t Product.t;
    customers : JsMap.t Customer.t;
    sales : JsMap.t Sale.t;
    saleItems : JsMap.t SaleItem.t;
    stockMovements : JsMap.t StockMovement.t;
    returns : JsMap.t Return.t;
    purchaseOrders : JsMap.t PurchaseOrder.t;
    purchaseOrderItems : JsMap.t PurchaseOrderItem.t;
    uuids : nat;
    clock : Date }.

Definition with_products (v : JsMap.t Product.t) (st : Store) : Store :=
  mkStore (users st) v (customers st) (sales st) (saleItems st)
    (stockMovements st) (returns st) (purchaseOrders st)
    (purchaseOrderItems st) (uuids st) (clock st).

Definition with_customers (v : JsMap.t Customer.t) (st : Store) : Store :=
  mkStore (users st) (products st) v (sales st) (saleItems st)
    (stockMovements st) (returns st) (purchaseOrders st)
    (purchaseOrderItems st) (uuids st) (clock st).

Definition with_sales (v : JsMap.t Sale.t) (st : Store) : Store :=
  mkStore (users st) (products st) (customers st) v (saleItems st)
    (stockMovements st) (returns st) (purchaseOrders st)
    (purchaseOrderItems st) (uuids st) (clock st).

Definition with_saleItems (v : JsMap.t SaleItem.t) (st : Store) : Store :=
  mkStore (users st) (products st) (customers st) (sales st) v
    (stockMovements st) (returns st) (purchaseOrders st)
    (purchaseOrderItems st) (uuids st) (clock st).

Definition with_stockMovements (v : JsMap.t StockMovement.t) (st : Store)
  : Store :=
  mkStore (users st) (products st) (customers st) (sales st) (saleItems st)
    v (returns st) (purchaseOrders st)
    (purchaseOrderItems st) (uuids st) (clock st).

Definition with_returns (v : JsMap.t Return.t) (st : Store) : Store :=
  mkStore (users st) (products st) (customers st) (sales st) (saleItems st)
    (stockMovements st) v (purchaseOrders st)
    (purchaseOrderItems st) (uuids st) (clock st).

Definition with_purchaseOrders (v : JsMap.t PurchaseOrder.t) (st : Store)
  : Store :=
  mkStore (users st) (products st) (customers st) (sales st) (saleItems st)
    (stockMovements st) (returns st) v
    (purchaseOrderItems st) (uuids st) (clock st).

(** ** Effects: a state monad over the store *)

Definition M (A : Type) : Type := Store -> A * Store.

Definition ret {A : Type} (a : A) : M A := fun st => (a, st).

Definition bind {A B : Type} (c : M A) (k : A -> M B) : M B :=
  fun st => let (a, st') := c st in k a st'.

Declare Scope store_scope.
Delimit Scope store_scope with store.
Notation "x <- c ;; k" := (bind c (fun x => k))
  (at level 61, c at next level, right associativity) : store_scope.
Notation "c ;; k" := (bind c (fun _ => k))
  (at level 61, right associativity) : store_scope.
Local Open Scope store_scope.

Definition gets {A : Type} (f : Store -> A) : M A := fun st => (f st, st).

Definition modify (f : Store -> Store) : M unit := fun st => (tt, f st).

(** [for (const x of xs) { body x }] *)
Fixpoint for_of {A : Type} (xs : list A) (body : A -> M unit) : M unit :=
  match xs with
  | [] => ret tt
  | x :: xs' => body x ;; for_of xs' body
  end.

(** The textual form of the [n]-th identifier drawn from [randomUUID]. *)
Definition uuid_of (n : nat) : string :=
  ("uuid-" ++ NilEmpty.string_of_uint (Nat.to_uint n))%string.

Definition randomUUID : M string :=
  fun st =>
    (uuid_of (uuids st),
     mkStore (users st) (products st) (customers st) (sales st)
       (saleItems st) (stockMovements st) (returns st) (purchaseOrders st)
       (purchaseOrderItems st) (S (uuids st)) (clock st)).

Definition newDate : M Date :=
  fun st =>
    (clock st,
     mkStore (users st) (products st) (customers st) (sales st)
       (saleItems st) (stockMovements st) (returns st) (purchaseOrders st)
       (purchaseOrderItems st) (uuids st) (S (clock st))).

(** ** MemStorage (server/storage.ts, in-memory revision) *)

Module MemStorage.

Definition updateProductStock (id : string) (quantity : Z)
    (movementType : string) (reason : option string)
    (userId : option string) : M bool :=
  product <- gets (fun st => JsMap.get id (products st)) ;;
  match product with
  | None => ret false
  | Some product =>
      now <- newDate ;;
      let updatedProduct :=
        Product.with_updatedAt (Some now)
          (Product.with_quantity (Product.quantity product + quantity)
             product) in
      modify (fun st =>
        with_products (JsMap.set id updatedProduct (products st)) st) ;;
      (* Create stock movement record *)
      (if truthy userId then
         mid <- randomUUID ;;
         created <- newDate ;;
         let movement :=
           StockMovement.mk mid id movementType quantity reason None
             (match userId with Some u => u | None => "" end)
             (Some created) in
         modify (fun st =>
           with_stockMovements
             (JsMap.set (StockMovement.id movement) movement
                (stockMovements st)) st)
       else ret tt) ;;
      ret true
  end.

(** The body of the loop over the lines of a sale. *)
Definition createSale_line (sale : Sale.t) (itemData : InsertSaleItem.t)
  : M unit :=
  iid <- randomUUID ;;
  let saleItem := SaleItem.of_insert itemData iid (Sale.id sale) in
  modify (fun st =>
    with_saleItems
      (JsMap.set (SaleItem.id saleItem) saleItem (saleItems st)) st) ;;
  (* Update product stock *)
  _ <- updateProductStock (SaleItem.productId saleItem)
         (- SaleItem.quantity saleItem) "sale"
         (Some ("Sale " ++ Sale.invoiceNumber sale)%string)
         (Some (Sale.userId sale)) ;;
  ret tt.

(** The update of the customer's total spent and loyalty points. *)
Definition createSale_customer (sale : Sale.t) : M unit :=
  if truthy (Sale.customerId sale) then
    let cid := match Sale.customerId sale with Some c => c | None => "" end in
    customer <- gets (fun st => JsMap.get cid (customers st)) ;;
    match customer with
    | Some customer =>
        let totalSpent :=
          JsNumber.add (parseFloat (Customer.totalSpent customer))
                       (parseFloat (Sale.total sale)) in
        let loyaltyPoints :=
          JsNumber.add (Customer.loyaltyPoints customer)
                       (Math.floor (parseFloat (Sale.total sale))) in
        let updatedCustomer :=
          Customer.with_spend (JsNumber.toFixed 2 totalSpent) loyaltyPoints
            customer in
        modify (fun st =>
          with_customers (JsMap.set cid updatedCustomer (customers st)) st)
    | None => ret tt
    end
  else ret tt.

Definition createSale (insertSale : InsertSale.t)
    (items : list InsertSaleItem.t) : M Sale.t :=
  id <- randomUUID ;;
  created <- newDate ;;
  let sale := Sale.of_insert insertSale id (Some created) in
  modify (fun st => with_sales (JsMap.set id sale (sales st)) st) ;;
  (* Create sale items and update stock *)
  for_of items (createSale_line sale) ;;
  (* Update customer total spent and loyalty points *)
  createSale_customer sale ;;
  ret sale.

Definition createReturn (insertReturn : InsertReturn.t) : M Return.t :=
  id <- randomUUID ;;
  created <- newDate ;;
  let returnItem := Return.of_insert insertReturn id (Some created) in
  modify (fun st => with_returns (JsMap.set id returnItem (returns st)) st) ;;
  (* Update stock *)
  _ <- updateProductStock (Return.productId returnItem)
         (Return.quantity returnItem) "return"
         (Some ("Return: " ++ Return.reason returnItem)%string)
         (Some (Return.userId returnItem)) ;;
  ret returnItem.

(** The body of the loop over the items of a received purchase order. *)
Definition receivePurchaseOrder_item (order : PurchaseOrder.t)
    (userId : string) (item : PurchaseOrderItem.t) : M unit :=
  _ <- updateProductStock (PurchaseOrderItem.productId item)
         (PurchaseOrderItem.quantity item) "purchase"
         (Some ("Purchase Order " ++ PurchaseOrder.orderNumber order)%string)
         (Some userId) ;;
  (* Update product cost price *)
  product <- gets (fun st =>
    JsMap.get (PurchaseOrderItem.productId item) (products st)) ;;
  match product with
  | Some product =>
      now <- newDate ;;
      let updatedProduct :=
        Product.with_updatedAt (Some now)
          (Product.with_costPrice (PurchaseOrderItem.unitCost item)
             product) in
      modify (fun st =>
        with_products
          (JsMap.set (PurchaseOrderItem.productId item) updatedProduct
             (products st)) st)
  | None => ret tt
  end.

Definition receivePurchaseOrder (id : string) (userId : string) : M bool :=
  order <- gets (fun st => JsMap.get id (purchaseOrders st)) ;;
  match order with
  | None => ret false
  | Some order =>
      if String.eqb (PurchaseOrder.status order) "received" then ret false
      else
        (* Update order status *)
        now <- newDate ;;
        let updatedOrder := PurchaseOrder.with_received (Some now) order in
        modify (fun st =>
          with_purchaseOrders
            (JsMap.set id updatedOrder (purchaseOrders st)) st) ;;
        (* Update stock for all items *)
        orderItems <- gets (fun st =>
          filter (fun item =>
                    String.eqb (PurchaseOrderItem.purchaseOrderId item) id)
                 (JsMap.values (purchaseOrderItems st))) ;;
        for_of orderItems (receivePurchaseOrder_item order userId) ;;
        ret true
  end.

(** *** Reporting *)

Record Stats : Type := mkStats
  { stats_totalSold : Z; stats_revenue : JsNumber.t }.

Record TopProduct : Type := mkTop
  { product : Product.t; totalSold : Z; revenue : JsNumber.t }.

(** One step of the loop that fills [productSales]. *)
Definition tally (productSales : JsMap.t Stats) (item : SaleItem.t)
  : JsMap.t Stats :=
  let existing :=
    match JsMap.get (SaleItem.productId item) productSales with
    | Some s => s
    | None => mkStats 0 JsNumber.zero
    end in
  JsMap.set (SaleItem.productId item)
    (mkStats (stats_totalSold existing + SaleItem.quantity item)
             (JsNumber.add (stats_revenue existing)
                           (parseFloat (SaleItem.totalPrice item))))
    productSales.

Definition productSales_of (items : list SaleItem.t) : JsMap.t Stats :=
  fold_left tally items JsMap.empty.

(** [.map(([productId, stats]) => ({ product: products.get(productId)!,
    ...stats })).filter(item => item.product)]: an entry whose product is
    not in the store is dropped. *)
Fixpoint with_products_of (ps : JsMap.t Product.t)
    (es : list (string * Stats)) : list TopProduct :=
  match es with
  | [] => []
  | (productId, stats) :: es' =>
      match JsMap.get productId ps with
      | Some p =>
          mkTop p (stats_totalSold stats) (stats_revenue stats)
            :: with_products_of ps es'
      | None => with_products_of ps es'
      end
  end.

(** [Array.prototype.sort((a, b) => b.revenue - a.revenue)]: a stable
    sort, written as an insertion sort; an entry stays before a later one
    unless the comparator, [b.revenue - a.revenue], is positive for the
    pair.  A revenue of NaN makes the comparator inconsistent, and the
    order of the result is then the engine's choice. *)
Fixpoint insert_by_revenue (x : TopProduct) (l : list TopProduct)
  : list TopProduct :=
  match l with
  | [] => [x]
  | y :: l' =>
      if JsNumber.positive (JsNumber.sub (revenue y) (revenue x))
      then y :: insert_by_revenue x l'
      else x :: y :: l'
  end.

Definition sort_by_revenue (l : list TopProduct) : list TopProduct :=
  fold_right insert_by_revenue [] l.

(** [Array.prototype.slice(0, end)], a negative [end] counting from the
    end of the array. *)
Definition slice0 {A : Type} (end_ : Z) (l : list A) : list A :=
  let len := Z.of_nat (List.length l) in
  let final := if end_ <? 0 then Z.max (len + end_) 0 else Z.min end_ len in
  firstn (Z.to_nat final) l.

Definition default_limit : Z := 5.

Definition getTopProducts (limit : option Z) (st : Store) : list TopProduct :=
  let limit := match limit with Some n => n | None => default_limit end in
  let productSales := productSales_of (JsMap.values (saleItems st)) in
  slice0 limit
    (sort_by_revenue
       (with_products_of (products st) (JsMap.entries productSales))).

End MemStorage.

(** The stock-adjustment route, POST /api/products/:id/adjust-stock, on
    the in-memory store: [req.user.id] is the acting user. *)
Definition adjust_stock (id : string) (quantity : Z) (reason : option string)
    (user_id : string) : M bool :=
  MemStorage.updateProductStock id quantity "adjustment" reason
    (Some user_id).

(** ** The relational store behind DatabaseStorage

    Each statement is sent on its own over the HTTP driver and commits on
    its own: there is no enclosing transaction, so what a statement wrote
    stays written when a later statement throws.  The constraints are those
    declared in shared/schema.ts: primary keys default to
    [gen_random_uuid()], [created_at] defaults to [now()], the [references]
    clauses are foreign keys and [invoice_number] is unique. *)

Inductive DbError : Type :=
| ForeignKeyViolation (table column : string)
| UniqueViolation (table column : string).

Inductive Outcome (A : Type) : Type :=
| Ok (a : A)
| Throw (e : DbError).
Arguments Ok {A} a.
Arguments Throw {A} e.

Definition DB (A : Type) : Type := Store -> Outcome A * Store.

Definition db_ret {A : Type} (a : A) : DB A := fun st => (Ok a, st).

Definition db_bind {A B : Type} (c : DB A) (k : A -> DB B) : DB B :=
  fun st =>
    match c st with
    | (Ok a, st') => k a st'
    | (Throw e, st') => (Throw e, st')
    end.

Definition throw {A : Type} (e : DbError) : DB A := fun st => (Throw e, st).

(** [try { c } catch (error) { h }] *)
Definition try_catch {A : Type} (c : DB A) (h : DbError -> DB A) : DB A :=
  fun st =>
    match c st with
    | (Ok a, st') => (Ok a, st')
    | (Throw e, st') => h e st'
    end.

Definition lift {A : Type} (c : M A) : DB A :=
  fun st => let (a, st') := c st in (Ok a, st').

Declare Scope db_scope.
Delimit Scope db_scope with db.
Notation "x <- c ;; k" := (db_bind c (fun x => k))
  (at level 61, c at next level, right associativity) : db_scope.
Notation "c ;; k" := (db_bind c (fun _ => k))
  (at level 61, right associativity) : db_scope.

Fixpoint db_for_of {A : Type} (xs : list A) (body : A -> DB unit) : DB unit :=
  match xs with
  | [] => db_ret tt
  | x :: xs' => db_bind (body x) (fun _ => db_for_of xs' body)
  end.

Module Table.

(** [UPDATE ... SET ... WHERE id = k]: the row with primary key [k], if
    there is one, is rewritten; no row is not an error. *)
Fixpoint update_where_id {V : Type} (k : string) (f : V -> V)
    (m : JsMap.t V) : JsMap.t V :=
  match m with
  | [] => []
  | (k', v) :: m' =>
      if String.eqb k' k then (k', f v) :: m'
      else (k', v) :: update_where_id k f m'
  end.

(** A foreign key: the referenced row must exist. *)
Definition references {A V : Type} (table column : string) (k : string)
    (m : JsMap.t V) (c : DB A) : DB A :=
  if JsMap.has k m then c else throw (ForeignKeyViolation table column).

End Table.

Module DatabaseStorage.

Local Open Scope db_scope.

(** [db.select().from(products).where(eq(products.id, id)).limit(1)] *)
Definition getProduct (id : string) : DB (option Product.t) :=
  lift (gets (fun st => JsMap.get id (products st))).

(** [db.update(products).set({ quantity }).where(eq(products.id, id))] *)
Definition update_products_quantity (id : string) (quantity : Z) : DB unit :=
  lift (modify (fun st =>
    with_products
      (Table.update_where_id id (Product.with_quantity quantity)
         (products st)) st)).

(** [db.insert(stockMovements).values({...})] *)
Definition insert_stockMovements (productId movementType : string)
    (quantity : Z) (reason reference : option string) (userId : string)
  : DB unit :=
  fun st =>
    Table.references "stock_movements" "product_id" productId (products st)
      (Table.references "stock_movements" "user_id" userId (users st)
         (lift (
            (mid <- randomUUID ;;
             created <- newDate ;;
             modify (fun st =>
               with_stockMovements
                 (JsMap.set mid
                    (StockMovement.mk mid productId movementType quantity
                       reason reference userId (Some created))
                    (stockMovements st)) st))%store))) st.

(** [db.insert(sales).values(insertSale).returning()] *)
Definition insert_sales (insertSale : InsertSale.t) : DB Sale.t :=
  fun st =>
    (if existsb (fun s => String.eqb (Sale.invoiceNumber s)
                            (InsertSale.invoiceNumber insertSale))
          (JsMap.values (sales st))
     then throw (UniqueViolation "sales" "invoice_number")
     else
       Table.references "sales" "user_id" (InsertSale.userId insertSale)
         (users st)
         (let ins :=
            lift (
              (id <- randomUUID ;;
               created <- newDate ;;
               let sale := Sale.of_insert insertSale id (Some created) in
               modify (fun st =>
                 with_sales (JsMap.set id sale (sales st)) st) ;;
               ret sale)%store) in
          match InsertSale.customerId insertSale with
          | Some cid =>
              Table.references "sales" "customer_id" cid (customers st) ins
          | None => ins
          end)) st.

(** [db.insert(saleItems).values({ ...item, saleId })] *)
Definition insert_saleItems (item : InsertSaleItem.t) (saleId : string)
  : DB unit :=
  fun st =>
    Table.references "sale_items" "sale_id" saleId (sales st)
      (Table.references "sale_items" "product_id"
         (InsertSaleItem.productId item) (products st)
         (lift (
            (iid <- randomUUID ;;
             modify (fun st =>
               with_saleItems
                 (JsMap.set iid (SaleItem.of_insert item iid saleId)
                    (saleItems st)) st))%store))) st.

Definition updateProductStock (id : string) (quantity : Z)
    (movementType : string) (reason : option string)
    (userId : option string) : DB bool :=
  try_catch
    ((* Update product quantity *)
     update_products_quantity id quantity ;;
     (* Create stock movement record *)
     (if truthy userId then
        insert_stockMovements id movementType quantity
          (if truthy reason then reason else None) None
          (match userId with Some u => u | None => "" end)
      else db_ret tt) ;;
     db_ret true)
    (fun _ => db_ret false).

(** The body of the loop over the lines of a sale. *)
Definition createSale_line (insertSale : InsertSale.t) (sale : Sale.t)
    (item : InsertSaleItem.t) : DB unit :=
  (* Insert sale item *)
  insert_saleItems item (Sale.id sale) ;;
  (* Update product stock *)
  product <- getProduct (InsertSaleItem.productId item) ;;
  match product with
  | Some product =>
      if Product.trackStock product then
        let newQuantity :=
          Product.quantity product - InsertSaleItem.quantity item in
        update_products_quantity (InsertSaleItem.productId item)
          newQuantity ;;
        (* Create stock movement record *)
        insert_stockMovements (InsertSaleItem.productId item) "sale"
          (- InsertSaleItem.quantity item) (Some "Sale transaction")
          (Some (Sale.id sale)) (InsertSale.userId insertSale)
      else db_ret tt
  | None => db_ret tt
  end.

Definition createSale (insertSale : InsertSale.t)
    (items : list InsertSaleItem.t) : DB Sale.t :=
  sale <- insert_sales insertSale ;;
  (* Insert sale items and update stock *)
  db_for_of items (createSale_line insertSale sale) ;;
  db_ret sale.

Definition receivePurchaseOrder (id : string) (userId : string) : DB bool :=
  try_catch
    (now <- lift newDate ;;
     lift (modify (fun st =>
       with_purchaseOrders
         (Table.update_where_id id
            (PurchaseOrder.with_received (Some now)) (purchaseOrders st))
         st)) ;;
     db_ret true)
    (fun _ => db_ret false).

(** "This would require complex aggregation - for now return empty
    array". *)
Definition getTopProducts (limit : option Z) (st : Store)
  : list MemStorage.TopProduct := [].

End DatabaseStorage.

(** ** Observations on a store *)

(** The movements of a product among [ms]. *)
Definition for_product (productId : string) (ms : list StockMovement.t)
  : list StockMovement.t :=
  filter (fun m => String.eqb (StockMovement.productId m) productId) ms.

(** The StockMovement rows recorded for a product, oldest first. *)
Definition movements_of (productId : string) (st : Store)
  : list StockMovement.t :=
  for_product productId (JsMap.values (stockMovements st)).

(** The sum of the signed quantity deltas of a list of movements. *)
Definition delta_sum (ms : list StockMovement.t) : Z :=
  fold_right (fun m acc => StockMovement.quantity m + acc) 0 ms.

Definition quantity_of (productId : string) (st : Store) : option Z :=
  option_map Product.quantity (JsMap.get productId (products st)).

(** The quantity of a product, 0 when the product is not in the store. *)
Definition stock (productId : string) (st : Store) : Z :=
  match JsMap.get productId (products st) with
  | Some p => Product.quantity p
  | None => 0
  end.

(** The sale lines of a product: quantities sold and revenue. *)
Definition items_of (productId : string) (items : list SaleItem.t)
  : list SaleItem.t :=
  filter (fun it => String.eqb (SaleItem.productId it) productId) items.

Definition sold (items : list SaleItem.t) : Z :=
  fold_right (fun it acc => SaleItem.quantity it + acc) 0 items.

(** The revenue of a list of sale lines as the report accumulates it: a
    running sum of doubles, from 0, in the order of the lines. *)
Definition earned (items : list SaleItem.t) : JsNumber.t :=
  fold_left
    (fun acc it => JsNumber.add acc (parseFloat (SaleItem.totalPrice it)))
    items JsNumber.zero.

(** Entry [e] of a top-products report carries the totals of the product
    stored under [pid]. *)
Definition aggregates (st : Store) (e : MemStorage.TopProduct)
    (pid : string) : Prop :=
  JsMap.get pid (products st) = Some (MemStorage.product e) /\
  MemStorage.totalSold e =
    sold (items_of pid (JsMap.values (saleItems st))) /\
  MemStorage.revenue e =
    earned (items_of pid (JsMap.values (saleItems st))).

(** Descending order of revenue. *)
Definition revenue_ge (a b : MemStorage.TopProduct) : Prop :=
  JsNumber.le (MemStorage.revenue b) (MemStorage.revenue a).

(** Every line carries a total that [parseFloat] reads as a finite
    number. *)
Definition priced (items : list SaleItem.t) : Prop :=
  Forall (fun it =>
            JsNumber.is_finite (parseFloat (SaleItem.totalPrice it)) = true)
         items.

(** No identifier that [randomUUID] has yet to draw is a key of [m]. *)
Definition fresh_from {V : Type} (n : nat) (m : JsMap.t V) : Prop :=
  forall i : nat, (n <= i)%nat -> JsMap.get (uuid_of i) m = None.

(** The maps keyed by generated identifiers hold none that is still to be
    drawn: [randomUUID] does not repeat itself. *)
Definition fresh_ids (st : Store) : Prop :=
  fresh_from (uuids st) (sales st) /\
  fresh_from (uuids st) (saleItems st) /\
  fresh_from (uuids st) (stockMovements st) /\
  fresh_from (uuids st) (returns st).

(** What an operation of the in-memory store leaves behind: identifiers
    stay fresh, no product appears or disappears, the movement log only
    grows, every row it gains is for a product of the store and, when the
    operation is [accounted] for (it carries an acting user), the stock of
    every product moved by the sum of the deltas recorded for it. *)
Definition ledger_extends (accounted : bool) (st st' : Store) : Prop :=
  fresh_ids st' /\
  (forall pid : string,
      JsMap.has pid (products st') = JsMap.has pid (products st)) /\
  exists recorded : list StockMovement.t,
    JsMap.values (stockMovements st') =
      JsMap.values (stockMovements st) ++ recorded /\
    Forall (fun m =>
              JsMap.has (StockMovement.productId m) (products st) = true)
           recorded /\
    (accounted = true ->
     forall pid : string,
       stock pid st' = stock pid st + delta_sum (for_product pid recorded)).

(** A sale line as it is stored under a sale. *)
Definition line_stored (sale : Sale.t) (line : InsertSaleItem.t)
    (item : SaleItem.t) : Prop :=
  SaleItem.saleId item = Sale.id sale /\
  SaleItem.productId item = InsertSaleItem.productId line /\
  SaleItem.quantity item = InsertSaleItem.quantity line /\
  SaleItem.unitPrice item = InsertSaleItem.unitPrice line /\
  SaleItem.totalPrice item = InsertSaleItem.totalPrice line.

(** ** Ledger operations

    The four paths that mutate stock on the in-memory store, each with the
    acting user it carries. *)

Inductive LedgerOp : Type :=
| OpSale (sale : InsertSale.t) (items : list InsertSaleItem.t)
| OpAdjust (id : string) (quantity : Z) (reason : option string)
    (userId : string)
| OpReturn (r : InsertReturn.t)
| OpReceive (orderId : string) (userId : string).

Definition op_actor (op : LedgerOp) : string :=
  match op with
  | OpSale sale _ => InsertSale.userId sale
  | OpAdjust _ _ _ userId => userId
  | OpReturn r => InsertReturn.userId r
  | OpReceive _ userId => userId
  end.

Definition run_op (op : LedgerOp) (st : Store) : Store :=
  match op with
  | OpSale sale items => snd (MemStorage.createSale sale items st)
  | OpAdjust id quantity reason userId =>
      snd (adjust_stock id quantity reason userId st)
  | OpReturn r => snd (MemStorage.createReturn r st)
  | OpReceive orderId userId =>
      snd (MemStorage.receivePurchaseOrder orderId userId st)
  end.

Definition run_ops (ops : list LedgerOp) (st : Store) : Store :=
  fold_left (fun s op => run_op op s) ops st.

(** ** Sample data *)

Definition sample_user (id : string) : User.t :=
  User.mk id "admin" "$2b$10$hash" "admin" true.

Definition sample_product (id : string) (quantity : Z) (costPrice : Decimal)
    (trackStock : bool) : Product.t :=
  Product.mk id ("Product " ++ id)%string ("SKU-" ++ id)%string
    None None None None
    costPrice 5000 quantity 10 trackStock true None
    (Some 0%nat) (Some 0%nat).

Definition sample_customer (id : string) (points : Z) (spent : Decimal)
  : Customer.t :=
  Customer.mk id "Sarah Johnson" None None None None
    (JsNumber.of_Z points) (decimal_text spent) (Some 0%nat).

Definition sample_sale (customerId : option string) (total : Decimal)
  : InsertSale.t :=
  InsertSale.mk "INV-1700000000000" customerId "u1"
    (decimal_text total) "0" "0" (decimal_text total) "cash" "completed".

Definition sample_line (productId : string) (quantity : Z)
    (unitPrice : Decimal) : InsertSaleItem.t :=
  InsertSaleItem.mk "" productId quantity (decimal_text unitPrice)
    (decimal_text (quantity * unitPrice)).

Definition store_of_products (ps : list Product.t) : Store :=
  mkStore [("u1", sample_user "u1")]
    (map (fun p => (Product.id p, p)) ps)
    [] [] [] [] [] [] [] 0%nat 1%nat.

(** Product P with 5 units in stock, tracked (scenarios A and B). *)
Definition store_P5 : Store :=
  store_of_products [sample_product "P" 5 350 true].

(** Product U with 5 units in stock, not tracked. *)
Definition store_U5 : Store :=
  store_of_products [sample_product "U" 5 350 false].

(** Product P (2 in stock, cost 3.50) and purchase order O, in the given
    status, with the single line (P, 20 units at 4.00) (scenario C). *)
Definition store_order (status : string) (receivedAt : option Date) : Store :=
  mkStore [("u1", sample_user "u1")]
    [("P", sample_product "P" 2 350 true)]
    [] [] [] [] []
    [("O", PurchaseOrder.mk "O" "PO-1700000000000" "S" status 8000 "u1"
             (Some 0%nat) receivedAt)]
    [("I", PurchaseOrderItem.mk "I" "O" "P" 20 400 8000)]
    0%nat 1%nat.

Definition sample_return (productId : string) (quantity : Z)
  : InsertReturn.t :=
  InsertReturn.mk "S1" productId quantity "defective" 5000 "u1".

(** One operation of each kind, all by user u1, for the store
    [store_order "pending" None]. *)
Definition sample_ops : list LedgerOp :=
  [ OpSale (sample_sale None 5000) [sample_line "P" 1 5000];
    OpAdjust "P" 4 (Some "recount") "u1";
    OpReturn (sample_return "P" 1);
    OpReceive "O" "u1" ].

(** Customer K with 450 points and 4750.00 spent. *)
Definition store_customer : Store :=
  with_customers [("K", sample_customer "K" 450 475000)] store_P5.

(** The sale history of scenario E: revenue 100 for A (in two sales),
    250 for B and 80 for C. *)
Definition store_E : Store :=
  with_saleItems
    [("s1", SaleItem.mk "s1" "S1" "A" 3 "20.00" "60.00");
     ("s2", SaleItem.mk "s2" "S1" "B" 5 "50.00" "250.00");
     ("s3", SaleItem.mk "s3" "S2" "A" 2 "20.00" "40.00");
     ("s4", SaleItem.mk "s4" "S2" "C" 1 "80.00" "80.00")]
    (store_of_products
       [sample_product "A" 10 1000 true;
        sample_product "B" 10 3000 true;
        sample_product "C" 10 6000 true]).

(** The same history after product B was deleted from the catalog. *)
Definition store_E_without_B : Store :=
  with_products
    [("A", sample_product "A" 10 1000 true);
     ("C", sample_product "C" 10 6000 true)]
    store_E.

(** The sale that the point-of-sale page sends for one unit at 15.00 with
    8.5% tax, to customer K: its amounts are [toString()] of doubles. *)
Definition sale_with_tax : InsertSale.t :=
  InsertSale.mk "INV-1700000000000" (Some "K") "u1"
    "15" "1.275" "0" "16.275" "cash" "completed".

(** One line of 0.30 for product Y, then lines of 0.10 and 0.20 for
    product X. *)
Definition store_near_tie : Store :=
  with_saleItems
    [("s1", SaleItem.mk "s1" "S1" "Y" 1 "0.30" "0.30");
     ("s2", SaleItem.mk "s2" "S1" "X" 1 "0.10" "0.10");
     ("s3", SaleItem.mk "s3" "S2" "X" 1 "0.20" "0.20")]
    (store_of_products
       [sample_product "X" 10 5 true; sample_product "Y" 10 10 true]).

(** ** The rest of the storage layer

    The methods of the two stores that the ledger operations above do not
    use, and the maps only they read. *)

Module Category.
Record t : Type := mk
  { id : string; name : string; slug : string;
    description : option string; createdAt : option Date }.
End Category.

Module Supplier.
Record t : Type := mk
  { id : string; name : string; contactPerson : option string;
    email : option string; phone : option string; address : option string;
    city : option string; country : option string;
    createdAt : option Date }.
End Supplier.

(** The maps [categories] and [suppliers] of the store.  No operation
    modelled here writes them; [getAllProducts] reads them. *)
Record Catalog : Type := mkCatalog
  { categories : JsMap.t Category.t;
    suppliers : JsMap.t Supplier.t }.

(** [Product & { category?: Category; supplier?: Supplier }] *)
Module ProductWithDetails.
Record t : Type := mk
  { base : Product.t;
    category : option Category.t;
    supplier : option Supplier.t }.
End ProductWithDetails.

(** [Partial<InsertProduct>]: a key that is absent is [None]; a nullable
    column that is present and null is [Some None]. *)
Module PartialProduct.
Record t : Type := mk
  { name : option string; sku : option string;
    barcode : option (option string);
    description : option (option string);
    categoryId : option (option string);
    supplierId : option (option string);
    costPrice : option Decimal; sellingPrice : option Decimal;
    quantity : option Z; minStockLevel : option Z;
    trackStock : option bool; isActive : option bool;
    imageUrl : option (option string) }.

Definition empty : t :=
  mk None None None None None None None None None None None None None.

Definition override {A : Type} (new : option A) (old : A) : A :=
  match new with Some a => a | None => old end.

(** [{ ...product, ...productData, updatedAt }] *)
Definition apply_to (d : t) (updatedAt : option Date) (p : Product.t)
  : Product.t :=
  Product.mk (Product.id p)
    (override (name d) (Product.name p))
    (override (sku d) (Product.sku p))
    (override (barcode d) (Product.barcode p))
    (override (description d) (Product.description p))
    (override (categoryId d) (Product.categoryId p))
    (override (supplierId d) (Product.supplierId p))
    (override (costPrice d) (Product.costPrice p))
    (override (sellingPrice d) (Product.sellingPrice p))
    (override (quantity d) (Product.quantity p))
    (override (minStockLevel d) (Product.minStockLevel p))
    (override (trackStock d) (Product.trackStock p))
    (override (isActive d) (Product.isActive p))
    (override (imageUrl d) (Product.imageUrl p))
    (Product.createdAt p) updatedAt.
End PartialProduct.

Module InsertStockMovement.
Record t : Type := mk
  { productId : string; movementType : string; quantity : Z;
    reason : option string; reference : option string; userId : string }.
End InsertStockMovement.

(** [Sale & { customer?, user?, items? }] as [getSale] builds it. *)
Module SaleWithDetails.
Record t : Type := mk
  { sale : Sale.t;
    customer : option Customer.t;
    user : option User.t;
    items : list (SaleItem.t * option Product.t) }.
End SaleWithDetails.

(** [Map.prototype.delete]: the entry of key [k] is removed, the order of
    the others is kept. *)
Definition map_delete {V : Type} (k : string) (m : JsMap.t V) : JsMap.t V :=
  filter (fun e => negb (String.eqb (fst e) k)) m.

Module MemStorageCrud.

Definition getProduct (id : string) (st : Store) : option Product.t :=
  JsMap.get id (products st).

Definition updateProduct (id : string) (productData : PartialProduct.t)
  : M (option Product.t) :=
  product <- gets (fun st => JsMap.get id (products st)) ;;
  match product with
  | None => ret None
  | Some product =>
      now <- newDate ;;
      let updatedProduct :=
        PartialProduct.apply_to productData (Some now) product in
      modify (fun st =>
        with_products (JsMap.set id updatedProduct (products st)) st) ;;
      ret (Some updatedProduct)
  end.

Definition deleteProduct (id : string) : M bool :=
  existed <- gets (fun st => JsMap.has id (products st)) ;;
  modify (fun st => with_products (map_delete id (products st)) st) ;;
  ret existed.

Definition getAllProducts (cat : Catalog) (st : Store)
  : list ProductWithDetails.t :=
  map (fun product =>
         ProductWithDetails.mk product
           (if truthy (Product.categoryId product) then
              match Product.categoryId product with
              | Some c => JsMap.get c (categories cat)
              | None => None
              end
            else None)
           (if truthy (Product.supplierId product) then
              match Product.supplierId product with
              | Some s => JsMap.get s (suppliers cat)
              | None => None
              end
            else None))
      (JsMap.values (products st)).

Definition getLowStockProducts (cat : Catalog) (st : Store)
  : list ProductWithDetails.t :=
  filter (fun product =>
            Product.trackStock (ProductWithDetails.base product)
            && (Product.quantity (ProductWithDetails.base product)
                <=? Product.minStockLevel (ProductWithDetails.base product)))
         (getAllProducts cat st).

Definition getCustomer (id : string) (st : Store) : option Customer.t :=
  JsMap.get id (customers st).

Definition deleteCustomer (id : string) : M bool :=
  existed <- gets (fun st => JsMap.has id (customers st)) ;;
  modify (fun st => with_customers (map_delete id (customers st)) st) ;;
  ret existed.

Definition getSale (id : string) (st : Store) : option SaleWithDetails.t :=
  match JsMap.get id (sales st) with
  | None => None
  | Some sale =>
      let items :=
        map (fun item =>
               (item, JsMap.get (SaleItem.productId item) (products st)))
            (filter (fun item => String.eqb (SaleItem.saleId item) id)
                    (JsMap.values (saleItems st))) in
      Some (SaleWithDetails.mk sale
              (if truthy (Sale.customerId sale) then
                 match Sale.customerId sale with
                 | Some c => JsMap.get c (customers st)
                 | None => None
                 end
               else None)
              (JsMap.get (Sale.userId sale) (users st))
              items)
  end.

Definition getAllSales (st : Store) : list SaleWithDetails.t :=
  flat_map (fun sale =>
              match getSale (Sale.id sale) st with
              | Some saleWithDetails => [saleWithDetails]
              | None => []
              end)
           (JsMap.values (sales st)).

Definition getSalesByDateRange (startDate endDate : Date) (st : Store)
  : list SaleWithDetails.t :=
  filter (fun s =>
            match Sale.createdAt (SaleWithDetails.sale s) with
            | Some d => Nat.leb startDate d && Nat.leb d endDate
            | None => false
            end)
         (getAllSales st).

Definition getSalesByCustomer (customerId : string) (st : Store)
  : list SaleWithDetails.t :=
  filter (fun s =>
            match Sale.customerId (SaleWithDetails.sale s) with
            | Some c => String.eqb c customerId
            | None => false
            end)
         (getAllSales st).

Definition createStockMovement (movement : InsertStockMovement.t)
  : M StockMovement.t :=
  id <- randomUUID ;;
  created <- newDate ;;
  let stockMovement :=
    StockMovement.mk id (InsertStockMovement.productId movement)
      (InsertStockMovement.movementType movement)
      (InsertStockMovement.quantity movement)
      (InsertStockMovement.reason movement)
      (InsertStockMovement.reference movement)
      (InsertStockMovement.userId movement) (Some created) in
  modify (fun st =>
    with_stockMovements (JsMap.set id stockMovement (stockMovements st)) st) ;;
  ret stockMovement.

Definition getStockMovements (productId : option string) (st : Store)
  : list StockMovement.t :=
  let movements := JsMap.values (stockMovements st) in
  if truthy productId then
    filter (fun movement =>
              String.eqb (StockMovement.productId movement)
                (match productId with Some p => p | None => "" end))
           movements
  else movements.

Definition getReturns (st : Store) : list Return.t :=
  JsMap.values (returns st).

Definition getPurchaseOrder (id : string) (st : Store)
  : option PurchaseOrder.t :=
  JsMap.get id (purchaseOrders st).

Definition getAllPurchaseOrders (st : Store) : list PurchaseOrder.t :=
  JsMap.values (purchaseOrders st).

End MemStorageCrud.

(** The row of the product listings of the relational store: the product
    with the names of its category and supplier. *)
Module ProductWithNames.
Record t : Type := mk
  { base : Product.t;
    category : option string;
    supplier : option string }.
End ProductWithNames.

Module DatabaseStorageCrud.

Local Open Scope db_scope.

(** [db.insert(returns).values(returnItem).returning()] *)
Definition insert_returns (returnItem : InsertReturn.t) : DB Return.t :=
  fun st =>
    Table.references "returns" "sale_id" (InsertReturn.saleId returnItem)
      (sales st)
      (Table.references "returns" "product_id"
         (InsertReturn.productId returnItem) (products st)
         (Table.references "returns" "user_id"
            (InsertReturn.userId returnItem) (users st)
            (lift (
               (id <- randomUUID ;;
                created <- newDate ;;
                let r := Return.of_insert returnItem id (Some created) in
                modify (fun st =>
                  with_returns (JsMap.set id r (returns st)) st) ;;
                ret r)%store)))) st.

Definition createReturn (returnItem : InsertReturn.t) : DB Return.t :=
  insert_returns returnItem.

(** [select ... from products left join categories ... left join
    suppliers ... where quantity <= min_stock_level], then the mapping of
    the joined names. *)
Definition getLowStockProducts (cat : Catalog) (st : Store)
  : list ProductWithNames.t :=
  map (fun p =>
         let category :=
           match Product.categoryId p with
           | Some c => option_map Category.name (JsMap.get c (categories cat))
           | None => None
           end in
         let supplier :=
           match Product.supplierId p with
           | Some s => option_map Supplier.name (JsMap.get s (suppliers cat))
           | None => None
           end in
         ProductWithNames.mk p
           (if truthy category then category else None)
           (if truthy supplier then supplier else None))
      (filter (fun p => Product.quantity p <=? Product.minStockLevel p)
              (JsMap.values (products st))).

End DatabaseStorageCrud.

(** ** Routes (server/routes.ts, on the in-memory store)

    [jwt.verify] is taken by its outcome: no token, a token that does not
    verify, or the user the token was signed for.  A request body field
    that must be a number is [Some] of the number, or [None] when the
    field is absent or of another type. *)

Module AuthUser.
Record t : Type := mk { id : string; username : string; role : string }.
End AuthUser.

Inductive Token : Type :=
| NoToken
| InvalidToken
| ValidToken (user : AuthUser.t).

Record Response : Type := mkResponse { code : Z; message : string }.

Module Routes.

Definition authenticateToken (token : Token)
    (next : AuthUser.t -> M Response) : M Response :=
  match token with
  | NoToken => ret (mkResponse 401 "Access token required")
  | InvalidToken => ret (mkResponse 403 "Invalid or expired token")
  | ValidToken user => next user
  end.

Definition requireRole (roles : list string) (user : AuthUser.t)
    (next : M Response) : M Response :=
  if existsb (String.eqb (AuthUser.role user)) roles then next
  else ret (mkResponse 403 "Insufficient permissions").

(** POST /api/products/:id/adjust-stock *)
Definition adjust_stock_route (token : Token) (id : string)
    (quantity : option Z) (reason : option string) : M Response :=
  authenticateToken token (fun user =>
    requireRole ["admin"; "manager"] user
      (match quantity with
       | None => ret (mkResponse 400 "Quantity must be a number")
       | Some quantity =>
           success <- MemStorage.updateProductStock id quantity
                        "adjustment" reason (Some (AuthUser.id user)) ;;
           if success then ret (mkResponse 200 "Stock adjusted successfully")
           else ret (mkResponse 404 "Product not found")
       end)).

(** POST /api/purchase-orders/:id/receive *)
Definition receive_route (token : Token) (id : string) : M Response :=
  authenticateToken token (fun user =>
    requireRole ["admin"; "manager"] user
      (success <- MemStorage.receivePurchaseOrder id (AuthUser.id user) ;;
       if success then
         ret (mkResponse 200 "Purchase order received successfully")
       else
         ret (mkResponse 404 "Purchase order not found or already received"))).

(** DELETE /api/products/:id *)
Definition delete_product_route (token : Token) (id : string) : M Response :=
  authenticateToken token (fun user =>
    requireRole ["admin"] user
      (deleted <- MemStorageCrud.deleteProduct id ;;
       if deleted then ret (mkResponse 204 "")
       else ret (mkResponse 404 "Product not found"))).

End Routes.

(** ** Client: the point-of-sale page and the stock badges

    The cart of client/src/pages/pos.tsx; a price is the decimal amount of
    [sellingPrice], in hundredths. *)

Module CartItem.
Record t : Type := mk
  { productId : string; product : ProductWithDetails.t;
    quantity : Z; unitPrice : Decimal; totalPrice : Decimal }.
End CartItem.

Module Pos.

Definition addToCart (products : list ProductWithDetails.t)
    (cart : list CartItem.t) (productId : string) : list CartItem.t :=
  match find (fun p =>
                String.eqb (Product.id (ProductWithDetails.base p)) productId)
             products with
  | None => cart
  | Some product =>
      match find (fun item => String.eqb (CartItem.productId item) productId)
                 cart with
      | Some _ =>
          map (fun item =>
                 if String.eqb (CartItem.productId item) productId then
                   CartItem.mk (CartItem.productId item)
                     (CartItem.product item)
                     (CartItem.quantity item + 1)
                     (CartItem.unitPrice item)
                     ((CartItem.quantity item + 1) * CartItem.unitPrice item)
                 else item)
              cart
      | None =>
          cart ++
          [CartItem.mk productId product 1
             (Product.sellingPrice (ProductWithDetails.base product))
             (Product.sellingPrice (ProductWithDetails.base product))]
      end
  end.

(** [cart.map(item => ...).filter(Boolean)] *)
Definition updateQuantity (cart : list CartItem.t) (productId : string)
    (change : Z) : list CartItem.t :=
  flat_map (fun item =>
              if String.eqb (CartItem.productId item) productId then
                let newQuantity := Z.max 0 (CartItem.quantity item + change) in
                if newQuantity =? 0 then []
                else
                  [CartItem.mk (CartItem.productId item)
                     (CartItem.product item) newQuantity
                     (CartItem.unitPrice item)
                     (newQuantity * CartItem.unitPrice item)]
              else [item])
           cart.

Definition removeFromCart (cart : list CartItem.t) (productId : string)
  : list CartItem.t :=
  filter (fun item => negb (String.eqb (CartItem.productId item) productId))
         cart.

Definition clearCart (cart : list CartItem.t) : list CartItem.t := [].

End Pos.

(** The stock badge of a product card on the point-of-sale page
    (client/src/components/pos/ProductGrid.tsx). *)
Module ProductGrid.

Definition getStockStatus (product : ProductWithDetails.t) : option string :=
  let p := ProductWithDetails.base product in
  if negb (Product.trackStock p) then None
  else if Product.quantity p =? 0 then Some "Out of Stock"
  else if Product.quantity p <=? Product.minStockLevel p
       then Some "Low Stock"
  else None.

Definition isOutOfStock (product : ProductWithDetails.t) : bool :=
  let p := ProductWithDetails.base product in
  Product.trackStock p && (Product.quantity p =? 0).

(** [onClick={() => !isOutOfStock && onAddToCart(product.id)}] *)
Definition onClick (products : list ProductWithDetails.t)
    (product : ProductWithDetails.t) (cart : list CartItem.t)
  : list CartItem.t :=
  if negb (isOutOfStock product) then
    Pos.addToCart products cart (Product.id (ProductWithDetails.base product))
  else cart.

End ProductGrid.

(** The stock badge of a row of the product table
    (client/src/components/products/ProductTable.tsx). *)
Module ProductTable.

Definition getStockStatus (product : ProductWithDetails.t) : string :=
  let p := ProductWithDetails.base product in
  if negb (Product.trackStock p) then "Not Tracked"
  else if Product.quantity p =? 0 then "Out of Stock"
  else if Product.quantity p <=? Product.minStockLevel p then "Low Stock"
  else "In Stock".

End ProductTable.

(** ** Observations and sample data for the rest of the code *)

(** The cart invariant: a line holds at least one unit, its total is the
    unit price times the quantity, and no product has two lines. *)
Definition cart_line_ok (item : CartItem.t) : Prop :=
  1 <= CartItem.quantity item /\
  CartItem.totalPrice item = CartItem.quantity item * CartItem.unitPrice item.

Definition cart_ok (cart : list CartItem.t) : Prop :=
  Forall cart_line_ok cart /\ NoDup (map CartItem.productId cart).

(** The total quantity of the sale lines for a product. *)
Definition lines_quantity (productId : string)
    (lines : list InsertSaleItem.t) : Z :=
  fold_right
    (fun line acc =>
       if String.eqb (InsertSaleItem.productId line) productId
       then InsertSaleItem.quantity line + acc else acc)
    0 lines.

(** The total quantity of the purchase-order items of an order for a
    product, and the unit cost of the last of them. *)
Definition order_items (orderId : string) (st : Store)
  : list PurchaseOrderItem.t :=
  filter (fun item => String.eqb (PurchaseOrderItem.purchaseOrderId item)
                        orderId)
         (JsMap.values (purchaseOrderItems st)).

Definition items_quantity (productId : string)
    (items : list PurchaseOrderItem.t) : Z :=
  fold_right
    (fun item acc =>
       if String.eqb (PurchaseOrderItem.productId item) productId
       then PurchaseOrderItem.quantity item + acc else acc)
    0 items.

Definition last_unit_cost (productId : string)
    (items : list PurchaseOrderItem.t) (cost : Decimal) : Decimal :=
  fold_left
    (fun c item =>
       if String.eqb (PurchaseOrderItem.productId item) productId
       then PurchaseOrderItem.unitCost item else c)
    items cost.

Definition no_catalog : Catalog := mkCatalog [] [].

Definition details_of (p : Product.t) : ProductWithDetails.t :=
  ProductWithDetails.mk p None None.

Definition manager : AuthUser.t := AuthUser.mk "u1" "maria" "manager".

Definition cashier : AuthUser.t := AuthUser.mk "u2" "carl" "cashier".

(** Two versions of a product that differ in nothing but the quantity
    and the time of the last update. *)
Definition same_listing (p p' : Product.t) : Prop :=
  Product.id p' = Product.id p /\
  Product.name p' = Product.name p /\
  Product.sku p' = Product.sku p /\
  Product.barcode p' = Product.barcode p /\
  Product.description p' = Product.description p /\
  Product.categoryId p' = Product.categoryId p /\
  Product.supplierId p' = Product.supplierId p /\
  Product.costPrice p' = Product.costPrice p /\
  Product.sellingPrice p' = Product.sellingPrice p /\
  Product.minStockLevel p' = Product.minStockLevel p /\
  Product.trackStock p' = Product.trackStock p /\
  Product.isActive p' = Product.isActive p /\
  Product.imageUrl p' = Product.imageUrl p /\
  Product.createdAt p' = Product.createdAt p.

(** The movement that the in-memory store logs for a sale line. *)
Definition sale_movement (sale : Sale.t) (line : InsertSaleItem.t)
    (mv : StockMovement.t) : Prop :=
  StockMovement.productId mv = InsertSaleItem.productId line /\
  StockMovement.movementType mv = "sale" /\
  StockMovement.quantity mv = - InsertSaleItem.quantity line /\
  StockMovement.reason mv
    = Some ("Sale " ++ Sale.invoiceNumber sale)%string /\
  StockMovement.reference mv = None /\
  StockMovement.userId mv = Sale.userId sale.

(** The units of a product in a cart. *)
Definition cart_quantity (productId : string) (cart : list CartItem.t) : Z :=
  fold_right
    (fun item acc =>
       if String.eqb (CartItem.productId item) productId
       then CartItem.quantity item + acc else acc)
    0 cart.

(** A sample order line and a store whose order O names a product that is
    not in the catalog. *)
Definition store_order_of_ghost : Store :=
  mkStore [("u1", sample_user "u1")]
    [("P", sample_product "P" 2 350 true)]
    [] [] [] [] []
    [("O", PurchaseOrder.mk "O" "PO-1700000000000" "S" "pending" 8000 "u1"
             (Some 0%nat) None)]
    [("I", PurchaseOrderItem.mk "I" "O" "ghost" 20 400 8000)]
    0%nat 1%nat.

(** Order O with two lines for P (20 units at 4.00, then 5 at 4.50) and
    one for Q. *)
Definition store_order_two_lines : Store :=
  mkStore [("u1", sample_user "u1")]
    [("P", sample_product "P" 2 350 true);
     ("Q", sample_product "Q" 7 100 true)]
    [] [] [] [] []
    [("O", PurchaseOrder.mk "O" "PO-1700000000000" "S" "pending" 8000 "u1"
             (Some 0%nat) None)]
    [("I1", PurchaseOrderItem.mk "I1" "O" "P" 20 400 8000);
     ("I2", PurchaseOrderItem.mk "I2" "O" "Q" 3 120 360);
     ("I3", PurchaseOrderItem.mk "I3" "O" "P" 5 450 2250)]
    0%nat 1%nat.

Definition sample_cart : list CartItem.t :=
  [CartItem.mk "P" (details_of (sample_product "P" 5 350 true)) 2 5000 10000;
   CartItem.mk "U" (details_of (sample_product "U" 5 350 false)) 1 5000 5000].

(** The role that a request carries, if its token verifies. *)
Definition token_role (token : Token) : option string :=
  match token with
  | ValidToken user => Some (AuthUser.role user)
  | NoToken | InvalidToken => None
  end.

(** A response that refuses the request before the handler runs. *)
Definition refused (r : Response) : Prop := code r = 401 \/ code r = 403.

(** * Properties *)

(** Unfolding of the store monad, and the parts of [fresh_ids]. *)

Ltac run_store :=
  unfold bind, gets, modify, newDate, randomUUID, ret; simpl.

Ltac split_fresh :=
  match goal with
  | H : fresh_ids _ |- _ =>
      let Hs := fresh "Hsales" in
      let Hi := fresh "Hitems" in
      let Hm := fresh "Hmoves" in
      let Hr := fresh "Hreturns" in
      destruct H as (Hs & Hi & Hm & Hr)
  end.

(** The ten cases of a decimal digit [H : 0 <= d <= 9]. *)
Ltac each_digit H :=
  match type of H with
  | 0 <= ?d <= 9 =>
      let C := fresh "C" in
      assert (C : d = 0 \/ d = 1 \/ d = 2 \/ d = 3 \/ d = 4 \/ d = 5
                  \/ d = 6 \/ d = 7 \/ d = 8 \/ d = 9) by lia;
      clear H;
      repeat (destruct C as [C|C]; [subst|]); subst
  end.

(** ** Maps *)

Lemma get_set_same {V : Type} (k : string) (v : V) (m : JsMap.t V) :
  JsMap.get k (JsMap.set k v m) = Some v.
Proof.
  induction m as [|[k' v'] m IH]; simpl.
  - now rewrite String.eqb_refl.
  - destruct (String.eqb k' k) eqn:E; simpl.
    + now rewrite String.eqb_refl.
    + now rewrite E.
Qed.

Lemma get_set_other {V : Type} (k k' : string) (v : V) (m : JsMap.t V) :
  k <> k' -> JsMap.get k' (JsMap.set k v m) = JsMap.get k' m.
Proof.
  intros Hne. induction m as [|[k0 v0] m IH]; simpl.
  - apply String.eqb_neq in Hne. now rewrite Hne.
  - destruct (String.eqb k0 k) eqn:E; simpl.
    + apply String.eqb_eq in E. subst k0.
      apply String.eqb_neq in Hne. now rewrite Hne.
    + destruct (String.eqb k0 k'); [reflexivity | exact IH].
Qed.

Lemma set_fresh {V : Type} (k : string) (v : V) (m : JsMap.t V) :
  JsMap.get k m = None -> JsMap.set k v m = m ++ [(k, v)].
Proof.
  induction m as [|[k' v'] m IH]; simpl; intros H.
  - reflexivity.
  - destruct (String.eqb k' k); [discriminate | now rewrite IH].
Qed.

Lemma values_set_fresh {V : Type} (k : string) (v : V) (m : JsMap.t V) :
  JsMap.get k m = None ->
  JsMap.values (JsMap.set k v m) = JsMap.values m ++ [v].
Proof.
  intros H. rewrite (set_fresh k v m H). unfold JsMap.values.
  now rewrite map_app.
Qed.

Lemma has_set {V : Type} (k k' : string) (v : V) (m : JsMap.t V) :
  JsMap.has k m = true ->
  JsMap.has k' (JsMap.set k v m) = JsMap.has k' m.
Proof.
  unfold JsMap.has. intros H.
  destruct (String.eqb_spec k k') as [->|Hne].
  - rewrite get_set_same. destruct (JsMap.get k' m); [reflexivity|discriminate].
  - now rewrite get_set_other.
Qed.

Lemma get_update_where_id {V : Type} (k k' : string) (f : V -> V)
    (m : JsMap.t V) :
  JsMap.get k' (Table.update_where_id k f m) =
    if String.eqb k k' then option_map f (JsMap.get k' m)
    else JsMap.get k' m.
Proof.
  induction m as [|[k0 v0] m IH]; simpl.
  - now destruct (String.eqb k k').
  - destruct (String.eqb_spec k0 k) as [->|Hne]; simpl.
    + destruct (String.eqb k k'); reflexivity.
    + destruct (String.eqb_spec k0 k') as [->|Hne'].
      * destruct (String.eqb_spec k k') as [->|_]; [congruence|reflexivity].
      * exact IH.
Qed.

(** ** Generated identifiers *)

Lemma uuid_of_inj (a b : nat) : uuid_of a = uuid_of b -> a = b.
Proof.
  unfold uuid_of. simpl. intros H. injection H as H.
  apply Unsigned.to_uint_inj.
  apply (f_equal NilEmpty.uint_of_string) in H.
  rewrite !NilEmpty.usu in H. now injection H.
Qed.

Lemma uuid_of_truthy (n : nat) : truthy (Some (uuid_of n)) = true.
Proof. reflexivity. Qed.

Lemma fresh_from_S {V : Type} (n : nat) (m : JsMap.t V) :
  fresh_from n m -> fresh_from (S n) m.
Proof. intros H i Hi. apply H. lia. Qed.

Lemma fresh_from_set {V : Type} (n : nat) (v : V) (m : JsMap.t V) :
  fresh_from n m -> fresh_from (S n) (JsMap.set (uuid_of n) v m).
Proof.
  intros H i Hi. rewrite get_set_other.
  - apply H. lia.
  - intros E. apply uuid_of_inj in E. lia.
Qed.

Lemma fresh_from_now {V : Type} (n : nat) (m : JsMap.t V) :
  fresh_from n m -> JsMap.get (uuid_of n) m = None.
Proof. intros H. apply H. lia. Qed.

Lemma delta_sum_app (a b : list StockMovement.t) :
  delta_sum (a ++ b) = delta_sum a + delta_sum b.
Proof.
  induction a as [|m a IH]; simpl; [reflexivity | rewrite IH; lia].
Qed.

Lemma for_product_app (pid : string) (a b : list StockMovement.t) :
  for_product pid (a ++ b) = for_product pid a ++ for_product pid b.
Proof. apply filter_app. Qed.

(** ** Numbers and amounts *)

Lemma one_pos : 0 < JsNumber.one.
Proof. unfold JsNumber.one. apply Z.pow_pos_nonneg; lia. Qed.

Lemma round_half_even_bounds (a d : Z) :
  0 <= a -> 0 < d ->
  a / d <= JsNumber.round_half_even a d <= a / d + 1 /\
  2 * Z.abs (JsNumber.round_half_even a d * d - a) <= d.
Proof.
  intros Ha Hd. unfold JsNumber.round_half_even.
  pose proof (Z.div_mod a d ltac:(lia)) as E.
  pose proof (Z.mod_pos_bound a d Hd) as B.
  destruct (Z.compare_spec (2 * (a mod d)) d) as [C|C|C];
    [destruct (Z.even (a / d))| |]; split; nia.
Qed.

Lemma round_half_even_exact (q d : Z) :
  0 < d -> JsNumber.round_half_even (q * d) d = q.
Proof.
  intros Hd. unfold JsNumber.round_half_even.
  rewrite Z.div_mul, Z.mod_mul by lia.
  destruct (Z.compare_spec (2 * 0) d); lia.
Qed.

(** The shift chosen by [nearest] leaves at most 53 bits. *)
Lemma shift_bounds (f : Z) :
  0 <= f ->
  let s := Z.max 0 (Z.log2 f - 52) in
  0 <= s /\ f < 2 ^ (s + 53) /\ (0 < s -> 2 ^ (s + 52) <= f).
Proof.
  intros Hf s. subst s.
  destruct (Z.eq_dec f 0) as [->|Hne].
  - simpl. repeat split; lia.
  - pose proof (Z.log2_spec f ltac:(lia)) as (Hlo & Hhi).
    pose proof (Z.log2_nonneg f) as Hl.
    destruct (Z.max_spec 0 (Z.log2 f - 52)) as [(Hc & ->)|(Hc & ->)].
    + repeat split; try lia.
      * replace (Z.log2 f - 52 + 53) with (Z.succ (Z.log2 f)) by lia. exact Hhi.
      * intros _. now replace (Z.log2 f - 52 + 52) with (Z.log2 f) by lia.
    + repeat split; try lia.
      eapply Z.lt_le_trans; [exact Hhi|].
      apply Z.pow_le_mono_r; lia.
Qed.

Lemma overflow_threshold : 2 ^ 1024 * JsNumber.one = 2 ^ 2098.
Proof. unfold JsNumber.one. rewrite <- Z.pow_add_r by lia. reflexivity. Qed.

Lemma nearest_bounds (a d K : Z) :
  0 <= a -> 0 < d -> 0 <= K -> K + 53 < 2098 ->
  a < d * 2 ^ (K + 53) ->
  exists v : Z,
    JsNumber.nearest false a d = JsNumber.Finite v /\
    2 * Z.abs (v * d - a) <= d * 2 ^ K /\
    (forall g : Z, g * 2 ^ K * d <= a -> g * 2 ^ K <= v).
Proof.
  intros Ha Hd HK Hno Hlt. unfold JsNumber.nearest.
  rewrite overflow_threshold.
  assert (Hf0 : 0 <= a / d) by (apply Z.div_pos; lia).
  assert (HfK : a / d < 2 ^ (K + 53))
    by (apply Z.div_lt_upper_bound; lia).
  destruct (shift_bounds (a / d) Hf0) as (Hs0 & Hfs & Hsf).
  set (s := Z.max 0 (Z.log2 (a / d) - 52)) in *.
  assert (HsK : s <= K).
  { destruct (Z.eq_dec s 0) as [E|E]; [lia|].
    assert (H : 2 ^ (s + 52) < 2 ^ (K + 53)) by lia.
    apply Z.pow_lt_mono_r_iff in H; lia. }
  assert (Hp : 0 < 2 ^ s) by (apply Z.pow_pos_nonneg; lia).
  assert (HD : 0 < d * 2 ^ s) by lia.
  destruct (round_half_even_bounds a (d * 2 ^ s) Ha HD) as ((Hlo & Hhi) & Herr).
  set (m := JsNumber.round_half_even a (d * 2 ^ s)) in *.
  assert (Hq : a / (d * 2 ^ s) < 2 ^ 53).
  { rewrite <- Z.div_div by lia. apply Z.div_lt_upper_bound; [lia|].
    rewrite <- Z.pow_add_r by lia. exact Hfs. }
  assert (HpK : 2 ^ K = 2 ^ (K - s) * 2 ^ s).
  { rewrite <- Z.pow_add_r by lia. f_equal. lia. }
  assert (Hp' : 0 < 2 ^ (K - s)) by (apply Z.pow_pos_nonneg; lia).
  assert (Hv : m * 2 ^ s < 2 ^ 2098).
  { apply Z.le_lt_trans with (2 ^ (K + 53)).
    - rewrite Z.pow_add_r, HpK by lia. nia.
    - apply Z.pow_lt_mono_r; lia. }
  destruct (Z.leb_spec (2 ^ 2098) (m * 2 ^ s)) as [Hc|_]; [lia|].
  exists (m * 2 ^ s). split; [reflexivity|]. split.
  - replace (m * 2 ^ s * d - a) with (m * (d * 2 ^ s) - a) by ring.
    rewrite HpK. nia.
  - intros g Hg. rewrite HpK in Hg |- *.
    assert (Hge : g * 2 ^ (K - s) <= a / (d * 2 ^ s)).
    { apply Z.div_le_lower_bound; [lia|]. nia. }
    nia.
Qed.

Lemma nearest_exact (negative : bool) (m k d : Z) :
  0 <= m < 2 ^ 53 -> 0 <= k -> m * 2 ^ k < 2 ^ 2098 -> 0 < d ->
  JsNumber.nearest negative (m * 2 ^ k * d) d =
    JsNumber.Finite (if negative then - (m * 2 ^ k) else m * 2 ^ k).
Proof.
  intros Hm Hk Hno Hd. unfold JsNumber.nearest.
  rewrite overflow_threshold, Z.div_mul by lia.
  assert (Hp : 0 < 2 ^ k) by (apply Z.pow_pos_nonneg; lia).
  assert (Hf0 : 0 <= m * 2 ^ k) by nia.
  destruct (shift_bounds (m * 2 ^ k) Hf0) as (Hs0 & Hfs & Hsf).
  set (s := Z.max 0 (Z.log2 (m * 2 ^ k) - 52)) in *.
  assert (Hsk : s <= k).
  { destruct (Z.eq_dec s 0) as [E|E]; [lia|].
    assert (H : 2 ^ (s + 52) < 2 ^ (k + 53)).
    { eapply Z.le_lt_trans; [apply Hsf; lia|].
      rewrite (Z.pow_add_r 2 k 53) by lia. nia. }
    apply Z.pow_lt_mono_r_iff in H; lia. }
  assert (Hpk : 2 ^ k = 2 ^ (k - s) * 2 ^ s).
  { rewrite <- Z.pow_add_r by lia. f_equal. lia. }
  assert (Hps : 0 < 2 ^ s) by (apply Z.pow_pos_nonneg; lia).
  replace (m * 2 ^ k * d) with (m * 2 ^ (k - s) * (d * 2 ^ s))
    by (rewrite Hpk; ring).
  rewrite round_half_even_exact by lia.
  replace (m * 2 ^ (k - s) * 2 ^ s) with (m * 2 ^ k) by (rewrite Hpk; ring).
  destruct (Z.leb_spec (2 ^ 2098) (m * 2 ^ k)) as [Hc|_]; [lia|].
  reflexivity.
Qed.

Lemma of_units_exact (z : Z) :
  Z.abs z < 2 ^ 53 ->
  JsNumber.of_units (z * JsNumber.one) = JsNumber.Finite (z * JsNumber.one).
Proof.
  intros Hz. unfold JsNumber.of_units.
  pose proof one_pos as H1.
  replace (Z.abs (z * JsNumber.one)) with (Z.abs z * 2 ^ 1074 * 1)
    by (rewrite Z.abs_mul, (Z.abs_eq JsNumber.one) by lia;
        unfold JsNumber.one; ring).
  assert (Hno : Z.abs z * 2 ^ 1074 < 2 ^ 2098).
  { change (2 ^ 2098) with (2 ^ 1024 * 2 ^ 1074).
    assert (0 < 2 ^ 1074) by (apply Z.pow_pos_nonneg; lia).
    assert (2 ^ 53 < 2 ^ 1024) by (apply Z.pow_lt_mono_r; lia). nia. }
  rewrite (nearest_exact _ (Z.abs z) 1074 1) by lia.
  fold JsNumber.one.
  destruct (Z.ltb_spec (z * JsNumber.one) 0); f_equal; nia.
Qed.

Lemma of_Z_exact (z : Z) :
  Z.abs z < 2 ^ 53 -> JsNumber.of_Z z = JsNumber.Finite (z * JsNumber.one).
Proof. apply of_units_exact. Qed.

Lemma digit_of_digit_char (d : Z) :
  0 <= d <= 9 -> digit_of (JsNumber.digit_char d) = Some d.
Proof. intros H. each_digit H; reflexivity. Qed.

Lemma scan_digits_digit (d : Z) (s : string) (acc count : Z) :
  0 <= d <= 9 ->
  scan_digits (String (JsNumber.digit_char d) s) acc count
    = scan_digits s (10 * acc + d) (count + 1).
Proof. intros H. simpl. now rewrite digit_of_digit_char. Qed.

Lemma scan_digits_stop (c : ascii) (s : string) (acc count : Z) :
  digit_of c = None ->
  scan_digits (String c s) acc count = (acc, count, String c s).
Proof. intros H. simpl. now rewrite H. Qed.

Lemma scan_digits_from (fuel : nat) :
  forall n : Z,
    0 <= n < 10 ^ (Z.of_nat fuel + 1) ->
    exists k : Z,
      1 <= k /\
      forall (tail : string) (acc count : Z),
        scan_digits (JsNumber.digits_from fuel n tail) acc count
          = scan_digits tail (acc * 10 ^ k + n) (count + k).
Proof.
  induction fuel as [|fuel IH]; intros n Hn.
  - exists 1. split; [lia|]. intros tail acc count. simpl JsNumber.digits_from.
    change (10 ^ (Z.of_nat 0 + 1)) with 10 in Hn.
    rewrite Z.mod_small by lia. rewrite scan_digits_digit by lia.
    f_equal. lia.
  - simpl JsNumber.digits_from.
    destruct (Z.ltb_spec n 10) as [Hlt|Hge].
    + exists 1. split; [lia|]. intros tail acc count.
      rewrite Z.mod_small by lia. rewrite scan_digits_digit by lia.
      f_equal. lia.
    + assert (Hq : 0 <= n / 10 < 10 ^ (Z.of_nat fuel + 1)).
      { split; [apply Z.div_pos; lia|].
        apply Z.div_lt_upper_bound; [lia|].
        replace (Z.of_nat (S fuel) + 1) with (Z.succ (Z.of_nat fuel + 1))
          in Hn by lia.
        rewrite Z.pow_succ_r in Hn by lia. lia. }
      destruct (IH (n / 10) Hq) as (k & Hk & Hscan).
      exists (k + 1). split; [lia|]. intros tail acc count.
      rewrite Hscan.
      pose proof (Z.mod_pos_bound n 10 ltac:(lia)) as Hm.
      rewrite scan_digits_digit by lia.
      rewrite Z.pow_add_r by lia.
      pose proof (Z.div_mod n 10 ltac:(lia)) as E.
      f_equal; [|lia]. change (10 ^ 1) with 10. lia.
Qed.

Lemma digits_fuel (n : Z) :
  0 <= n -> n < 10 ^ (Z.of_nat (Z.to_nat (Z.log2 n)) + 1).
Proof.
  intros Hn. rewrite Z2Nat.id by apply Z.log2_nonneg.
  destruct (Z.eq_dec n 0) as [->|Hne]; [reflexivity|].
  pose proof (Z.log2_spec n ltac:(lia)) as (_ & Hhi).
  eapply Z.lt_le_trans; [exact Hhi|].
  rewrite <- Z.add_1_r.
  apply Z.pow_le_mono_l. lia.
Qed.

Lemma digits_from_app (fuel : nat) :
  forall (n : Z) (t tail : string),
    (JsNumber.digits_from fuel n t ++ tail)%string
      = JsNumber.digits_from fuel n (t ++ tail).
Proof.
  induction fuel as [|fuel IH]; intros n t tail; simpl; [reflexivity|].
  destruct (n <? 10); [reflexivity|]. now rewrite IH.
Qed.

Lemma scan_digits_of_digits (n : Z) :
  0 <= n ->
  exists k : Z,
    1 <= k /\
    forall (tail : string) (acc count : Z),
      scan_digits (JsNumber.digits n ++ tail)%string acc count
        = scan_digits tail (acc * 10 ^ k + n) (count + k).
Proof.
  intros Hn.
  destruct (scan_digits_from (Z.to_nat (Z.log2 n)) n) as (k & Hk & Hscan).
  { split; [exact Hn | now apply digits_fuel]. }
  exists k. split; [exact Hk|]. intros tail acc count.
  unfold JsNumber.digits. rewrite digits_from_app. apply Hscan.
Qed.

Lemma digits_from_head (fuel : nat) :
  forall (n : Z) (tail : string),
    0 <= n ->
    exists (d : Z) (rest : string),
      0 <= d <= 9 /\
      JsNumber.digits_from fuel n tail = String (JsNumber.digit_char d) rest.
Proof.
  induction fuel as [|fuel IH]; intros n tail Hn; simpl.
  - exists (n mod 10), tail. split; [|reflexivity].
    pose proof (Z.mod_pos_bound n 10 ltac:(lia)). lia.
  - destruct (n <? 10).
    + exists (n mod 10), tail. split; [|reflexivity].
      pose proof (Z.mod_pos_bound n 10 ltac:(lia)). lia.
    + apply IH. apply Z.div_pos; lia.
Qed.

Lemma parseFloat_starts_with_digit (d : Z) (rest : string) :
  0 <= d <= 9 ->
  parseFloat (String (JsNumber.digit_char d) rest) =
    let '(int, n_int, rest1) :=
      scan_digits (String (JsNumber.digit_char d) rest) 0 0 in
    let '(mantissa, n_frac, rest2) :=
      match rest1 with
      | String "." r => scan_digits r int 0
      | _ => (int, 0, rest1)
      end in
    if n_int + n_frac =? 0 then JsNumber.NaN
    else
      let scale :=
        Z.max (- (n_int + n_frac) - 330)
          (Z.min 310 (exponent_of rest2 - n_frac)) in
      if 0 <=? scale then
        JsNumber.nearest false (mantissa * 10 ^ scale * JsNumber.one) 1
      else
        JsNumber.nearest false (mantissa * JsNumber.one) (10 ^ (- scale)).
Proof.
  intros H. unfold parseFloat.
  assert (Ht : trimStart (String (JsNumber.digit_char d) rest)
               = String (JsNumber.digit_char d) rest).
  { each_digit H; simpl; destruct rest as [|c2 [|c3 s3]]; reflexivity. }
  rewrite Ht.
  assert (Hs : signed (String (JsNumber.digit_char d) rest)
               = (false, String (JsNumber.digit_char d) rest))
    by (each_digit H; reflexivity).
  rewrite Hs.
  assert (Hp : String.prefix "Infinity" (String (JsNumber.digit_char d) rest)
               = false)
    by (each_digit H; reflexivity).
  rewrite Hp. reflexivity.
Qed.

Lemma parseFloat_decimal_text (amount : Z) :
  0 <= amount ->
  parseFloat (decimal_text amount)
    = JsNumber.nearest false (amount * JsNumber.one) 100.
Proof.
  intros Ha. unfold decimal_text.
  destruct (Z.ltb_spec amount 0) as [Hneg|_]; [lia|].
  rewrite Z.abs_eq by exact Ha. simpl append at 1.
  assert (Hu : 0 <= amount / 100) by (apply Z.div_pos; lia).
  pose proof (Z.mod_pos_bound amount 100 ltac:(lia)) as Hc.
  pose proof (Z.div_mod amount 100 ltac:(lia)) as E.
  destruct (digits_from_head (Z.to_nat (Z.log2 (amount / 100)))
              (amount / 100) "" Hu) as (d & rest & Hd & Hhead).
  destruct (scan_digits_of_digits (amount / 100) Hu) as (k & Hk & Hscan).
  set (c := amount mod 100) in *.
  change (JsNumber.fixed_digits 2 c)
    with (String (JsNumber.digit_char ((c / 10) mod 10))
            (String (JsNumber.digit_char (c mod 10)) "")).
  set (tail := String "."%char _).
  unfold JsNumber.digits at 1. rewrite Hhead.
  change (String (JsNumber.digit_char d) rest ++ tail)%string
    with (String (JsNumber.digit_char d) (rest ++ tail)).
  rewrite parseFloat_starts_with_digit by exact Hd.
  change (String (JsNumber.digit_char d) (rest ++ tail))
    with (String (JsNumber.digit_char d) rest ++ tail)%string.
  rewrite <- Hhead. fold (JsNumber.digits (amount / 100)).
  rewrite Hscan. unfold tail.
  rewrite (scan_digits_stop "."%char) by reflexivity.
  cbv beta iota zeta.
  pose proof (Z.mod_pos_bound (c / 10) 10 ltac:(lia)) as H1.
  pose proof (Z.mod_pos_bound c 10 ltac:(lia)) as H0.
  rewrite !scan_digits_digit by lia. cbn [scan_digits].
  assert (Hc10 : (c / 10) mod 10 = c / 10).
  { apply Z.mod_small. split; [apply Z.div_pos; lia|].
    apply Z.div_lt_upper_bound; lia. }
  pose proof (Z.div_mod c 10 ltac:(lia)) as E10.
  cbv beta iota zeta.
  destruct (Z.eqb_spec (0 + k + (0 + 1 + 1)) 0) as [Hz|_]; [lia|].
  change (exponent_of "") with 0.
  replace (Z.max (- (0 + k + (0 + 1 + 1)) - 330)
             (Z.min 310 (0 - (0 + 1 + 1)))) with (-2) by lia.
  change (0 <=? -2) with false. cbv iota.
  change (10 ^ (- -2)) with 100.
  f_equal. rewrite Hc10. lia.
Qed.

Lemma one_split : JsNumber.one = 2 ^ 26 * 2 ^ 1048.
Proof. unfold JsNumber.one. rewrite <- Z.pow_add_r by lia. reflexivity. Qed.

Lemma parseFloat_amount (amount : Z) :
  0 <= amount < 10 ^ 10 ->
  exists x : Z,
    parseFloat (decimal_text amount) = JsNumber.Finite x /\
    2 * Z.abs (100 * x - amount * JsNumber.one) <= 100 * 2 ^ 1048 /\
    amount / 100 * JsNumber.one <= x.
Proof.
  intros Ha. rewrite parseFloat_decimal_text by lia.
  pose proof one_split as H1.
  assert (HP : 0 < 2 ^ 1048) by (apply Z.pow_pos_nonneg; lia).
  destruct (nearest_bounds (amount * JsNumber.one) 100 1048)
    as (x & Hx & Herr & Hgrid); try lia.
  exists x. split; [exact Hx|]. split.
  - replace (100 * x - amount * JsNumber.one)
      with (x * 100 - amount * JsNumber.one) by ring. lia.
  - specialize (Hgrid (amount / 100 * 2 ^ 26)).
    pose proof (Z.div_mod amount 100 ltac:(lia)) as E.
    pose proof (Z.mod_pos_bound amount 100 ltac:(lia)) as B.
    rewrite H1 in *. nia.
Qed.

Lemma floor_parseFloat_amount (amount : Z) :
  0 <= amount < 10 ^ 10 ->
  Math.floor (parseFloat (decimal_text amount))
    = JsNumber.Finite (amount / 100 * JsNumber.one).
Proof.
  intros Ha. destruct (parseFloat_amount amount Ha) as (x & -> & Herr & Hlo).
  unfold Math.floor. f_equal. f_equal.
  pose proof one_split as H1. pose proof one_pos as Hpos.
  assert (HP : 0 < 2 ^ 1048) by (apply Z.pow_pos_nonneg; lia).
  pose proof (Z.div_mod amount 100 ltac:(lia)) as E.
  pose proof (Z.mod_pos_bound amount 100 ltac:(lia)) as B.
  symmetry. apply (Z.div_unique x JsNumber.one (amount / 100)
                     (x - amount / 100 * JsNumber.one)); [|ring].
  left. split; [lia|].
  change (2 ^ 26) with 67108864 in H1.
  set (P := 2 ^ 1048) in *. set (u := amount / 100) in *.
  set (c := amount mod 100) in *. nia.
Qed.

Lemma toFixed_amount (v n : Z) :
  0 <= v -> 0 <= n < 10 ^ 21 ->
  2 * Z.abs (100 * v - n * JsNumber.one) < JsNumber.one ->
  JsNumber.toFixed 2 (JsNumber.Finite v) = decimal_text n.
Proof.
  intros Hv Hn Herr. pose proof one_pos as Hpos.
  unfold JsNumber.toFixed, decimal_text.
  destruct (Z.ltb_spec v 0) as [H|_]; [lia|].
  destruct (Z.ltb_spec n 0) as [H|_]; [lia|].
  rewrite !Z.abs_eq by lia.
  destruct (Z.leb_spec (10 ^ 21 * JsNumber.one) v) as [H|_]; [nia|].
  change (10 ^ Z.of_nat 2) with 100.
  assert (E : (2 * v * 100 + JsNumber.one) / (2 * JsNumber.one) = n).
  { symmetry.
    apply (Z.div_unique _ _ n
             (2 * v * 100 + JsNumber.one - 2 * JsNumber.one * n)); [|ring].
    left. lia. }
  rewrite E. reflexivity.
Qed.

Lemma add_amounts (s t : Z) :
  0 <= s < 10 ^ 10 -> 0 <= t < 10 ^ 10 ->
  JsNumber.toFixed 2
    (JsNumber.add (parseFloat (decimal_text s)) (parseFloat (decimal_text t)))
    = decimal_text (s + t).
Proof.
  intros Hs Ht.
  destruct (parseFloat_amount s Hs) as (x & -> & Hx & Hxlo).
  destruct (parseFloat_amount t Ht) as (y & -> & Hy & Hylo).
  pose proof one_split as H1. pose proof one_pos as Hpos.
  assert (HP : 0 < 2 ^ 1048) by (apply Z.pow_pos_nonneg; lia).
  assert (Hx0 : 0 <= x).
  { assert (0 <= s / 100) by (apply Z.div_pos; lia). nia. }
  assert (Hy0 : 0 <= y).
  { assert (0 <= t / 100) by (apply Z.div_pos; lia). nia. }
  unfold JsNumber.add, JsNumber.of_units.
  destruct (Z.ltb_spec (x + y) 0) as [H|_]; [lia|].
  rewrite Z.abs_eq by lia.
  change (2 ^ 26) with 67108864 in H1.
  destruct (nearest_bounds (x + y) 1 1049) as (z & -> & Hz & Hgrid); try lia.
  specialize (Hgrid 0).
  replace (2 ^ 1049) with (2 * 2 ^ 1048) in Hz
    by (rewrite <- (Z.pow_succ_r 2 1048) by lia; reflexivity).
  change (10 ^ 10) with 10000000000 in *.
  apply toFixed_amount; [lia| |].
  - change (10 ^ 21) with 1000000000000000000000. lia.
  - set (P := 2 ^ 1048) in *. lia.
Qed.

(** Rounding keeps the sign, and only zero rounds to zero. *)
Lemma of_units_sign (n : Z) :
  match JsNumber.of_units n with
  | JsNumber.NaN => False
  | JsNumber.Infinity negative => negative = (n <? 0) /\ n <> 0
  | JsNumber.Finite v => (0 < n <-> 0 < v) /\ (n < 0 <-> v < 0)
  end.
Proof.
  unfold JsNumber.of_units, JsNumber.nearest. rewrite Z.div_1_r, Z.mul_1_l.
  assert (Ha : 0 <= Z.abs n) by lia.
  destruct (shift_bounds (Z.abs n) Ha) as (Hs0 & _ & Hsf).
  set (s := Z.max 0 (Z.log2 (Z.abs n) - 52)) in *.
  assert (Hp : 0 < 2 ^ s) by (apply Z.pow_pos_nonneg; lia).
  destruct (round_half_even_bounds (Z.abs n) (2 ^ s) Ha Hp)
    as ((Hlo & Hhi) & Herr).
  set (m := JsNumber.round_half_even (Z.abs n) (2 ^ s)) in *.
  assert (Hm0 : 0 <= m).
  { assert (0 <= Z.abs n / 2 ^ s) by (apply Z.div_pos; lia). lia. }
  assert (Hm : 0 < Z.abs n -> 0 < m).
  { intros Hpos. assert (H : 2 ^ s <= Z.abs n).
    { destruct (Z.eq_dec s 0) as [->|Hne]; [simpl; lia|].
      eapply Z.le_trans; [|apply Hsf; lia].
      apply Z.pow_le_mono_r; lia. }
    assert (1 <= Z.abs n / 2 ^ s)
      by (apply Z.div_le_lower_bound; lia). lia. }
  assert (Hz : Z.abs n = 0 -> m = 0).
  { intros E. rewrite E in Hlo, Hhi, Herr. rewrite Z.div_0_l in Hhi by lia.
    nia. }
  destruct (Z.leb_spec (2 ^ 1024 * JsNumber.one) (m * 2 ^ s)) as [Hov|_].
  - split; [reflexivity|]. intros ->. pose proof one_pos.
    rewrite Hz in Hov by reflexivity.
    assert (0 < 2 ^ 1024) by (apply Z.pow_pos_nonneg; lia). nia.
  - destruct (Z.ltb_spec n 0) as [Hn|Hn]; split; split; intros H; nia.
Qed.

Lemma positive_sub_true (x y : JsNumber.t) :
  JsNumber.positive (JsNumber.sub y x) = true -> JsNumber.le x y.
Proof.
  destruct x as [|bx|a], y as [|by'|b]; simpl; try discriminate;
    try (destruct bx); try (destruct by'); simpl; try discriminate;
    try exact (fun _ => I).
  intros H. pose proof (of_units_sign (b + - a)) as Hs.
  destruct (JsNumber.of_units (b + - a)) as [|neg|v]; [contradiction| |].
  - destruct Hs as (-> & _). simpl in H.
    destruct (Z.ltb_spec (b + - a) 0); [discriminate | lia].
  - simpl in H. apply Z.ltb_lt in H. lia.
Qed.

Lemma positive_sub_false (x y : JsNumber.t) :
  x <> JsNumber.NaN -> y <> JsNumber.NaN ->
  JsNumber.positive (JsNumber.sub y x) = false -> JsNumber.le y x.
Proof.
  destruct x as [|bx|a], y as [|by'|b]; simpl; try congruence;
    try (destruct bx); try (destruct by'); simpl; try discriminate;
    try exact (fun _ _ _ => I).
  intros _ _ H. pose proof (of_units_sign (b + - a)) as Hs.
  destruct (JsNumber.of_units (b + - a)) as [|neg|v]; [contradiction| |].
  - destruct Hs as (-> & _). simpl in H.
    destruct (Z.ltb_spec (b + - a) 0); [lia | discriminate].
  - simpl in H. apply Z.ltb_ge in H. lia.
Qed.

Lemma number_le_trans (x y z : JsNumber.t) :
  JsNumber.le x y -> JsNumber.le y z -> JsNumber.le x z.
Proof.
  destruct x as [|[]|a], y as [|[]|b], z as [|[]|c]; simpl;
    try contradiction; try exact (fun _ _ => I). lia.
Qed.

Lemma add_finite_not_NaN (x : JsNumber.t) (v : Z) :
  x <> JsNumber.NaN -> JsNumber.add x (JsNumber.Finite v) <> JsNumber.NaN.
Proof.
  destruct x as [|neg|a]; simpl; try congruence.
  intros _. pose proof (of_units_sign (a + v)) as H.
  now destruct (JsNumber.of_units (a + v)).
Qed.

Lemma earned_not_NaN (items : list SaleItem.t) :
  priced items -> earned items <> JsNumber.NaN.
Proof.
  unfold earned, JsNumber.zero.
  assert (H : forall acc : JsNumber.t,
             acc <> JsNumber.NaN -> priced items ->
             fold_left
               (fun acc it =>
                  JsNumber.add acc (parseFloat (SaleItem.totalPrice it)))
               items acc <> JsNumber.NaN).
  { induction items as [|it items IH]; intros acc Hacc Hp; [exact Hacc|].
    simpl. inversion Hp as [|? ? Hit Hrest]; subst.
    apply IH; [|exact Hrest].
    destruct (parseFloat (SaleItem.totalPrice it)) as [| |v];
      try discriminate.
    now apply add_finite_not_NaN. }
  intros Hp. apply H; [discriminate | exact Hp].
Qed.

(** ** The ledger relation *)

Lemma extends_quiet (b : bool) (st st' : Store) :
  fresh_ids st' ->
  stockMovements st' = stockMovements st ->
  (forall pid, JsMap.has pid (products st') = JsMap.has pid (products st)) ->
  (forall pid, stock pid st' = stock pid st) ->
  ledger_extends b st st'.
Proof.
  intros Hf Hm Hd Hs. split; [exact Hf|]. split; [exact Hd|].
  exists []. rewrite Hm, app_nil_r. repeat split.
  - constructor.
  - intros _ pid. rewrite Hs. simpl. lia.
Qed.

Lemma extends_refl (b : bool) (st : Store) :
  fresh_ids st -> ledger_extends b st st.
Proof. intros Hf. now apply extends_quiet. Qed.

Lemma extends_trans (b : bool) (st1 st2 st3 : Store) :
  ledger_extends b st1 st2 -> ledger_extends b st2 st3 ->
  ledger_extends b st1 st3.
Proof.
  intros (_ & Hd1 & r1 & Hv1 & Hin1 & Hs1) (Hf & Hd2 & r2 & Hv2 & Hin2 & Hs2).
  split; [exact Hf|]. split.
  - intros pid. now rewrite Hd2, Hd1.
  - exists (r1 ++ r2). repeat split.
    + now rewrite Hv2, Hv1, app_assoc.
    + apply Forall_app. split; [exact Hin1|].
      eapply Forall_impl; [|exact Hin2]. simpl. intros m Hm.
      now rewrite <- Hd1.
    + intros Hb pid. rewrite (Hs2 Hb), (Hs1 Hb), for_product_app, delta_sum_app.
      lia.
Qed.

Lemma updateProductStock_missing (id : string) (d : Z) (ty : string)
    (r uid : option string) (st : Store) :
  JsMap.get id (products st) = None ->
  MemStorage.updateProductStock id d ty r uid st = (false, st).
Proof.
  intros H. unfold MemStorage.updateProductStock. run_store.
  now rewrite H.
Qed.

Lemma updateProductStock_frame (id : string) (d : Z) (ty : string)
    (r uid : option string) (st : Store) :
  let st' := snd (MemStorage.updateProductStock id d ty r uid st) in
  users st' = users st /\ customers st' = customers st /\
  sales st' = sales st /\ saleItems st' = saleItems st /\
  returns st' = returns st /\ purchaseOrders st' = purchaseOrders st /\
  purchaseOrderItems st' = purchaseOrderItems st.
Proof.
  unfold MemStorage.updateProductStock. run_store.
  destruct (JsMap.get id (products st)); [destruct (truthy uid)|];
    simpl; repeat split.
Qed.

Lemma updateProductStock_found (id : string) (d : Z) (ty : string)
    (r uid : option string) (st : Store) (p : Product.t) :
  JsMap.get id (products st) = Some p ->
  let res := MemStorage.updateProductStock id d ty r uid st in
  fst res = true /\
  products (snd res) =
    JsMap.set id
      (Product.with_updatedAt (Some (clock st))
         (Product.with_quantity (Product.quantity p + d) p))
      (products st) /\
  stockMovements (snd res) =
    (if truthy uid then
       JsMap.set (uuid_of (uuids st))
         (StockMovement.mk (uuid_of (uuids st)) id ty d r None
            (match uid with Some u => u | None => "" end)
            (Some (S (clock st))))
         (stockMovements st)
     else stockMovements st) /\
  uuids (snd res) = (if truthy uid then S (uuids st) else uuids st).
Proof.
  intros H. unfold MemStorage.updateProductStock. run_store. rewrite H.
  destruct (truthy uid); simpl; repeat split.
Qed.

Lemma stock_set (id pid : string) (p : Product.t) (ps : JsMap.t Product.t)
    (st : Store) :
  products st = JsMap.set id p ps ->
  stock pid st =
    if String.eqb id pid then Product.quantity p
    else match JsMap.get pid ps with
         | Some p0 => Product.quantity p0
         | None => 0
         end.
Proof.
  intros H. unfold stock. rewrite H.
  destruct (String.eqb_spec id pid) as [->|Hne].
  - now rewrite get_set_same.
  - now rewrite get_set_other.
Qed.

Lemma updateProductStock_extends (id : string) (d : Z) (ty : string)
    (r uid : option string) (st : Store) :
  fresh_ids st ->
  ledger_extends (truthy uid) st
    (snd (MemStorage.updateProductStock id d ty r uid st)).
Proof.
  intros Hf. destruct (JsMap.get id (products st)) as [p|] eqn:E.
  2:{ rewrite updateProductStock_missing by exact E. now apply extends_refl. }
  destruct (updateProductStock_found id d ty r uid st p E)
    as (_ & Hp & Hm & Hu).
  destruct (updateProductStock_frame id d ty r uid st)
    as (_ & _ & Hsa & Hit & Hre & _ & _).
  set (st' := snd (MemStorage.updateProductStock id d ty r uid st)) in *.
  assert (Hhas : JsMap.has id (products st) = true)
    by (unfold JsMap.has; now rewrite E).
  assert (Hdom : forall pid,
             JsMap.has pid (products st') = JsMap.has pid (products st))
    by (intros pid; rewrite Hp; now apply has_set).
  split_fresh.
  destruct (truthy uid) eqn:T.
  - split.
    { unfold fresh_ids. rewrite Hsa, Hit, Hre, Hm, Hu.
      repeat split;
        first [ now apply fresh_from_set | now apply fresh_from_S ]. }
    split; [exact Hdom|].
    eexists [_]. split.
    { rewrite Hm. apply values_set_fresh. now apply fresh_from_now. }
    split; [repeat constructor; exact Hhas|].
    intros _ pid. rewrite (stock_set id pid _ _ st' Hp).
    unfold stock, for_product. simpl.
    destruct (String.eqb_spec id pid) as [->|Hne]; simpl.
    + rewrite E. simpl. lia.
    + destruct (JsMap.get pid (products st)); lia.
  - split.
    { unfold fresh_ids. rewrite Hsa, Hit, Hre, Hm, Hu. now repeat split. }
    split; [exact Hdom|].
    exists []. rewrite Hm, app_nil_r. repeat split.
    + constructor.
    + discriminate.
Qed.

(** ** Sale creation on the in-memory store *)

Lemma for_of_cons {A : Type} (x : A) (xs : list A) (body : A -> M unit)
    (st : Store) :
  snd (for_of (x :: xs) body st) = snd (for_of xs body (snd (body x st))).
Proof. simpl. unfold bind. now destruct (body x st). Qed.

Lemma createSale_line_eq (sale : Sale.t) (it : InsertSaleItem.t)
    (st : Store) :
  snd (MemStorage.createSale_line sale it st) =
  snd (MemStorage.updateProductStock (InsertSaleItem.productId it)
         (- InsertSaleItem.quantity it) "sale"
         (Some ("Sale " ++ Sale.invoiceNumber sale)%string)
         (Some (Sale.userId sale))
         (mkStore (users st) (products st) (customers st) (sales st)
            (JsMap.set (uuid_of (uuids st))
               (SaleItem.of_insert it (uuid_of (uuids st)) (Sale.id sale))
               (saleItems st))
            (stockMovements st) (returns st) (purchaseOrders st)
            (purchaseOrderItems st) (S (uuids st)) (clock st))).
Proof.
  unfold MemStorage.createSale_line. run_store.
  now destruct (MemStorage.updateProductStock _ _ _ _ _ _).
Qed.

Lemma createSale_line_spec (sale : Sale.t) (it : InsertSaleItem.t)
    (st : Store) :
  fresh_ids st ->
  let st' := snd (MemStorage.createSale_line sale it st) in
  ledger_extends (truthy (Some (Sale.userId sale))) st st' /\
  sales st' = sales st /\ customers st' = customers st /\
  exists item : SaleItem.t,
    JsMap.values (saleItems st') = JsMap.values (saleItems st) ++ [item] /\
    line_stored sale it item.
Proof.
  intros Hf. cbv zeta. rewrite createSale_line_eq.
  match goal with
  | |- context [MemStorage.updateProductStock ?a ?b ?c ?d ?e ?s] =>
      set (st1 := s);
      pose proof (updateProductStock_frame a b c d e st1) as Hfr;
      pose proof (updateProductStock_extends a b c d e st1) as Hex
  end.
  cbv zeta in Hfr. destruct Hfr as (_ & Hcu & Hsa & Hit & _).
  split_fresh.
  assert (Hf1 : fresh_ids st1)
    by (unfold fresh_ids, st1; simpl; repeat split;
        first [ now apply fresh_from_set | now apply fresh_from_S ]).
  split.
  { eapply extends_trans; [|exact (Hex Hf1)].
    apply extends_quiet; [exact Hf1 | reflexivity..]. }
  rewrite Hsa, Hcu, Hit. repeat split.
  eexists. split.
  - unfold st1. simpl. apply values_set_fresh. now apply fresh_from_now.
  - repeat split.
Qed.

Lemma createSale_lines_spec (sale : Sale.t) (items : list InsertSaleItem.t) :
  forall st : Store,
    fresh_ids st ->
    let st' := snd (for_of items (MemStorage.createSale_line sale) st) in
    ledger_extends (truthy (Some (Sale.userId sale))) st st' /\
    sales st' = sales st /\ customers st' = customers st /\
    exists built : list SaleItem.t,
      JsMap.values (saleItems st') = JsMap.values (saleItems st) ++ built /\
      Forall2 (line_stored sale) items built.
Proof.
  induction items as [|it items IH]; intros st Hf; cbv zeta.
  - simpl. split; [now apply extends_refl|]. repeat split.
    exists []. now rewrite app_nil_r.
  - rewrite for_of_cons.
    destruct (createSale_line_spec sale it st Hf)
      as (Hex & Hsa & Hcu & item & Hv & Hl).
    set (st1 := snd (MemStorage.createSale_line sale it st)) in *.
    assert (Hf1 : fresh_ids st1) by apply Hex.
    destruct (IH st1 Hf1) as (Hex' & Hsa' & Hcu' & built & Hv' & Hl').
    split; [eapply extends_trans; eassumption|].
    rewrite Hsa', Hcu', Hsa, Hcu. repeat split.
    exists (item :: built). split.
    + rewrite Hv', Hv, <- app_assoc. reflexivity.
    + now constructor.
Qed.

Lemma createSale_customer_frame (sale : Sale.t) (st : Store) :
  let st' := snd (MemStorage.createSale_customer sale st) in
  products st' = products st /\ sales st' = sales st /\
  saleItems st' = saleItems st /\ stockMovements st' = stockMovements st /\
  returns st' = returns st /\ uuids st' = uuids st.
Proof.
  unfold MemStorage.createSale_customer.
  destruct (truthy (Sale.customerId sale)); [|now repeat split].
  run_store. destruct (JsMap.get _ (customers st)); now repeat split.
Qed.

Lemma createSale_eq (ins : InsertSale.t) (items : list InsertSaleItem.t)
    (st : Store) :
  let sale := Sale.of_insert ins (uuid_of (uuids st)) (Some (clock st)) in
  let st0 :=
    mkStore (users st) (products st) (customers st)
      (JsMap.set (uuid_of (uuids st)) sale (sales st))
      (saleItems st) (stockMovements st) (returns st) (purchaseOrders st)
      (purchaseOrderItems st) (S (uuids st)) (S (clock st)) in
  MemStorage.createSale ins items st =
  (sale,
   snd (MemStorage.createSale_customer sale
          (snd (for_of items (MemStorage.createSale_line sale) st0)))).
Proof.
  unfold MemStorage.createSale. run_store.
  destruct (for_of items _ _) as [u st1]. simpl.
  now destruct (MemStorage.createSale_customer _ st1).
Qed.

Lemma fresh_ids_transport (st st' : Store) :
  sales st' = sales st -> saleItems st' = saleItems st ->
  stockMovements st' = stockMovements st -> returns st' = returns st ->
  uuids st' = uuids st ->
  fresh_ids st -> fresh_ids st'.
Proof.
  intros H1 H2 H3 H4 H5. unfold fresh_ids. now rewrite H1, H2, H3, H4, H5.
Qed.

Lemma createSale_extends (ins : InsertSale.t)
    (items : list InsertSaleItem.t) (st : Store) :
  fresh_ids st ->
  ledger_extends (truthy (Some (InsertSale.userId ins))) st
    (snd (MemStorage.createSale ins items st)).
Proof.
  intros Hf. rewrite createSale_eq. cbv zeta. simpl snd.
  set (sale := Sale.of_insert ins (uuid_of (uuids st)) (Some (clock st))).
  match goal with
  | |- context [for_of items _ ?s] => set (st0 := s)
  end.
  split_fresh.
  assert (Hf0 : fresh_ids st0)
    by (unfold fresh_ids, st0; simpl; repeat split;
        first [ now apply fresh_from_set | now apply fresh_from_S ]).
  destruct (createSale_lines_spec sale items st0 Hf0) as (Hex & _).
  set (st1 := snd (for_of items (MemStorage.createSale_line sale) st0)) in *.
  destruct (createSale_customer_frame sale st1)
    as (Hp & Hs & Hi & Hm & Hr & Hu).
  set (st2 := snd (MemStorage.createSale_customer sale st1)) in *.
  eapply extends_trans.
  { apply (extends_quiet _ st st0); [exact Hf0 | reflexivity..]. }
  eapply extends_trans; [exact Hex|].
  apply extends_quiet.
  - eapply fresh_ids_transport; try eassumption. apply Hex.
  - exact Hm.
  - intros pid. now rewrite Hp.
  - intros pid. unfold stock. now rewrite Hp.
Qed.

(** ** Returns and purchase-order receipt on the in-memory store *)

Lemma createReturn_eq (ins : InsertReturn.t) (st : Store) :
  let r := Return.of_insert ins (uuid_of (uuids st)) (Some (clock st)) in
  MemStorage.createReturn ins st =
  (r,
   snd (MemStorage.updateProductStock (InsertReturn.productId ins)
          (InsertReturn.quantity ins) "return"
          (Some ("Return: " ++ InsertReturn.reason ins)%string)
          (Some (InsertReturn.userId ins))
          (mkStore (users st) (products st) (customers st) (sales st)
             (saleItems st) (stockMovements st)
             (JsMap.set (uuid_of (uuids st)) r (returns st))
             (purchaseOrders st) (purchaseOrderItems st)
             (S (uuids st)) (S (clock st))))).
Proof.
  unfold MemStorage.createReturn. run_store.
  now destruct (MemStorage.updateProductStock _ _ _ _ _ _).
Qed.

Lemma createReturn_extends (ins : InsertReturn.t) (st : Store) :
  fresh_ids st ->
  ledger_extends (truthy (Some (InsertReturn.userId ins))) st
    (snd (MemStorage.createReturn ins st)).
Proof.
  intros Hf. rewrite createReturn_eq. cbv zeta. simpl snd.
  match goal with
  | |- context [MemStorage.updateProductStock ?a ?b ?c ?d ?e ?s] =>
      set (st0 := s);
      pose proof (updateProductStock_extends a b c d e st0) as Hex
  end.
  split_fresh.
  assert (Hf0 : fresh_ids st0)
    by (unfold fresh_ids, st0; simpl; repeat split;
        first [ now apply fresh_from_set | now apply fresh_from_S ]).
  eapply extends_trans; [|exact (Hex Hf0)].
  apply extends_quiet; [exact Hf0 | reflexivity..].
Qed.

Lemma receivePurchaseOrder_item_eq (order : PurchaseOrder.t) (uid : string)
    (item : PurchaseOrderItem.t) (st : Store) :
  let st1 :=
    snd (MemStorage.updateProductStock (PurchaseOrderItem.productId item)
           (PurchaseOrderItem.quantity item) "purchase"
           (Some ("Purchase Order " ++ PurchaseOrder.orderNumber order)%string)
           (Some uid) st) in
  snd (MemStorage.receivePurchaseOrder_item order uid item st) =
  match JsMap.get (PurchaseOrderItem.productId item) (products st1) with
  | Some p =>
      mkStore (users st1)
        (JsMap.set (PurchaseOrderItem.productId item)
           (Product.with_updatedAt (Some (clock st1))
              (Product.with_costPrice (PurchaseOrderItem.unitCost item) p))
           (products st1))
        (customers st1) (sales st1) (saleItems st1) (stockMovements st1)
        (returns st1) (purchaseOrders st1) (purchaseOrderItems st1)
        (uuids st1) (S (clock st1))
  | None => st1
  end.
Proof.
  unfold MemStorage.receivePurchaseOrder_item. run_store.
  destruct (MemStorage.updateProductStock _ _ _ _ _ _) as [b st1]. simpl.
  now destruct (JsMap.get _ (products st1)).
Qed.

Lemma receivePurchaseOrder_item_spec (order : PurchaseOrder.t)
    (uid : string) (item : PurchaseOrderItem.t) (st : Store) :
  fresh_ids st ->
  let st' := snd (MemStorage.receivePurchaseOrder_item order uid item st) in
  ledger_extends (truthy (Some uid)) st st' /\
  purchaseOrders st' = purchaseOrders st /\
  purchaseOrderItems st' = purchaseOrderItems st.
Proof.
  intros Hf. cbv zeta. rewrite receivePurchaseOrder_item_eq. cbv zeta.
  match goal with
  | |- context [MemStorage.updateProductStock ?a ?b ?c ?d ?e ?s] =>
      pose proof (updateProductStock_frame a b c d e s) as Hfr;
      pose proof (updateProductStock_extends a b c d e s Hf) as Hex;
      set (st1 := snd (MemStorage.updateProductStock a b c d e s)) in *
  end.
  destruct Hfr as (_ & _ & _ & _ & _ & Hpo & Hpi).
  destruct (JsMap.get (PurchaseOrderItem.productId item) (products st1))
    as [p|] eqn:E; [|split; [exact Hex | now split]].
  split; [|simpl; now split].
  eapply extends_trans; [exact Hex|].
  assert (Hhas : JsMap.has (PurchaseOrderItem.productId item) (products st1)
                 = true) by (unfold JsMap.has; now rewrite E).
  apply extends_quiet; simpl.
  - apply Hex.
  - reflexivity.
  - intros pid. now apply has_set.
  - intros pid. erewrite stock_set by reflexivity. unfold stock.
    destruct (String.eqb_spec (PurchaseOrderItem.productId item) pid)
      as [<-|Hne]; [now rewrite E | reflexivity].
Qed.

Lemma receivePurchaseOrder_items_spec (order : PurchaseOrder.t)
    (uid : string) (items : list PurchaseOrderItem.t) :
  forall st : Store,
    fresh_ids st ->
    let st' :=
      snd (for_of items (MemStorage.receivePurchaseOrder_item order uid) st)
    in
    ledger_extends (truthy (Some uid)) st st' /\
    purchaseOrders st' = purchaseOrders st /\
    purchaseOrderItems st' = purchaseOrderItems st.
Proof.
  induction items as [|it items IH]; intros st Hf; cbv zeta.
  - simpl. split; [now apply extends_refl | now split].
  - rewrite for_of_cons.
    destruct (receivePurchaseOrder_item_spec order uid it st Hf)
      as (Hex & Hpo & Hpi).
    set (st1 := snd (MemStorage.receivePurchaseOrder_item order uid it st))
      in *.
    destruct (IH st1 (proj1 Hex)) as (Hex' & Hpo' & Hpi').
    split; [eapply extends_trans; eassumption|].
    now rewrite Hpo', Hpi', Hpo, Hpi.
Qed.

Lemma receivePurchaseOrder_refused (id uid : string) (st : Store) :
  match JsMap.get id (purchaseOrders st) with
  | Some o => PurchaseOrder.status o = "received"
  | None => True
  end ->
  MemStorage.receivePurchaseOrder id uid st = (false, st).
Proof.
  unfold MemStorage.receivePurchaseOrder. run_store.
  destruct (JsMap.get id (purchaseOrders st)) as [o|]; [|reflexivity].
  intros ->. reflexivity.
Qed.

Lemma receivePurchaseOrder_accepted (id uid : string) (st : Store)
    (o : PurchaseOrder.t) :
  JsMap.get id (purchaseOrders st) = Some o ->
  PurchaseOrder.status o <> "received" ->
  MemStorage.receivePurchaseOrder id uid st =
  (true,
   snd (for_of
          (filter (fun item =>
                     String.eqb (PurchaseOrderItem.purchaseOrderId item) id)
                  (JsMap.values (purchaseOrderItems st)))
          (MemStorage.receivePurchaseOrder_item o uid)
          (mkStore (users st) (products st) (customers st) (sales st)
             (saleItems st) (stockMovements st) (returns st)
             (JsMap.set id (PurchaseOrder.with_received (Some (clock st)) o)
                (purchaseOrders st))
             (purchaseOrderItems st) (uuids st) (S (clock st))))).
Proof.
  intros Ho Hs. unfold MemStorage.receivePurchaseOrder. run_store.
  rewrite Ho. apply String.eqb_neq in Hs. rewrite Hs. run_store.
  now destruct (for_of _ _ _).
Qed.

Lemma receivePurchaseOrder_extends (id uid : string) (st : Store) :
  fresh_ids st ->
  ledger_extends (truthy (Some uid)) st
    (snd (MemStorage.receivePurchaseOrder id uid st)).
Proof.
  intros Hf.
  destruct (JsMap.get id (purchaseOrders st)) as [o|] eqn:Ho.
  2:{ rewrite receivePurchaseOrder_refused by (now rewrite Ho).
      now apply extends_refl. }
  destruct (String.eqb_spec (PurchaseOrder.status o) "received") as [Hs|Hs].
  { rewrite receivePurchaseOrder_refused by (now rewrite Ho).
    now apply extends_refl. }
  rewrite (receivePurchaseOrder_accepted id uid st o Ho Hs). simpl snd.
  match goal with
  | |- context [for_of ?l ?f ?s] =>
      set (st0 := s);
      assert (Hf0 : fresh_ids st0) by exact Hf;
      pose proof (receivePurchaseOrder_items_spec o uid l st0 Hf0) as Hsp
  end.
  eapply extends_trans; [|apply Hsp].
  apply extends_quiet; [exact Hf0 | reflexivity..].
Qed.

Lemma fresh_ids_no_rows (st : Store) :
  sales st = [] -> saleItems st = [] -> stockMovements st = [] ->
  returns st = [] -> fresh_ids st.
Proof.
  intros H1 H2 H3 H4. unfold fresh_ids. rewrite H1, H2, H3, H4.
  repeat split; intros i _; reflexivity.
Qed.

Lemma fresh_ids_store_of_products (ps : list Product.t) :
  fresh_ids (store_of_products ps).
Proof. now apply fresh_ids_no_rows. Qed.

(** ** The inventory ledger *)

(** C1, as the code has it: selling 10 units of the tracked product P,
    which has 5 in stock, succeeds; the quantity becomes -5 and a movement
    with delta -10 is written. *)
Lemma C1_oversell_is_applied :
  let res :=
    MemStorage.updateProductStock "P" (-10) "sale"
      (Some "Sale INV-1700000000000") (Some "u1") store_P5 in
  option_map Product.trackStock (JsMap.get "P" (products store_P5))
    = Some true /\
  quantity_of "P" store_P5 = Some 5 /\
  5 + -10 < 0 /\
  fst res = true /\
  quantity_of "P" (snd res) = Some (-5) /\
  map StockMovement.quantity (movements_of "P" (snd res)) = [-10].
Proof. vm_compute. repeat split; reflexivity. Qed.

(** C1, amended: on a product of the store, tracked or not,
    [updateProductStock] succeeds for every signed delta [d], including one
    that drives the quantity below zero: the quantity becomes [q + d],
    [updatedAt] is stamped, and a StockMovement row with delta [d] is
    appended when an acting user is given, none otherwise. *)
Theorem C1_updateProductStock_applies_every_delta :
  forall (st : Store) (id : string) (p : Product.t) (d : Z) (ty : string)
         (reason userId : option string),
    fresh_ids st ->
    JsMap.get id (products st) = Some p ->
    let res := MemStorage.updateProductStock id d ty reason userId st in
    fst res = true /\
    (exists p' : Product.t,
        JsMap.get id (products (snd res)) = Some p' /\
        Product.quantity p' = Product.quantity p + d /\
        Product.updatedAt p' = Some (clock st)) /\
    (if truthy userId then
       exists mv : StockMovement.t,
         JsMap.values (stockMovements (snd res)) =
           JsMap.values (stockMovements st) ++ [mv] /\
         StockMovement.productId mv = id /\
         StockMovement.quantity mv = d /\
         StockMovement.movementType mv = ty
     else stockMovements (snd res) = stockMovements st).
Proof.
  intros st id p d ty reason userId Hf Hp res.
  destruct (updateProductStock_found id d ty reason userId st p Hp)
    as (Hok & Hps & Hm & _).
  fold res in Hok, Hps, Hm. split; [exact Hok|]. split.
  - eexists. rewrite Hps, get_set_same. repeat split.
  - rewrite Hm. destruct (truthy userId); [|reflexivity].
    eexists. split.
    + apply values_set_fresh, fresh_from_now, Hf.
    + repeat split.
Qed.

Lemma C1_updateProductStock_applies_every_delta_witness :
  fresh_ids store_P5 /\
  JsMap.get "P" (products store_P5) = Some (sample_product "P" 5 350 true) /\
  let res :=
    MemStorage.updateProductStock "P" (-10) "sale" None (Some "u1") store_P5
  in
  fst res = true /\
  (exists p' : Product.t,
      JsMap.get "P" (products (snd res)) = Some p' /\
      Product.quantity p' = 5 + -10 /\
      Product.updatedAt p' = Some (clock store_P5)) /\
  exists mv : StockMovement.t,
    JsMap.values (stockMovements (snd res)) =
      JsMap.values (stockMovements store_P5) ++ [mv] /\
    StockMovement.productId mv = "P" /\
    StockMovement.quantity mv = -10 /\
    StockMovement.movementType mv = "sale".
Proof.
  split; [apply fresh_ids_store_of_products|].
  split; [reflexivity|].
  exact (C1_updateProductStock_applies_every_delta store_P5 "P"
           (sample_product "P" 5 350 true) (-10) "sale" None (Some "u1")
           (fresh_ids_store_of_products _) eq_refl).
Defined.

Lemma run_op_extends (op : LedgerOp) (st : Store) :
  fresh_ids st ->
  truthy (Some (op_actor op)) = true ->
  ledger_extends true st (run_op op st).
Proof.
  intros Hf Ha. rewrite <- Ha. destruct op; simpl run_op.
  - now apply createSale_extends.
  - now apply updateProductStock_extends.
  - now apply createReturn_extends.
  - now apply receivePurchaseOrder_extends.
Qed.

Lemma run_ops_extends (ops : list LedgerOp) :
  forall st : Store,
    fresh_ids st ->
    Forall (fun op => truthy (Some (op_actor op)) = true) ops ->
    ledger_extends true st (run_ops ops st).
Proof.
  induction ops as [|op ops IH]; intros st Hf Hall.
  - now apply extends_refl.
  - inversion Hall as [|? ? Hop Hops]; subst. simpl.
    pose proof (run_op_extends op st Hf Hop) as H1.
    eapply extends_trans; [exact H1|]. apply IH; [apply H1 | exact Hops].
Qed.

(** C3, as the code has it: an adjustment that carries no acting user
    moves the quantity of P from 5 to 2 and records no movement. *)
Lemma C3_unattributed_adjustment_leaves_no_movement :
  let st' :=
    snd (MemStorage.updateProductStock "P" (-3) "adjustment"
           (Some "damaged") None store_P5) in
  quantity_of "P" store_P5 = Some 5 /\
  movements_of "P" store_P5 = [] /\
  quantity_of "P" st' = Some 2 /\
  delta_sum (movements_of "P" st') = 0 /\
  2 <> 5 + 0.
Proof. vm_compute. repeat split; try reflexivity. discriminate. Qed.

(** C3, amended: on the in-memory store, for every product and every
    finite sequence of ledger operations (sale, manual adjustment, return,
    purchase-order receipt) that each carry an acting user, the final
    quantity is the initial quantity plus the sum of the signed deltas of
    the StockMovement rows recorded for the product by the sequence. *)
Theorem C3_quantity_is_initial_plus_recorded_deltas :
  forall (ops : list LedgerOp) (st : Store) (pid : string) (p : Product.t),
    fresh_ids st ->
    Forall (fun op => truthy (Some (op_actor op)) = true) ops ->
    JsMap.get pid (products st) = Some p ->
    exists (p' : Product.t) (recorded : list StockMovement.t),
      JsMap.get pid (products (run_ops ops st)) = Some p' /\
      movements_of pid (run_ops ops st) = movements_of pid st ++ recorded /\
      Product.quantity p' = Product.quantity p + delta_sum recorded.
Proof.
  intros ops st pid p Hf Hall Hp.
  destruct (run_ops_extends ops st Hf Hall) as (_ & Hd & rec & Hv & _ & Hs).
  specialize (Hd pid). specialize (Hs eq_refl pid).
  unfold JsMap.has, stock in *. rewrite Hp in *.
  destruct (JsMap.get pid (products (run_ops ops st))) as [p'|];
    [|discriminate].
  exists p', (for_product pid rec). repeat split.
  - unfold movements_of. now rewrite Hv, for_product_app.
  - exact Hs.
Qed.

Lemma C3_quantity_is_initial_plus_recorded_deltas_witness :
  fresh_ids (store_order "pending" None) /\
  Forall (fun op => truthy (Some (op_actor op)) = true) sample_ops /\
  JsMap.get "P" (products (store_order "pending" None))
    = Some (sample_product "P" 2 350 true) /\
  exists (p' : Product.t) (recorded : list StockMovement.t),
    JsMap.get "P" (products (run_ops sample_ops (store_order "pending" None)))
      = Some p' /\
    movements_of "P" (run_ops sample_ops (store_order "pending" None))
      = movements_of "P" (store_order "pending" None) ++ recorded /\
    Product.quantity p' = 2 + delta_sum recorded.
Proof.
  assert (Hf : fresh_ids (store_order "pending" None))
    by now apply fresh_ids_no_rows.
  assert (Ha : Forall (fun op => truthy (Some (op_actor op)) = true)
                 sample_ops)
    by (repeat constructor).
  split; [exact Hf|]. split; [exact Ha|]. split; [reflexivity|].
  exact (C3_quantity_is_initial_plus_recorded_deltas sample_ops
           (store_order "pending" None) "P" (sample_product "P" 2 350 true)
           Hf Ha eq_refl).
Defined.

(** ** Sale creation *)

Lemma for_product_none (pid : string) (ps : JsMap.t Product.t)
    (ms : list StockMovement.t) :
  JsMap.get pid ps = None ->
  Forall (fun m => JsMap.has (StockMovement.productId m) ps = true) ms ->
  for_product pid ms = [].
Proof.
  intros Hnone Hall. induction Hall as [|m ms Hm _ IH]; simpl; [reflexivity|].
  destruct (String.eqb_spec (StockMovement.productId m) pid) as [E|_].
  - unfold JsMap.has in Hm. rewrite E, Hnone in Hm. discriminate.
  - exact IH.
Qed.

Lemma createSale_lines_frame (sale : Sale.t) (items : list InsertSaleItem.t) :
  forall st : Store,
    let st' := snd (for_of items (MemStorage.createSale_line sale) st) in
    customers st' = customers st /\ sales st' = sales st.
Proof.
  induction items as [|it items IH]; intros st; cbv zeta.
  - now split.
  - rewrite for_of_cons.
    destruct (IH (snd (MemStorage.createSale_line sale it st))) as (Hc & Hs).
    rewrite Hc, Hs, createSale_line_eq.
    match goal with
    | |- context [MemStorage.updateProductStock ?a ?b ?c ?d ?e ?s] =>
        destruct (updateProductStock_frame a b c d e s)
          as (_ & Hcu & Hsa & _)
    end.
    now rewrite Hcu, Hsa.
Qed.

(** C2, as the code has it: a sale of P and of a product that does not
    exist is accepted; the header, both lines and the stock effect of the
    first line are persisted. *)
Lemma C2_sale_with_missing_product_is_persisted :
  let res :=
    MemStorage.createSale (sample_sale None 10000)
      [sample_line "P" 1 5000; sample_line "ghost" 1 5000] store_P5 in
  JsMap.get "ghost" (products store_P5) = None /\
  sales store_P5 = [] /\
  JsMap.keys (sales (snd res)) = [Sale.id (fst res)] /\
  map SaleItem.productId (JsMap.values (saleItems (snd res)))
    = ["P"; "ghost"] /\
  map StockMovement.quantity (JsMap.values (stockMovements (snd res)))
    = [-1] /\
  quantity_of "P" store_P5 = Some 5 /\
  quantity_of "P" (snd res) = Some 4.
Proof. vm_compute. repeat split; reflexivity. Qed.

(** C2, amended: [createSale] on the in-memory store rejects nothing.  The
    Sale header is persisted and every line is persisted as a SaleItem,
    also a line whose product does not exist; for a product that does not
    exist no StockMovement is written and no product is created. *)
Theorem C2_createSale_persists_header_and_every_line :
  forall (st : Store) (ins : InsertSale.t) (items : list InsertSaleItem.t),
    fresh_ids st ->
    let res := MemStorage.createSale ins items st in
    JsMap.get (Sale.id (fst res)) (sales (snd res)) = Some (fst res) /\
    (exists built : list SaleItem.t,
        JsMap.values (saleItems (snd res)) =
          JsMap.values (saleItems st) ++ built /\
        Forall2 (line_stored (fst res)) items built) /\
    (forall pid : string,
        JsMap.get pid (products st) = None ->
        JsMap.get pid (products (snd res)) = None /\
        movements_of pid (snd res) = movements_of pid st).
Proof.
  intros st ins items Hf res.
  pose proof (createSale_extends ins items st Hf) as Hex. fold res in Hex.
  pose proof (createSale_eq ins items st) as Heq. cbv zeta in Heq.
  fold res in Heq.
  set (sale := Sale.of_insert ins (uuid_of (uuids st)) (Some (clock st)))
    in *.
  match type of Heq with
  | context [for_of items _ ?s] => set (st0 := s) in *
  end.
  assert (Hf0 : fresh_ids st0).
  { destruct Hf as (H1 & H2 & H3 & H4).
    unfold fresh_ids, st0; simpl; repeat split;
      first [ now apply fresh_from_set | now apply fresh_from_S ]. }
  destruct (createSale_lines_spec sale items st0 Hf0)
    as (_ & Hsa & _ & built & Hv & Hl).
  set (st1 := snd (for_of items (MemStorage.createSale_line sale) st0)) in *.
  destruct (createSale_customer_frame sale st1) as (_ & Hs2 & Hi2 & _).
  rewrite Heq. simpl fst. simpl snd. split; [|split].
  - rewrite Hs2, Hsa. unfold st0. simpl. apply get_set_same.
  - exists built. rewrite Hi2, Hv. split; [reflexivity | exact Hl].
  - intros pid Hnone. rewrite Heq in Hex. simpl snd in Hex.
    destruct Hex as (_ & Hd & rec & Hrec & Hin & _). split.
    + specialize (Hd pid). unfold JsMap.has in Hd. rewrite Hnone in Hd.
      now destruct (JsMap.get pid (products _)).
    + unfold movements_of. rewrite Hrec, for_product_app.
      rewrite (for_product_none pid (products st) rec Hnone Hin).
      apply app_nil_r.
Qed.

Lemma C2_createSale_persists_header_and_every_line_witness :
  fresh_ids store_P5 /\
  let res :=
    MemStorage.createSale (sample_sale None 10000)
      [sample_line "P" 1 5000; sample_line "ghost" 1 5000] store_P5 in
  JsMap.get (Sale.id (fst res)) (sales (snd res)) = Some (fst res) /\
  (exists built : list SaleItem.t,
      JsMap.values (saleItems (snd res)) =
        JsMap.values (saleItems store_P5) ++ built /\
      Forall2 (line_stored (fst res))
        [sample_line "P" 1 5000; sample_line "ghost" 1 5000] built) /\
  (forall pid : string,
      JsMap.get pid (products store_P5) = None ->
      JsMap.get pid (products (snd res)) = None /\
      movements_of pid (snd res) = movements_of pid store_P5).
Proof.
  split; [apply fresh_ids_store_of_products|].
  exact (C2_createSale_persists_header_and_every_line store_P5
           (sample_sale None 10000)
           [sample_line "P" 1 5000; sample_line "ghost" 1 5000]
           (fresh_ids_store_of_products _)).
Defined.

(** The relational store skips the ledger for a line whose product is not
    tracked: the SaleItem is inserted, products and movements stay. *)
Lemma DatabaseStorage_createSale_line_skips_untracked
    (ins : InsertSale.t) (sale : Sale.t) (it : InsertSaleItem.t)
    (st : Store) (p : Product.t) :
  JsMap.has (Sale.id sale) (sales st) = true ->
  JsMap.get (InsertSaleItem.productId it) (products st) = Some p ->
  Product.trackStock p = false ->
  exists st' : Store,
    DatabaseStorage.createSale_line ins sale it st = (Ok tt, st') /\
    products st' = products st /\
    stockMovements st' = stockMovements st /\
    saleItems st' =
      JsMap.set (uuid_of (uuids st))
        (SaleItem.of_insert it (uuid_of (uuids st)) (Sale.id sale))
        (saleItems st).
Proof.
  intros Hsale Hp Htrack.
  unfold DatabaseStorage.createSale_line, DatabaseStorage.insert_saleItems,
    DatabaseStorage.getProduct, Table.references, db_bind, lift.
  rewrite Hsale. unfold JsMap.has. rewrite Hp. run_store. rewrite Hp, Htrack.
  eexists. split; [reflexivity|]. simpl. repeat split.
Qed.

(** C7 on the two stores: a sale of 2 units of the untracked product U
    (5 in stock).  The in-memory store moves the stock to 3 and writes a
    movement of -2; the relational store leaves the stock and the log
    alone.  Both persist the SaleItem. *)
Lemma C7_mem_createSale_moves_untracked_stock :
  let mem :=
    snd (MemStorage.createSale (sample_sale None 10000)
           [sample_line "U" 2 5000] store_U5) in
  let db :=
    snd (DatabaseStorage.createSale (sample_sale None 10000)
           [sample_line "U" 2 5000] store_U5) in
  option_map Product.trackStock (JsMap.get "U" (products store_U5))
    = Some false /\
  quantity_of "U" store_U5 = Some 5 /\
  quantity_of "U" mem = Some 3 /\
  map StockMovement.quantity (movements_of "U" mem) = [-2] /\
  map SaleItem.productId (JsMap.values (saleItems mem)) = ["U"] /\
  quantity_of "U" db = Some 5 /\
  movements_of "U" db = [] /\
  map SaleItem.productId (JsMap.values (saleItems db)) = ["U"].
Proof. vm_compute. repeat split; reflexivity. Qed.

(** C8, as the code has it: customer K has spent 4750.00 and holds 450
    points; a sale whose total the client sends as "16.275" leaves
    [totalSpent] at "4766.27", the double sum rounded to two decimals, and
    not at 4766.275; the points grow by 16. *)
Lemma C8_total_beyond_two_decimals_is_rounded :
  let res :=
    MemStorage.createSale sale_with_tax
      [InsertSaleItem.mk "" "P" 1 "15" "15"] store_customer in
  option_map Customer.totalSpent (JsMap.get "K" (customers store_customer))
    = Some "4750.00" /\
  InsertSale.total sale_with_tax = "16.275" /\
  option_map Customer.totalSpent (JsMap.get "K" (customers (snd res)))
    = Some "4766.27" /\
  parseFloat "4766.27"
    <> JsNumber.add (parseFloat "4750.00") (parseFloat "16.275") /\
  option_map Customer.loyaltyPoints (JsMap.get "K" (customers (snd res)))
    = Some (JsNumber.of_Z 466).
Proof. vm_compute. repeat split; try reflexivity. discriminate. Qed.

(** C8, amended: a sale with a customer attached sets the customer's
    [totalSpent] to the sum, in doubles, of its former text and of the
    total of the sale, written with two decimals, and adds the floor of
    the total to [loyaltyPoints]; on amounts with two decimals, within the
    range of the column, that is the exact sum of the amounts and the
    whole units of the total.  A sale with no customer changes no
    customer. *)
Theorem C8_createSale_updates_customer_aggregates :
  forall (st : Store) (ins : InsertSale.t) (items : list InsertSaleItem.t),
    let res := MemStorage.createSale ins items st in
    (forall (cid : string) (c : Customer.t),
        InsertSale.customerId ins = Some cid ->
        cid <> "" ->
        JsMap.get cid (customers st) = Some c ->
        exists c' : Customer.t,
          JsMap.get cid (customers (snd res)) = Some c' /\
          Customer.totalSpent c' =
            JsNumber.toFixed 2
              (JsNumber.add (parseFloat (Customer.totalSpent c))
                            (parseFloat (InsertSale.total ins))) /\
          Customer.loyaltyPoints c' =
            JsNumber.add (Customer.loyaltyPoints c)
                         (Math.floor (parseFloat (InsertSale.total ins))) /\
          (forall spent total points : Z,
              0 <= spent < 10 ^ 10 ->
              0 <= total < 10 ^ 10 ->
              Z.abs points < 2 ^ 31 ->
              Customer.totalSpent c = decimal_text spent ->
              InsertSale.total ins = decimal_text total ->
              Customer.loyaltyPoints c = JsNumber.of_Z points ->
              Customer.totalSpent c' = decimal_text (spent + total) /\
              Customer.loyaltyPoints c'
                = JsNumber.of_Z (points + total / 100))) /\
    (InsertSale.customerId ins = None ->
     customers (snd res) = customers st).
Proof.
  intros st ins items res. unfold res. rewrite createSale_eq. cbv zeta.
  simpl snd.
  set (sale := Sale.of_insert ins (uuid_of (uuids st)) (Some (clock st))).
  match goal with
  | |- context [for_of items _ ?s] => set (st0 := s)
  end.
  destruct (createSale_lines_frame sale items st0) as (Hc & _).
  set (st1 := snd (for_of items (MemStorage.createSale_line sale) st0)) in *.
  change (customers st0) with (customers st) in Hc.
  unfold MemStorage.createSale_customer.
  change (Sale.customerId sale) with (InsertSale.customerId ins).
  change (Sale.total sale) with (InsertSale.total ins).
  split.
  - intros cid c Hcid Hne Hget. rewrite Hcid.
    assert (Ht : truthy (Some cid) = true)
      by (simpl; apply String.eqb_neq in Hne; now rewrite Hne).
    rewrite Ht. run_store. rewrite Hc, Hget. simpl.
    eexists. rewrite get_set_same.
    split; [reflexivity|]. split; [reflexivity|]. split; [reflexivity|].
    intros spent total points Hs Ht' Hp Es Et Ep. simpl.
    rewrite Es, Et, Ep. split; [now apply add_amounts|].
    rewrite floor_parseFloat_amount by exact Ht'.
    rewrite of_Z_exact.
    + unfold JsNumber.add, JsNumber.of_Z. f_equal. ring.
    + eapply Z.lt_trans; [exact Hp|]. reflexivity.
  - intros Hnone. rewrite Hnone. simpl. exact Hc.
Qed.

Lemma C8_createSale_updates_customer_aggregates_witness :
  let res :=
    MemStorage.createSale (sample_sale (Some "K") 14105)
      [sample_line "P" 1 5000] store_customer in
  exists c' : Customer.t,
    JsMap.get "K" (customers (snd res)) = Some c' /\
    Customer.totalSpent c' = "4891.05" /\
    Customer.loyaltyPoints c' = JsNumber.of_Z 591.
Proof.
  destruct (proj1 (C8_createSale_updates_customer_aggregates store_customer
                     (sample_sale (Some "K") 14105)
                     [sample_line "P" 1 5000])
              "K" (sample_customer "K" 450 475000) eq_refl
              ltac:(discriminate) eq_refl)
    as (c' & Hget & _ & _ & Hexact).
  exists c'. split; [exact Hget|].
  exact (Hexact 475000 14105 450 ltac:(lia) ltac:(lia) ltac:(lia)
           eq_refl eq_refl eq_refl).
Defined.

(** ** Returns *)

(** C10: a return for a product that is not in the store is persisted and
    handed back to the caller, while no product and no stock movement
    changes. *)
Theorem C10_createReturn_of_missing_product_is_persisted :
  forall (st : Store) (ins : InsertReturn.t),
    JsMap.get (InsertReturn.productId ins) (products st) = None ->
    let res := MemStorage.createReturn ins st in
    fst res = Return.of_insert ins (uuid_of (uuids st)) (Some (clock st)) /\
    JsMap.get (Return.id (fst res)) (returns (snd res)) = Some (fst res) /\
    products (snd res) = products st /\
    stockMovements (snd res) = stockMovements st.
Proof.
  intros st ins Hnone res. unfold res. rewrite createReturn_eq. cbv zeta.
  rewrite updateProductStock_missing by exact Hnone.
  simpl. rewrite get_set_same. repeat split.
Qed.

Lemma C10_createReturn_of_missing_product_is_persisted_witness :
  JsMap.get "ghost" (products store_P5) = None /\
  let res := MemStorage.createReturn (sample_return "ghost" 1) store_P5 in
  fst res =
    Return.of_insert (sample_return "ghost" 1) (uuid_of (uuids store_P5))
      (Some (clock store_P5)) /\
  JsMap.get (Return.id (fst res)) (returns (snd res)) = Some (fst res) /\
  products (snd res) = products store_P5 /\
  stockMovements (snd res) = stockMovements store_P5.
Proof.
  split; [reflexivity|].
  exact (C10_createReturn_of_missing_product_is_persisted store_P5
           (sample_return "ghost" 1) eq_refl).
Defined.

(** ** The two stores behind IStorage *)

(** On the relational store the [quantity] argument of
    [updateProductStock] becomes the product's quantity as it is. *)
Lemma DatabaseStorage_updateProductStock_sets_quantity
    (id : string) (quantity : Z) (ty : string) (reason uid : option string)
    (st : Store) (p : Product.t) :
  JsMap.get id (products st) = Some p ->
  JsMap.get id
    (products
       (snd (DatabaseStorage.updateProductStock id quantity ty reason uid st)))
  = Some (Product.with_quantity quantity p).
Proof.
  intros Hp.
  assert (Hupd : JsMap.get id
            (Table.update_where_id id (Product.with_quantity quantity)
               (products st)) = Some (Product.with_quantity quantity p))
    by (rewrite get_update_where_id, String.eqb_refl, Hp; reflexivity).
  unfold DatabaseStorage.updateProductStock, try_catch, db_bind, db_ret,
    DatabaseStorage.update_products_quantity, lift.
  run_store. destruct (truthy uid); [|exact Hupd].
  unfold DatabaseStorage.insert_stockMovements, Table.references, throw, lift.
  simpl. unfold JsMap.has. rewrite Hupd.
  destruct (JsMap.get _ (users st)); simpl; exact Hupd.
Qed.

(** C4 on the two stores: [updateProductStock("P", 3, "adjustment", ...)]
    on product P with 5 in stock.  The in-memory store adds the argument
    (8) and stamps [updatedAt]; the relational store sets the argument (3)
    and leaves [updatedAt]; both log a movement of 3. *)
Lemma C4_updateProductStock_stores_disagree :
  let mem :=
    snd (MemStorage.updateProductStock "P" 3 "adjustment" (Some "recount")
           (Some "u1") store_P5) in
  let db :=
    snd (DatabaseStorage.updateProductStock "P" 3 "adjustment"
           (Some "recount") (Some "u1") store_P5) in
  quantity_of "P" store_P5 = Some 5 /\
  quantity_of "P" mem = Some (5 + 3) /\
  quantity_of "P" db = Some 3 /\
  map StockMovement.quantity (movements_of "P" mem) = [3] /\
  map StockMovement.quantity (movements_of "P" db) = [3] /\
  option_map Product.updatedAt (JsMap.get "P" (products mem))
    = Some (Some (clock store_P5)) /\
  option_map Product.updatedAt (JsMap.get "P" (products db))
    = option_map Product.updatedAt (JsMap.get "P" (products store_P5)).
Proof. vm_compute. repeat split; reflexivity. Qed.

(** ** Purchase-order receipt *)

Lemma receivePurchaseOrder_items_frame (order : PurchaseOrder.t)
    (uid : string) (items : list PurchaseOrderItem.t) :
  forall st : Store,
    purchaseOrders
      (snd (for_of items (MemStorage.receivePurchaseOrder_item order uid) st))
    = purchaseOrders st.
Proof.
  induction items as [|it items IH]; intros st; [reflexivity|].
  rewrite for_of_cons, IH, receivePurchaseOrder_item_eq. cbv zeta.
  match goal with
  | |- context [MemStorage.updateProductStock ?a ?b ?c ?d ?e ?s] =>
      destruct (updateProductStock_frame a b c d e s)
        as (_ & _ & _ & _ & _ & Hpo & _);
      set (st1 := snd (MemStorage.updateProductStock a b c d e s)) in *
  end.
  now destruct (JsMap.get _ (products st1)).
Qed.

(** The stock of an order is applied once: after a receipt that
    succeeded, receiving the same order again is refused and changes
    nothing. *)
Lemma receivePurchaseOrder_twice (id uid uid' : string) (st : Store) :
  let res := MemStorage.receivePurchaseOrder id uid st in
  fst res = true ->
  MemStorage.receivePurchaseOrder id uid' (snd res) = (false, snd res).
Proof.
  intros res Hok. apply receivePurchaseOrder_refused. unfold res in *.
  destruct (JsMap.get id (purchaseOrders st)) as [o|] eqn:Ho.
  2:{ rewrite receivePurchaseOrder_refused in Hok by (now rewrite Ho).
      discriminate. }
  destruct (String.eqb_spec (PurchaseOrder.status o) "received") as [Hs|Hs].
  { rewrite receivePurchaseOrder_refused in Hok by (now rewrite Ho).
    discriminate. }
  rewrite (receivePurchaseOrder_accepted id uid st o Ho Hs). simpl snd.
  rewrite receivePurchaseOrder_items_frame. simpl.
  now rewrite get_set_same.
Qed.

(** C5, as the code has it: a cancelled order is received; its status
    becomes "received" and its 20 units are added to the stock of P. *)
Lemma C5_cancelled_order_is_received :
  let res :=
    MemStorage.receivePurchaseOrder "O" "u1" (store_order "cancelled" None)
  in
  option_map PurchaseOrder.status
    (JsMap.get "O" (purchaseOrders (store_order "cancelled" None)))
    = Some "cancelled" /\
  fst res = true /\
  option_map PurchaseOrder.status (JsMap.get "O" (purchaseOrders (snd res)))
    = Some "received" /\
  quantity_of "P" (store_order "cancelled" None) = Some 2 /\
  quantity_of "P" (snd res) = Some 22 /\
  map StockMovement.quantity (movements_of "P" (snd res)) = [20].
Proof. vm_compute. repeat split; reflexivity. Qed.

(** The relational store has no such guard: an order that is already
    "received" is received again, and [receivedAt] is stamped anew. *)
Lemma DatabaseStorage_receivePurchaseOrder_has_no_guard :
  let st := store_order "received" (Some 0%nat) in
  let res := DatabaseStorage.receivePurchaseOrder "O" "u1" st in
  fst res = Ok true /\
  option_map PurchaseOrder.receivedAt
    (JsMap.get "O" (purchaseOrders (snd res))) = Some (Some (clock st)) /\
  products (snd res) = products st /\
  stockMovements (snd res) = stockMovements st.
Proof. vm_compute. repeat split; reflexivity. Qed.

(** C5, amended: on the in-memory store, receiving a purchase order whose
    status is "received" returns false and changes nothing: neither the
    order, nor a product quantity, nor the movement log.  So the stock of
    an order is never applied twice: after a receipt that succeeded,
    receiving the order again is refused. *)
Theorem C5_received_order_is_refused :
  forall (st : Store) (id uid : string),
    (forall o : PurchaseOrder.t,
        JsMap.get id (purchaseOrders st) = Some o ->
        PurchaseOrder.status o = "received" ->
        MemStorage.receivePurchaseOrder id uid st = (false, st)) /\
    (forall uid' : string,
        let res := MemStorage.receivePurchaseOrder id uid st in
        fst res = true ->
        MemStorage.receivePurchaseOrder id uid' (snd res)
          = (false, snd res)).
Proof.
  intros st id uid. split.
  - intros o Ho Hs. apply receivePurchaseOrder_refused. now rewrite Ho.
  - intros uid'. apply receivePurchaseOrder_twice.
Qed.

Lemma C5_received_order_is_refused_witness :
  JsMap.get "O" (purchaseOrders (store_order "received" (Some 0%nat)))
    = Some (PurchaseOrder.mk "O" "PO-1700000000000" "S" "received" 8000 "u1"
              (Some 0%nat) (Some 0%nat)) /\
  MemStorage.receivePurchaseOrder "O" "u1"
    (store_order "received" (Some 0%nat))
    = (false, store_order "received" (Some 0%nat)).
Proof.
  split; [reflexivity|].
  exact (proj1 (C5_received_order_is_refused
                  (store_order "received" (Some 0%nat)) "O" "u1")
           _ eq_refl eq_refl).
Defined.

(** C6, scenario C: receiving a pending order whose only line is 20 units
    of P at 4.00, P having 2 in stock at cost 3.50, succeeds; P then has
    22 in stock at cost 4.00, exactly one movement was added, of type
    "purchase" and delta +20, and the order is "received" with
    [receivedAt] set. *)
Theorem C6_receive_pending_order_restocks :
  forall (st : Store) (oid uid pid : string) (o : PurchaseOrder.t)
         (item : PurchaseOrderItem.t) (p : Product.t),
    fresh_ids st ->
    uid <> "" ->
    JsMap.get oid (purchaseOrders st) = Some o ->
    PurchaseOrder.status o = "pending" ->
    filter (fun i => String.eqb (PurchaseOrderItem.purchaseOrderId i) oid)
           (JsMap.values (purchaseOrderItems st)) = [item] ->
    PurchaseOrderItem.productId item = pid ->
    PurchaseOrderItem.quantity item = 20 ->
    PurchaseOrderItem.unitCost item = 400 ->
    JsMap.get pid (products st) = Some p ->
    Product.quantity p = 2 ->
    Product.costPrice p = 350 ->
    let res := MemStorage.receivePurchaseOrder oid uid st in
    fst res = true /\
    (exists p' : Product.t,
        JsMap.get pid (products (snd res)) = Some p' /\
        Product.quantity p' = 22 /\ Product.costPrice p' = 400) /\
    (exists mv : StockMovement.t,
        JsMap.values (stockMovements (snd res)) =
          JsMap.values (stockMovements st) ++ [mv] /\
        StockMovement.productId mv = pid /\
        StockMovement.movementType mv = "purchase" /\
        StockMovement.quantity mv = 20) /\
    (exists o' : PurchaseOrder.t,
        JsMap.get oid (purchaseOrders (snd res)) = Some o' /\
        PurchaseOrder.status o' = "received" /\
        PurchaseOrder.receivedAt o' = Some (clock st)).
Proof.
  intros st oid uid pid o item p Hf Huid Ho Hst Hitems Hpid Hq Hc Hp Hpq Hpc
    res.
  assert (Hnr : PurchaseOrder.status o <> "received")
    by (rewrite Hst; discriminate).
  assert (Ht : truthy (Some uid) = true)
    by (simpl; apply String.eqb_neq in Huid; now rewrite Huid).
  unfold res. rewrite (receivePurchaseOrder_accepted oid uid st o Ho Hnr).
  rewrite Hitems, for_of_cons. simpl fst. simpl snd.
  match goal with
  | |- context [MemStorage.receivePurchaseOrder_item _ _ _ ?s] =>
      set (st0 := s)
  end.
  rewrite receivePurchaseOrder_item_eq. cbv zeta. rewrite Hpid, Hq, Hc.
  assert (Hp0 : JsMap.get pid (products st0) = Some p) by exact Hp.
  match goal with
  | |- context [MemStorage.updateProductStock ?a ?b ?c ?d ?e st0] =>
      destruct (updateProductStock_found a b c d e st0 p Hp0)
        as (_ & Hps & Hm & _);
      destruct (updateProductStock_frame a b c d e st0)
        as (_ & _ & _ & _ & _ & Hpo & _);
      set (st1 := snd (MemStorage.updateProductStock a b c d e st0)) in *
  end.
  rewrite Ht in Hm. rewrite Hps, get_set_same.
  split; [reflexivity|]. simpl. split; [|split].
  - eexists. rewrite get_set_same. split; [reflexivity|]. simpl.
    split; [lia|reflexivity].
  - eexists. rewrite Hm. split.
    + apply values_set_fresh, fresh_from_now, Hf.
    + repeat split.
  - eexists. rewrite Hpo. unfold st0. simpl. rewrite get_set_same.
    repeat split.
Qed.

Lemma C6_receive_pending_order_restocks_witness :
  let st := store_order "pending" None in
  let res := MemStorage.receivePurchaseOrder "O" "u1" st in
  fst res = true /\
  (exists p' : Product.t,
      JsMap.get "P" (products (snd res)) = Some p' /\
      Product.quantity p' = 22 /\ Product.costPrice p' = 400) /\
  (exists mv : StockMovement.t,
      JsMap.values (stockMovements (snd res)) =
        JsMap.values (stockMovements st) ++ [mv] /\
      StockMovement.productId mv = "P" /\
      StockMovement.movementType mv = "purchase" /\
      StockMovement.quantity mv = 20) /\
  (exists o' : PurchaseOrder.t,
      JsMap.get "O" (purchaseOrders (snd res)) = Some o' /\
      PurchaseOrder.status o' = "received" /\
      PurchaseOrder.receivedAt o' = Some (clock st)).
Proof.
  refine (C6_receive_pending_order_restocks (store_order "pending" None)
            "O" "u1" "P" _ _ _ _ _ eq_refl eq_refl eq_refl eq_refl eq_refl
            eq_refl eq_refl eq_refl eq_refl).
  - now apply fresh_ids_no_rows.
  - discriminate.
Defined.

(** ** Reporting: top products *)

Lemma In_keys_set {V : Type} (x k : string) (v : V) (m : JsMap.t V) :
  In x (JsMap.keys (JsMap.set k v m)) -> x = k \/ In x (JsMap.keys m).
Proof.
  induction m as [|[k' v'] m IH]; simpl.
  - intros [H|[]]. now left.
  - destruct (String.eqb k' k); simpl.
    + intros [H|H]; [now left | now right; right].
    + intros [H|H]; [now right; left|].
      destruct (IH H) as [E|E]; [now left | now right; right].
Qed.

Lemma NoDup_keys_set {V : Type} (k : string) (v : V) (m : JsMap.t V) :
  NoDup (JsMap.keys m) -> NoDup (JsMap.keys (JsMap.set k v m)).
Proof.
  induction m as [|[k' v'] m IH]; simpl; intros Hnd.
  - constructor; [intros [] | constructor].
  - inversion Hnd as [|? ? Hnotin Hnd']; subst.
    destruct (String.eqb_spec k' k) as [->|Hne]; simpl.
    + now constructor.
    + constructor; [|now apply IH].
      intros Hin. apply In_keys_set in Hin as [E|Hin]; [congruence|].
      now apply Hnotin.
Qed.

Lemma In_get {V : Type} (k : string) (v : V) (m : JsMap.t V) :
  NoDup (JsMap.keys m) -> In (k, v) m -> JsMap.get k m = Some v.
Proof.
  induction m as [|[k' v'] m IH]; simpl; intros Hnd Hin; [contradiction|].
  inversion Hnd as [|? ? Hnotin Hnd']; subst.
  destruct Hin as [E|Hin].
  - injection E as -> ->. now rewrite String.eqb_refl.
  - destruct (String.eqb_spec k' k) as [->|_]; [|now apply IH].
    exfalso. apply Hnotin. unfold JsMap.keys.
    change k with (fst (k, v)). now apply in_map.
Qed.

Lemma In_keys_get {V : Type} (k : string) (m : JsMap.t V) :
  In k (JsMap.keys m) <-> JsMap.get k m <> None.
Proof.
  induction m as [|[k' v'] m IH]; simpl.
  - split; [intros [] | congruence].
  - destruct (String.eqb_spec k' k) as [->|Hne].
    + split; [discriminate | now left].
    + rewrite <- IH. split; [intros [E|H]; [congruence | exact H] | now right].
Qed.

Lemma get_tally (acc : JsMap.t MemStorage.Stats) (it : SaleItem.t)
    (pid : string) :
  JsMap.get pid (MemStorage.tally acc it) =
    if String.eqb (SaleItem.productId it) pid then
      let base :=
        match JsMap.get pid acc with
        | Some s => s
        | None => MemStorage.mkStats 0 JsNumber.zero
        end in
      Some (MemStorage.mkStats
              (MemStorage.stats_totalSold base + SaleItem.quantity it)
              (JsNumber.add (MemStorage.stats_revenue base)
                            (parseFloat (SaleItem.totalPrice it))))
    else JsMap.get pid acc.
Proof.
  unfold MemStorage.tally.
  destruct (String.eqb_spec (SaleItem.productId it) pid) as [<-|Hne].
  - now rewrite get_set_same.
  - now rewrite get_set_other.
Qed.

Lemma get_fold_tally (items : list SaleItem.t) :
  forall (acc : JsMap.t MemStorage.Stats) (pid : string),
    JsMap.get pid (fold_left MemStorage.tally items acc) =
      match items_of pid items with
      | [] => JsMap.get pid acc
      | _ :: _ =>
          let base :=
            match JsMap.get pid acc with
            | Some s => s
            | None => MemStorage.mkStats 0 JsNumber.zero
            end in
          Some (MemStorage.mkStats
                  (MemStorage.stats_totalSold base
                   + sold (items_of pid items))
                  (fold_left
                     (fun acc it =>
                        JsNumber.add acc
                          (parseFloat (SaleItem.totalPrice it)))
                     (items_of pid items)
                     (MemStorage.stats_revenue base)))
      end.
Proof.
  induction items as [|it items IH]; intros acc pid; [reflexivity|].
  simpl fold_left. rewrite IH, get_tally. unfold items_of. simpl filter.
  fold (items_of pid items).
  destruct (String.eqb (SaleItem.productId it) pid).
  - destruct (items_of pid items) as [|it' its]; cbv zeta; simpl;
      f_equal; f_equal; lia.
  - reflexivity.
Qed.

Lemma get_productSales_of (items : list SaleItem.t) (pid : string) :
  JsMap.get pid (MemStorage.productSales_of items) =
    match items_of pid items with
    | [] => None
    | _ :: _ =>
        Some (MemStorage.mkStats (sold (items_of pid items))
                                 (earned (items_of pid items)))
    end.
Proof.
  unfold MemStorage.productSales_of. rewrite get_fold_tally. simpl.
  now destruct (items_of pid items).
Qed.

Lemma NoDup_keys_productSales_of (items : list SaleItem.t) :
  NoDup (JsMap.keys (MemStorage.productSales_of items)).
Proof.
  unfold MemStorage.productSales_of.
  assert (H : forall acc : JsMap.t MemStorage.Stats,
             NoDup (JsMap.keys acc) ->
             NoDup (JsMap.keys (fold_left MemStorage.tally items acc))).
  { induction items as [|it items IH]; intros acc Hnd; [exact Hnd|].
    simpl. apply IH. unfold MemStorage.tally. now apply NoDup_keys_set. }
  apply H. constructor.
Qed.

Lemma with_products_of_aggregates (st : Store)
    (es : list (string * MemStorage.Stats)) :
  (forall k s, In (k, s) es ->
     s = MemStorage.mkStats
           (sold (items_of k (JsMap.values (saleItems st))))
           (earned (items_of k (JsMap.values (saleItems st))))) ->
  Forall2 (aggregates st)
    (MemStorage.with_products_of (products st) es)
    (filter (fun k => JsMap.has k (products st)) (JsMap.keys es)).
Proof.
  induction es as [|[k s] es IH]; intros Hall; simpl; [constructor|].
  assert (IH' := IH (fun k' s' H => Hall k' s' (or_intror H))).
  unfold JsMap.has at 1.
  destruct (JsMap.get k (products st)) as [p|] eqn:E; [|exact IH'].
  constructor; [|exact IH'].
  rewrite (Hall k s (or_introl eq_refl)). now repeat split.
Qed.

Lemma insert_by_revenue_perm (x : MemStorage.TopProduct)
    (l : list MemStorage.TopProduct) :
  Permutation (x :: l) (MemStorage.insert_by_revenue x l).
Proof.
  induction l as [|y l IH]; simpl; [reflexivity|].
  destruct (JsNumber.positive
              (JsNumber.sub (MemStorage.revenue y) (MemStorage.revenue x)));
    [|reflexivity].
  rewrite perm_swap. now constructor.
Qed.

Lemma sort_by_revenue_perm (l : list MemStorage.TopProduct) :
  Permutation l (MemStorage.sort_by_revenue l).
Proof.
  induction l as [|x l IH]; simpl; [constructor|].
  rewrite <- insert_by_revenue_perm. now constructor.
Qed.

(** Among revenues that are numbers the comparator is consistent, and the
    insertion keeps the list in descending order. *)
Lemma insert_by_revenue_sorted (x : MemStorage.TopProduct)
    (l : list MemStorage.TopProduct) :
  MemStorage.revenue x <> JsNumber.NaN ->
  Forall (fun e => MemStorage.revenue e <> JsNumber.NaN) l ->
  StronglySorted revenue_ge l ->
  StronglySorted revenue_ge (MemStorage.insert_by_revenue x l).
Proof.
  intros Hx. induction l as [|y l IH]; simpl; intros Hl Hs.
  - repeat constructor.
  - apply StronglySorted_inv in Hs as (Hs & Hy).
    inversion Hl as [|? ? Hyn Hln]; subst.
    destruct (JsNumber.positive
                (JsNumber.sub (MemStorage.revenue y) (MemStorage.revenue x)))
      eqn:Hcmp.
    + apply positive_sub_true in Hcmp.
      constructor; [now apply IH|].
      rewrite <- insert_by_revenue_perm. constructor; [|exact Hy].
      exact Hcmp.
    + apply positive_sub_false in Hcmp; [|exact Hx | exact Hyn].
      constructor; [now constructor|].
      constructor; [exact Hcmp|].
      eapply Forall_impl; [|exact Hy]. unfold revenue_ge. intros a Ha.
      eapply number_le_trans; [exact Ha | exact Hcmp].
Qed.

Lemma sort_by_revenue_sorted (l : list MemStorage.TopProduct) :
  Forall (fun e => MemStorage.revenue e <> JsNumber.NaN) l ->
  StronglySorted revenue_ge (MemStorage.sort_by_revenue l).
Proof.
  induction l as [|x l IH]; simpl; intros Hl; [constructor|].
  inversion Hl as [|? ? Hx Hrest]; subst.
  apply insert_by_revenue_sorted; [exact Hx| |now apply IH].
  eapply Permutation_Forall; [apply sort_by_revenue_perm | exact Hrest].
Qed.

Lemma priced_items_of (pid : string) (items : list SaleItem.t) :
  priced items -> priced (items_of pid items).
Proof.
  unfold priced, items_of. rewrite !Forall_forall. intros H it Hin.
  apply filter_In in Hin. now apply H.
Qed.

Lemma StronglySorted_firstn {A : Type} (R : A -> A -> Prop) (n : nat)
    (l : list A) :
  StronglySorted R l -> StronglySorted R (firstn n l).
Proof.
  revert l. induction n as [|n IH]; intros l Hs; [constructor|].
  destruct l as [|a l]; [constructor|]. simpl.
  apply StronglySorted_inv in Hs as (Hs & Ha).
  constructor; [now apply IH|].
  rewrite Forall_forall in *. intros x Hx. apply Ha.
  rewrite <- (firstn_skipn n l). apply in_or_app. now left.
Qed.

Lemma slice0_firstn {A : Type} (limit : Z) (l : list A) :
  0 <= limit -> MemStorage.slice0 limit l = firstn (Z.to_nat limit) l.
Proof.
  intros Hl. unfold MemStorage.slice0.
  destruct (Z.ltb_spec limit 0) as [Hlt|_]; [lia|].
  destruct (Z.le_ge_cases limit (Z.of_nat (List.length l))) as [Hle|Hge].
  - now rewrite Z.min_l.
  - rewrite Z.min_r, Nat2Z.id by exact Hge.
    rewrite firstn_all. symmetry. apply firstn_all2. lia.
Qed.

(** C9, as the code has it: over the history of scenario E (revenue 100
    for A, 250 for B, 80 for C) the relational store reports no top
    product at all, and the in-memory store, once B has been deleted from
    the catalog, reports A and C and drops the sales of B. *)
Lemma C9_top_products_missing_from_report :
  earned (items_of "A" (JsMap.values (saleItems store_E)))
    = JsNumber.of_Z 100 /\
  earned (items_of "B" (JsMap.values (saleItems store_E)))
    = JsNumber.of_Z 250 /\
  earned (items_of "C" (JsMap.values (saleItems store_E)))
    = JsNumber.of_Z 80 /\
  DatabaseStorage.getTopProducts (Some 2) store_E = [] /\
  saleItems store_E_without_B = saleItems store_E /\
  map (fun e => (Product.id (MemStorage.product e), MemStorage.revenue e))
      (MemStorage.getTopProducts (Some 2) store_E_without_B)
    = [("A", JsNumber.of_Z 100); ("C", JsNumber.of_Z 80)].
Proof. vm_compute. repeat split; reflexivity. Qed.

(** The revenue of the report is a sum of doubles: the lines 0.10 and
    0.20 of X add up to 0.30000000000000004, which is not the 0.30 of Y,
    and X is reported first. *)
Lemma getTopProducts_sums_in_doubles :
  map (fun e => (Product.id (MemStorage.product e), MemStorage.revenue e))
      (MemStorage.getTopProducts (Some 2) store_near_tie)
    = [("X", parseFloat "0.30000000000000004"); ("Y", parseFloat "0.3")] /\
  parseFloat "0.30000000000000004" <> parseFloat "0.3".
Proof. vm_compute. split; [reflexivity | discriminate]. Qed.

(** C9, amended: for a limit that is not negative, [getTopProducts] of the
    in-memory store returns the first [limit] entries of a list that has
    one entry for each product that is still in the store and has sale
    items, carrying the total quantity sold and the revenue of that
    product, the sum of the totals of its lines in doubles; when every
    total is a finite number the list is in descending order of revenue.
    Over the history of scenario E, [getTopProducts(2)] is B then A.
    [getTopProducts] of the relational store is empty for every
    history. *)
Theorem C9_getTopProducts_aggregates_sorts_truncates :
  (forall (st : Store) (limit : Z),
      0 <= limit ->
      let items := JsMap.values (saleItems st) in
      let top := MemStorage.getTopProducts (Some limit) st in
      exists (full : list MemStorage.TopProduct) (pids : list string),
        top = firstn (Z.to_nat limit) full /\
        Forall2 (aggregates st) full pids /\
        NoDup pids /\
        (forall pid : string,
            In pid pids <->
            items_of pid items <> [] /\
            JsMap.has pid (products st) = true) /\
        Z.of_nat (List.length top) <= limit /\
        (priced items ->
         StronglySorted revenue_ge full /\
         StronglySorted revenue_ge top)) /\
  map (fun e => (Product.id (MemStorage.product e),
                 MemStorage.totalSold e, MemStorage.revenue e))
      (MemStorage.getTopProducts (Some 2) store_E)
    = [("B", 5, JsNumber.of_Z 250); ("A", 5, JsNumber.of_Z 100)] /\
  (forall (limit : option Z) (st : Store),
      DatabaseStorage.getTopProducts limit st = []).
Proof.
  split; [|split; [vm_compute; reflexivity | reflexivity]].
  intros st limit Hl items top. unfold top, MemStorage.getTopProducts.
  rewrite slice0_firstn by exact Hl. unfold JsMap.entries. fold items.
  set (es := MemStorage.productSales_of items).
  set (unsorted := MemStorage.with_products_of (products st) es).
  set (full := MemStorage.sort_by_revenue unsorted).
  assert (Hnd : NoDup (JsMap.keys es))
    by apply NoDup_keys_productSales_of.
  assert (Hagg : Forall2 (aggregates st) unsorted
                   (filter (fun k => JsMap.has k (products st))
                           (JsMap.keys es))).
  { apply with_products_of_aggregates. intros k s Hin.
    apply (In_get k s es Hnd) in Hin. unfold es in Hin.
    rewrite get_productSales_of in Hin. fold items in Hin. fold items.
    destruct (items_of k items); [discriminate | now injection Hin]. }
  destruct (Permutation_Forall2 (sort_by_revenue_perm unsorted) Hagg)
    as (pids & Hperm & Hfull).
  fold full in Hfull.
  assert (Hsorted : priced items -> StronglySorted revenue_ge full).
  { intros Hp. apply sort_by_revenue_sorted.
    clear - Hagg Hp. induction Hagg as [|e k l ks (_ & _ & Hrev) _ IH];
      constructor; [|exact IH].
    rewrite Hrev. apply earned_not_NaN. now apply priced_items_of. }
  exists full, pids. repeat split.
  - exact Hfull.
  - eapply Permutation_NoDup; [exact Hperm|]. now apply NoDup_filter.
  - apply (Permutation_in _ (Permutation_sym Hperm)), filter_In in H.
    destruct H as (Hin & _). apply In_keys_get in Hin. unfold es in Hin.
    rewrite get_productSales_of in Hin. fold items in Hin.
    now destruct (items_of pid items).
  - apply (Permutation_in _ (Permutation_sym Hperm)), filter_In in H.
    apply H.
  - intros (Hits & Hhas). apply (Permutation_in _ Hperm), filter_In.
    split; [|exact Hhas]. apply In_keys_get. unfold es.
    rewrite get_productSales_of. fold items.
    now destruct (items_of pid items).
  - pose proof (firstn_le_length (Z.to_nat limit) full). lia.
  - now apply Hsorted.
  - apply StronglySorted_firstn. now apply Hsorted.
Qed.

Lemma C9_getTopProducts_aggregates_sorts_truncates_witness :
  0 <= 2 /\
  exists (full : list MemStorage.TopProduct) (pids : list string),
    MemStorage.getTopProducts (Some 2) store_E = firstn 2 full /\
    Forall2 (aggregates store_E) full pids /\
    NoDup pids /\
    (forall pid : string,
        In pid pids <->
        items_of pid (JsMap.values (saleItems store_E)) <> [] /\
        JsMap.has pid (products store_E) = true) /\
    Z.of_nat (List.length (MemStorage.getTopProducts (Some 2) store_E)) <= 2
    /\
    priced (JsMap.values (saleItems store_E)) /\
    StronglySorted revenue_ge full /\
    StronglySorted revenue_ge (MemStorage.getTopProducts (Some 2) store_E).
Proof.
  split; [lia|].
  destruct (proj1 C9_getTopProducts_aggregates_sorts_truncates store_E 2
              ltac:(lia))
    as (full & pids & Htop & Hagg & Hnd & Hin & Hlen & Hsorted).
  exists full, pids.
  assert (Hp : priced (JsMap.values (saleItems store_E)))
    by (repeat constructor).
  split; [exact Htop|]. split; [exact Hagg|]. split; [exact Hnd|].
  split; [exact Hin|]. split; [exact Hlen|]. split; [exact Hp|].
  exact (Hsorted Hp).
Defined.

(** * More of the storage layer *)

(** ** Stock updates and the products they leave alone *)

Lemma same_listing_refl (p : Product.t) : same_listing p p.
Proof. unfold same_listing. now repeat split. Qed.

Lemma same_listing_trans (p q r : Product.t) :
  same_listing p q -> same_listing q r -> same_listing p r.
Proof.
  unfold same_listing. intros H1 H2.
  repeat match goal with H : _ /\ _ |- _ => destruct H end.
  repeat split; congruence.
Qed.

Lemma keys_set_present {V : Type} (k : string) (v : V) (m : JsMap.t V) :
  JsMap.has k m = true -> JsMap.keys (JsMap.set k v m) = JsMap.keys m.
Proof.
  unfold JsMap.has. induction m as [|[k' v'] m IH]; simpl; [discriminate|].
  destruct (String.eqb_spec k' k) as [->|Hne]; simpl; [reflexivity|].
  intros H. now rewrite IH.
Qed.

Lemma updateProductStock_product (id : string) (d : Z) (ty : string)
    (r uid : option string) (st : Store) (pid : string) (p : Product.t) :
  JsMap.get pid (products st) = Some p ->
  exists p' : Product.t,
    JsMap.get pid
      (products (snd (MemStorage.updateProductStock id d ty r uid st)))
      = Some p' /\
    Product.quantity p' =
      Product.quantity p + (if String.eqb id pid then d else 0) /\
    same_listing p p'.
Proof.
  intros Hp. destruct (JsMap.get id (products st)) as [q|] eqn:Hq.
  - destruct (updateProductStock_found id d ty r uid st q Hq)
      as (_ & Hps & _).
    rewrite Hps. destruct (String.eqb_spec id pid) as [->|Hne].
    + rewrite get_set_same. rewrite Hp in Hq. injection Hq as <-.
      eexists. split; [reflexivity|]. split; [reflexivity|].
      unfold same_listing. now repeat split.
    + rewrite get_set_other by exact Hne. exists p.
      split; [exact Hp|]. split; [lia | apply same_listing_refl].
  - rewrite updateProductStock_missing by exact Hq. simpl.
    destruct (String.eqb_spec id pid) as [->|Hne]; [congruence|].
    exists p. split; [exact Hp|]. split; [lia | apply same_listing_refl].
Qed.

(** X1: a stock update changes one product only, and of that product
    only the quantity and the time of the last update; the keys of the
    product map and every other map of the store stay as they were. *)
Theorem X1_updateProductStock_touches_one_product :
  forall (st : Store) (id : string) (d : Z) (ty : string)
         (r uid : option string),
    let st' := snd (MemStorage.updateProductStock id d ty r uid st) in
    (forall pid : string,
        pid <> id ->
        JsMap.get pid (products st') = JsMap.get pid (products st)) /\
    (forall p : Product.t,
        JsMap.get id (products st) = Some p ->
        exists p' : Product.t,
          JsMap.get id (products st') = Some p' /\ same_listing p p') /\
    JsMap.keys (products st') = JsMap.keys (products st) /\
    customers st' = customers st /\ sales st' = sales st /\
    saleItems st' = saleItems st /\ returns st' = returns st /\
    purchaseOrders st' = purchaseOrders st.
Proof.
  intros st id d ty r uid st'.
  destruct (updateProductStock_frame id d ty r uid st)
    as (_ & Hc & Hs & Hi & Hr & Hpo & _).
  fold st' in Hc, Hs, Hi, Hr, Hpo.
  split; [|split; [|split; [|now repeat split]]].
  - intros pid Hne. unfold st'.
    destruct (JsMap.get id (products st)) as [q|] eqn:Hq.
    + destruct (updateProductStock_found id d ty r uid st q Hq)
        as (_ & Hps & _).
      rewrite Hps. apply get_set_other. congruence.
    + now rewrite updateProductStock_missing.
  - intros p Hp.
    destruct (updateProductStock_product id d ty r uid st id p Hp)
      as (p' & Hget & _ & Hsame).
    now exists p'.
  - unfold st'. destruct (JsMap.get id (products st)) as [q|] eqn:Hq.
    + destruct (updateProductStock_found id d ty r uid st q Hq)
        as (_ & Hps & _).
      rewrite Hps. apply keys_set_present. unfold JsMap.has. now rewrite Hq.
    + now rewrite updateProductStock_missing.
Qed.

Lemma X1_updateProductStock_touches_one_product_witness :
  JsMap.get "P" (products store_P5) = Some (sample_product "P" 5 350 true) /\
  exists p' : Product.t,
    JsMap.get "P"
      (products
         (snd (MemStorage.updateProductStock "P" (-3) "sale" None
                 (Some "u1") store_P5)))
      = Some p' /\
    same_listing (sample_product "P" 5 350 true) p'.
Proof.
  split; [reflexivity|].
  exact (proj1 (proj2 (X1_updateProductStock_touches_one_product store_P5
                         "P" (-3) "sale" None (Some "u1")))
           _ eq_refl).
Defined.

(** ** What a sale does to the stock and to the log *)

Lemma createSale_line_product (sale : Sale.t) (it : InsertSaleItem.t)
    (st : Store) (pid : string) (p : Product.t) :
  JsMap.get pid (products st) = Some p ->
  exists p' : Product.t,
    JsMap.get pid (products (snd (MemStorage.createSale_line sale it st)))
      = Some p' /\
    Product.quantity p' =
      Product.quantity p
      - (if String.eqb (InsertSaleItem.productId it) pid
         then InsertSaleItem.quantity it else 0) /\
    same_listing p p'.
Proof.
  intros Hp. rewrite createSale_line_eq.
  match goal with
  | |- context [MemStorage.updateProductStock ?a ?b ?c ?d ?e ?s] =>
      destruct (updateProductStock_product a b c d e s pid p Hp)
        as (p' & Hget & Hq & Hsame)
  end.
  exists p'. split; [exact Hget|]. split; [|exact Hsame].
  rewrite Hq. simpl. destruct (String.eqb _ pid); lia.
Qed.

Lemma createSale_lines_product (sale : Sale.t)
    (lines : list InsertSaleItem.t) :
  forall (st : Store) (pid : string) (p : Product.t),
    JsMap.get pid (products st) = Some p ->
    exists p' : Product.t,
      JsMap.get pid
        (products (snd (for_of lines (MemStorage.createSale_line sale) st)))
        = Some p' /\
      Product.quantity p' = Product.quantity p - lines_quantity pid lines /\
      same_listing p p'.
Proof.
  induction lines as [|it lines IH]; intros st pid p Hp.
  - exists p. simpl. split; [exact Hp|]. split; [lia|apply same_listing_refl].
  - rewrite for_of_cons.
    destruct (createSale_line_product sale it st pid p Hp)
      as (p1 & Hg1 & Hq1 & Hs1).
    destruct (IH _ pid p1 Hg1) as (p2 & Hg2 & Hq2 & Hs2).
    exists p2. split; [exact Hg2|]. split.
    + rewrite Hq2, Hq1. simpl.
      destruct (String.eqb (InsertSaleItem.productId it) pid); lia.
    + eapply same_listing_trans; eassumption.
Qed.

Lemma createSale_product (ins : InsertSale.t) (lines : list InsertSaleItem.t)
    (st : Store) (pid : string) (p : Product.t) :
  JsMap.get pid (products st) = Some p ->
  exists p' : Product.t,
    JsMap.get pid (products (snd (MemStorage.createSale ins lines st)))
      = Some p' /\
    Product.quantity p' = Product.quantity p - lines_quantity pid lines /\
    same_listing p p'.
Proof.
  intros Hp. rewrite createSale_eq. cbv zeta. simpl snd.
  match goal with
  | |- context [for_of lines (MemStorage.createSale_line ?sa) ?s] =>
      destruct (createSale_lines_product sa lines s pid p Hp)
        as (p' & Hg & Hq & Hs);
      destruct (createSale_customer_frame sa
                  (snd (for_of lines (MemStorage.createSale_line sa) s)))
        as (Hpr & _)
  end.
  exists p'. rewrite Hpr. split; [exact Hg|]. split; [exact Hq | exact Hs].
Qed.

(** X2: a sale takes from every product of the store the total quantity
    of the lines that name it, whoever the acting user is and however
    little is in stock, and changes nothing else of the product. *)
Theorem X2_createSale_decrements_by_line_totals :
  forall (st : Store) (ins : InsertSale.t) (lines : list InsertSaleItem.t)
         (pid : string) (p : Product.t),
    JsMap.get pid (products st) = Some p ->
    exists p' : Product.t,
      JsMap.get pid (products (snd (MemStorage.createSale ins lines st)))
        = Some p' /\
      Product.quantity p' = Product.quantity p - lines_quantity pid lines /\
      same_listing p p'.
Proof. intros st ins lines pid p. apply createSale_product. Qed.

Lemma X2_createSale_decrements_by_line_totals_witness :
  JsMap.get "P" (products store_P5) = Some (sample_product "P" 5 350 true) /\
  exists p' : Product.t,
    JsMap.get "P"
      (products
         (snd (MemStorage.createSale (sample_sale None 35000)
                 [sample_line "P" 4 5000; sample_line "ghost" 1 5000;
                  sample_line "P" 2 5000] store_P5)))
      = Some p' /\
    Product.quantity p' =
      5 - lines_quantity "P"
            [sample_line "P" 4 5000; sample_line "ghost" 1 5000;
             sample_line "P" 2 5000] /\
    same_listing (sample_product "P" 5 350 true) p'.
Proof.
  split; [reflexivity|].
  exact (X2_createSale_decrements_by_line_totals store_P5
           (sample_sale None 35000)
           [sample_line "P" 4 5000; sample_line "ghost" 1 5000;
            sample_line "P" 2 5000] "P" _ eq_refl).
Defined.

(** X3: a return of the quantity that a one-line sale sold puts the
    product back at the quantity it had before the sale. *)
Theorem X3_return_restores_sold_stock :
  forall (st : Store) (ins : InsertSale.t) (line : InsertSaleItem.t)
         (ret : InsertReturn.t) (p : Product.t),
    JsMap.get (InsertSaleItem.productId line) (products st) = Some p ->
    InsertReturn.productId ret = InsertSaleItem.productId line ->
    InsertReturn.quantity ret = InsertSaleItem.quantity line ->
    let st1 := snd (MemStorage.createSale ins [line] st) in
    let st2 := snd (MemStorage.createReturn ret st1) in
    exists p' : Product.t,
      JsMap.get (InsertSaleItem.productId line) (products st2) = Some p' /\
      Product.quantity p' = Product.quantity p /\
      same_listing p p'.
Proof.
  intros st ins line ret p Hp Hpid Hq st1 st2.
  destruct (createSale_product ins [line] st _ p Hp) as (p1 & Hg1 & Hq1 & Hs1).
  fold st1 in Hg1. unfold st2. rewrite createReturn_eq. cbv zeta. simpl snd.
  match goal with
  | |- context [MemStorage.updateProductStock ?a ?b ?c ?d ?e ?s] =>
      destruct (updateProductStock_product a b c d e s
                  (InsertSaleItem.productId line) p1 Hg1)
        as (p2 & Hg2 & Hq2 & Hs2)
  end.
  exists p2. split; [exact Hg2|]. split.
  - rewrite Hq2, Hq1, Hpid, Hq. simpl. rewrite !String.eqb_refl. lia.
  - eapply same_listing_trans; eassumption.
Qed.

Lemma X3_return_restores_sold_stock_witness :
  let st1 :=
    snd (MemStorage.createSale (sample_sale None 15000)
           [sample_line "P" 3 5000] store_P5) in
  let st2 := snd (MemStorage.createReturn (sample_return "P" 3) st1) in
  exists p' : Product.t,
    JsMap.get "P" (products st2) = Some p' /\
    Product.quantity p' = 5 /\
    same_listing (sample_product "P" 5 350 true) p'.
Proof.
  exact (X3_return_restores_sold_stock store_P5 (sample_sale None 15000)
           (sample_line "P" 3 5000) (sample_return "P" 3) _
           eq_refl eq_refl eq_refl).
Defined.

Lemma createSale_line_log (sale : Sale.t) (it : InsertSaleItem.t)
    (st : Store) :
  fresh_ids st ->
  Sale.userId sale <> "" ->
  exists recorded : list StockMovement.t,
    JsMap.values
      (stockMovements (snd (MemStorage.createSale_line sale it st)))
      = JsMap.values (stockMovements st) ++ recorded /\
    Forall2 (sale_movement sale)
      (filter (fun l => JsMap.has (InsertSaleItem.productId l) (products st))
              [it])
      recorded.
Proof.
  intros Hf Hu. rewrite createSale_line_eq.
  assert (Ht : truthy (Some (Sale.userId sale)) = true)
    by (simpl; apply String.eqb_neq in Hu; now rewrite Hu).
  match goal with
  | |- context [MemStorage.updateProductStock ?a ?b ?c ?d ?e ?s] =>
      set (st1 := s)
  end.
  simpl filter. unfold JsMap.has.
  destruct (JsMap.get (InsertSaleItem.productId it) (products st))
    as [q|] eqn:Hq.
  - assert (Hq1 : JsMap.get (InsertSaleItem.productId it) (products st1)
                  = Some q) by exact Hq.
    match goal with
    | |- context [MemStorage.updateProductStock ?a ?b ?c ?d ?e st1] =>
        destruct (updateProductStock_found a b c d e st1 q Hq1)
          as (_ & _ & Hm & _)
    end.
    rewrite Hm, Ht. eexists. split.
    + apply values_set_fresh. apply fresh_from_now.
      unfold st1. simpl. apply fresh_from_S, Hf.
    + constructor; [|constructor]. unfold sale_movement. now repeat split.
  - rewrite updateProductStock_missing by exact Hq.
    exists []. split; [now rewrite app_nil_r | constructor].
Qed.

Lemma createSale_lines_log (sale : Sale.t) (lines : list InsertSaleItem.t) :
  forall st : Store,
    fresh_ids st ->
    Sale.userId sale <> "" ->
    exists recorded : list StockMovement.t,
      JsMap.values
        (stockMovements
           (snd (for_of lines (MemStorage.createSale_line sale) st)))
        = JsMap.values (stockMovements st) ++ recorded /\
      Forall2 (sale_movement sale)
        (filter (fun l => JsMap.has (InsertSaleItem.productId l)
                            (products st))
                lines)
        recorded.
Proof.
  induction lines as [|it lines IH]; intros st Hf Hu.
  - exists []. split; [now rewrite app_nil_r | constructor].
  - rewrite for_of_cons.
    destruct (createSale_line_log sale it st Hf Hu) as (r1 & Hv1 & Hr1).
    destruct (createSale_line_spec sale it st Hf) as ((Hf1 & Hd & _) & _).
    destruct (IH _ Hf1 Hu) as (r2 & Hv2 & Hr2).
    exists (r1 ++ r2). split.
    + now rewrite Hv2, Hv1, app_assoc.
    + change (it :: lines) with ([it] ++ lines). rewrite filter_app.
      apply Forall2_app; [exact Hr1|].
      erewrite filter_ext; [exact Hr2|]. intros l. simpl. now rewrite Hd.
Qed.

(** X4: a sale by a known user appends to the movement log one row for
    each line whose product is in the store, in the order of the lines:
    type "sale", delta minus the line quantity, reason "Sale" and the
    invoice number, no reference; lines of missing products leave no
    row. *)
Theorem X4_createSale_logs_one_movement_per_stocked_line :
  forall (st : Store) (ins : InsertSale.t) (lines : list InsertSaleItem.t),
    fresh_ids st ->
    InsertSale.userId ins <> "" ->
    let res := MemStorage.createSale ins lines st in
    exists recorded : list StockMovement.t,
      JsMap.values (stockMovements (snd res))
        = JsMap.values (stockMovements st) ++ recorded /\
      Forall2 (sale_movement (fst res))
        (filter (fun l => JsMap.has (InsertSaleItem.productId l)
                            (products st))
                lines)
        recorded.
Proof.
  intros st ins lines Hf Hu res. unfold res. rewrite createSale_eq.
  cbv zeta. simpl fst. simpl snd.
  set (sale := Sale.of_insert ins (uuid_of (uuids st)) (Some (clock st))).
  match goal with
  | |- context [for_of lines _ ?s] => set (st0 := s)
  end.
  assert (Hf0 : fresh_ids st0).
  { destruct Hf as (H1 & H2 & H3 & H4).
    unfold fresh_ids, st0; simpl; repeat split;
      first [ now apply fresh_from_set | now apply fresh_from_S ]. }
  destruct (createSale_lines_log sale lines st0 Hf0 Hu) as (rec & Hv & Hr).
  destruct (createSale_customer_frame sale
              (snd (for_of lines (MemStorage.createSale_line sale) st0)))
    as (_ & _ & _ & Hm & _).
  exists rec. rewrite Hm. split; [exact Hv | exact Hr].
Qed.

Lemma X4_createSale_logs_one_movement_per_stocked_line_witness :
  let lines := [sample_line "P" 1 5000; sample_line "ghost" 1 5000;
                sample_line "P" 2 5000] in
  let res := MemStorage.createSale (sample_sale None 20000) lines store_P5 in
  exists recorded : list StockMovement.t,
    JsMap.values (stockMovements (snd res))
      = JsMap.values (stockMovements store_P5) ++ recorded /\
    Forall2 (sale_movement (fst res))
      (filter (fun l => JsMap.has (InsertSaleItem.productId l)
                          (products store_P5))
              lines)
      recorded.
Proof.
  refine (X4_createSale_logs_one_movement_per_stocked_line store_P5
            (sample_sale None 20000) _ (fresh_ids_store_of_products _) _).
  discriminate.
Defined.

(** X5: a sale that names a customer who is not in the store is persisted
    all the same, with the dangling customer id on the header, and changes
    no customer. *)
Theorem X5_createSale_with_unknown_customer :
  forall (st : Store) (ins : InsertSale.t) (lines : list InsertSaleItem.t)
         (cid : string),
    InsertSale.customerId ins = Some cid ->
    JsMap.get cid (customers st) = None ->
    let res := MemStorage.createSale ins lines st in
    customers (snd res) = customers st /\
    JsMap.get (Sale.id (fst res)) (sales (snd res)) = Some (fst res) /\
    Sale.customerId (fst res) = Some cid.
Proof.
  intros st ins lines cid Hcid Hnone res. unfold res. rewrite createSale_eq.
  cbv zeta. simpl fst. simpl snd.
  set (sale := Sale.of_insert ins (uuid_of (uuids st)) (Some (clock st))).
  match goal with
  | |- context [for_of lines _ ?s] => set (st0 := s)
  end.
  destruct (createSale_lines_frame sale lines st0) as (Hc & Hs).
  set (st1 := snd (for_of lines (MemStorage.createSale_line sale) st0)) in *.
  destruct (createSale_customer_frame sale st1) as (_ & Hs2 & _).
  split; [|split].
  - unfold MemStorage.createSale_customer.
    change (Sale.customerId sale) with (InsertSale.customerId ins).
    rewrite Hcid. destruct (truthy (Some cid)); [|exact Hc].
    run_store. rewrite Hc. change (customers st0) with (customers st).
    rewrite Hnone. exact Hc.
  - rewrite Hs2, Hs. unfold st0. simpl. apply get_set_same.
  - exact Hcid.
Qed.

Lemma X5_createSale_with_unknown_customer_witness :
  let res :=
    MemStorage.createSale (sample_sale (Some "nobody") 5000)
      [sample_line "P" 1 5000] store_customer in
  customers (snd res) = customers store_customer /\
  JsMap.get (Sale.id (fst res)) (sales (snd res)) = Some (fst res) /\
  Sale.customerId (fst res) = Some "nobody".
Proof.
  exact (X5_createSale_with_unknown_customer store_customer
           (sample_sale (Some "nobody") 5000) [sample_line "P" 1 5000]
           "nobody" eq_refl eq_refl).
Defined.

(** ** Reading a sale back *)

Lemma filter_none_of {A : Type} (f : A -> bool) (l : list A) :
  Forall (fun x => f x = false) l -> filter f l = [].
Proof.
  induction 1 as [|x l Hx _ IH]; simpl; [reflexivity|]. now rewrite Hx.
Qed.

Lemma filter_all_of {A : Type} (f : A -> bool) (l : list A) :
  Forall (fun x => f x = true) l -> filter f l = l.
Proof.
  induction 1 as [|x l Hx _ IH]; simpl; [reflexivity|]. now rewrite Hx, IH.
Qed.

Lemma line_stored_saleId (sale : Sale.t) (lines : list InsertSaleItem.t)
    (built : list SaleItem.t) :
  Forall2 (line_stored sale) lines built ->
  Forall (fun it => String.eqb (SaleItem.saleId it) (Sale.id sale) = true)
         built.
Proof.
  induction 1 as [|l b ls bs Hlb _ IH]; constructor; [|exact IH].
  destruct Hlb as (Hid & _). rewrite Hid. apply String.eqb_refl.
Qed.

(** X6: a sale that was just created reads back through [getSale] under
    the id that [createSale] returned: the header is the one returned and
    the items are its lines, in order. *)
Theorem X6_getSale_reads_back_created_sale :
  forall (st : Store) (ins : InsertSale.t) (lines : list InsertSaleItem.t),
    fresh_ids st ->
    Forall (fun it => SaleItem.saleId it <> uuid_of (uuids st))
           (JsMap.values (saleItems st)) ->
    let res := MemStorage.createSale ins lines st in
    exists d : SaleWithDetails.t,
      MemStorageCrud.getSale (Sale.id (fst res)) (snd res) = Some d /\
      SaleWithDetails.sale d = fst res /\
      Forall2 (line_stored (fst res)) lines
        (map fst (SaleWithDetails.items d)).
Proof.
  intros st ins lines Hf Hold res.
  pose proof (createSale_eq ins lines st) as Heq. cbv zeta in Heq.
  fold res in Heq.
  set (sale := Sale.of_insert ins (uuid_of (uuids st)) (Some (clock st)))
    in *.
  match type of Heq with
  | context [for_of lines _ ?s] => set (st0 := s) in *
  end.
  assert (Hf0 : fresh_ids st0).
  { destruct Hf as (H1 & H2 & H3 & H4).
    unfold fresh_ids, st0; simpl; repeat split;
      first [ now apply fresh_from_set | now apply fresh_from_S ]. }
  destruct (createSale_lines_spec sale lines st0 Hf0)
    as (_ & Hsa & _ & built & Hv & Hl).
  set (st1 := snd (for_of lines (MemStorage.createSale_line sale) st0)) in *.
  destruct (createSale_customer_frame sale st1) as (_ & Hs2 & Hi2 & _).
  rewrite Heq. simpl fst. simpl snd. unfold MemStorageCrud.getSale.
  rewrite Hs2, Hsa. unfold st0 at 1. simpl sales. simpl Sale.id.
  rewrite get_set_same. eexists. split; [reflexivity|]. simpl.
  split; [reflexivity|].
  rewrite map_map. simpl. rewrite map_id, Hi2, Hv. simpl saleItems.
  rewrite filter_app, filter_none_of, (filter_all_of _ built).
  - exact Hl.
  - exact (line_stored_saleId sale lines built Hl).
  - eapply Forall_impl; [|exact Hold]. intros it Hne.
    now apply String.eqb_neq.
Qed.

Lemma X6_getSale_reads_back_created_sale_witness :
  let lines := [sample_line "P" 1 5000; sample_line "ghost" 2 5000] in
  let res := MemStorage.createSale (sample_sale None 15000) lines store_P5 in
  exists d : SaleWithDetails.t,
    MemStorageCrud.getSale (Sale.id (fst res)) (snd res) = Some d /\
    SaleWithDetails.sale d = fst res /\
    Forall2 (line_stored (fst res)) lines
      (map fst (SaleWithDetails.items d)).
Proof.
  refine (X6_getSale_reads_back_created_sale store_P5
            (sample_sale None 15000) _ (fresh_ids_store_of_products _) _).
  constructor.
Defined.

(** ** What a receipt does to stock and cost *)

Lemma receivePurchaseOrder_item_product (order : PurchaseOrder.t)
    (uid : string) (it : PurchaseOrderItem.t) (st : Store) (pid : string)
    (p : Product.t) :
  JsMap.get pid (products st) = Some p ->
  exists p' : Product.t,
    JsMap.get pid
      (products (snd (MemStorage.receivePurchaseOrder_item order uid it st)))
      = Some p' /\
    Product.quantity p' =
      Product.quantity p
      + (if String.eqb (PurchaseOrderItem.productId it) pid
         then PurchaseOrderItem.quantity it else 0) /\
    Product.costPrice p' =
      (if String.eqb (PurchaseOrderItem.productId it) pid
       then PurchaseOrderItem.unitCost it else Product.costPrice p).
Proof.
  intros Hp. rewrite receivePurchaseOrder_item_eq. cbv zeta.
  match goal with
  | |- context [MemStorage.updateProductStock ?a ?b ?c ?d ?e ?s] =>
      destruct (updateProductStock_product a b c d e s pid p Hp)
        as (p1 & Hg1 & Hq1 & Hs1);
      set (st1 := snd (MemStorage.updateProductStock a b c d e s)) in *
  end.
  assert (Hcost : Product.costPrice p1 = Product.costPrice p)
    by apply Hs1.
  destruct (String.eqb_spec (PurchaseOrderItem.productId it) pid)
    as [E|Hne].
  - rewrite E, Hg1. simpl. rewrite get_set_same.
    eexists. split; [reflexivity|]. simpl. now split.
  - destruct (JsMap.get (PurchaseOrderItem.productId it) (products st1));
      simpl.
    + rewrite get_set_other by exact Hne. exists p1. now repeat split.
    + exists p1. now repeat split.
Qed.

Lemma receivePurchaseOrder_items_product (order : PurchaseOrder.t)
    (uid : string) (items : list PurchaseOrderItem.t) :
  forall (st : Store) (pid : string) (p : Product.t),
    JsMap.get pid (products st) = Some p ->
    exists p' : Product.t,
      JsMap.get pid
        (products
           (snd (for_of items
                   (MemStorage.receivePurchaseOrder_item order uid) st)))
        = Some p' /\
      Product.quantity p' = Product.quantity p + items_quantity pid items /\
      Product.costPrice p' = last_unit_cost pid items (Product.costPrice p).
Proof.
  induction items as [|it items IH]; intros st pid p Hp.
  - exists p. simpl. split; [exact Hp|]. split; [lia|reflexivity].
  - rewrite for_of_cons.
    destruct (receivePurchaseOrder_item_product order uid it st pid p Hp)
      as (p1 & Hg1 & Hq1 & Hc1).
    destruct (IH _ pid p1 Hg1) as (p2 & Hg2 & Hq2 & Hc2).
    exists p2. split; [exact Hg2|]. split.
    + rewrite Hq2, Hq1. simpl.
      destruct (String.eqb (PurchaseOrderItem.productId it) pid); lia.
    + rewrite Hc2, Hc1. simpl.
      now destruct (String.eqb (PurchaseOrderItem.productId it) pid).
Qed.

(** X7: receiving an order that is not yet received adds to every product
    of the store the total quantity of the order's lines for it, and sets
    its cost price to the unit cost of the last such line (the cost of a
    product with no line stays). *)
Theorem X7_receivePurchaseOrder_adds_lines_and_keeps_last_cost :
  forall (st : Store) (id uid pid : string) (o : PurchaseOrder.t)
         (p : Product.t),
    JsMap.get id (purchaseOrders st) = Some o ->
    PurchaseOrder.status o <> "received" ->
    JsMap.get pid (products st) = Some p ->
    let res := MemStorage.receivePurchaseOrder id uid st in
    fst res = true /\
    exists p' : Product.t,
      JsMap.get pid (products (snd res)) = Some p' /\
      Product.quantity p' =
        Product.quantity p + items_quantity pid (order_items id st) /\
      Product.costPrice p' =
        last_unit_cost pid (order_items id st) (Product.costPrice p).
Proof.
  intros st id uid pid o p Ho Hs Hp res. unfold res.
  rewrite (receivePurchaseOrder_accepted id uid st o Ho Hs).
  split; [reflexivity|]. simpl snd.
  match goal with
  | |- context [for_of ?l ?f ?s] =>
      exact (receivePurchaseOrder_items_product o uid l s pid p Hp)
  end.
Qed.

Lemma X7_receivePurchaseOrder_adds_lines_and_keeps_last_cost_witness :
  let res := MemStorage.receivePurchaseOrder "O" "u1" store_order_two_lines in
  fst res = true /\
  exists p' : Product.t,
    JsMap.get "P" (products (snd res)) = Some p' /\
    Product.quantity p' =
      2 + items_quantity "P" (order_items "O" store_order_two_lines) /\
    Product.costPrice p' =
      last_unit_cost "P" (order_items "O" store_order_two_lines) 350.
Proof.
  refine (X7_receivePurchaseOrder_adds_lines_and_keeps_last_cost
            store_order_two_lines "O" "u1" "P" _ _ eq_refl _ eq_refl).
  discriminate.
Defined.

Lemma receivePurchaseOrder_items_of_ghosts (order : PurchaseOrder.t)
    (uid : string) (items : list PurchaseOrderItem.t) (st : Store) :
  Forall (fun it =>
            JsMap.get (PurchaseOrderItem.productId it) (products st) = None)
         items ->
  snd (for_of items (MemStorage.receivePurchaseOrder_item order uid) st) = st.
Proof.
  induction 1 as [|it items Hit _ IH]; [reflexivity|].
  rewrite for_of_cons, receivePurchaseOrder_item_eq. cbv zeta.
  rewrite updateProductStock_missing by exact Hit. simpl snd.
  rewrite Hit. exact IH.
Qed.

(** X8: an order none of whose products is in the store is consumed by
    its receipt without any restocking: the call returns true, the order
    becomes "received", no product and no movement changes, and the order
    cannot be received again. *)
Theorem X8_receipt_of_missing_products_consumes_the_order :
  forall (st : Store) (id uid : string) (o : PurchaseOrder.t),
    JsMap.get id (purchaseOrders st) = Some o ->
    PurchaseOrder.status o <> "received" ->
    Forall (fun it =>
              JsMap.get (PurchaseOrderItem.productId it) (products st) = None)
           (order_items id st) ->
    let res := MemStorage.receivePurchaseOrder id uid st in
    fst res = true /\
    products (snd res) = products st /\
    stockMovements (snd res) = stockMovements st /\
    option_map PurchaseOrder.status (JsMap.get id (purchaseOrders (snd res)))
      = Some "received" /\
    MemStorage.receivePurchaseOrder id uid (snd res) = (false, snd res).
Proof.
  intros st id uid o Ho Hs Hghost res.
  assert (Hok : fst res = true)
    by (unfold res; now rewrite (receivePurchaseOrder_accepted id uid st o)).
  split; [exact Hok|].
  split; [|split; [|split; [|exact (receivePurchaseOrder_twice id uid uid st
                                      Hok)]]];
    unfold res; rewrite (receivePurchaseOrder_accepted id uid st o Ho Hs);
    simpl snd; fold (order_items id st);
    rewrite receivePurchaseOrder_items_of_ghosts by exact Hghost;
    simpl; try reflexivity.
  now rewrite get_set_same.
Qed.

Lemma X8_receipt_of_missing_products_consumes_the_order_witness :
  let res := MemStorage.receivePurchaseOrder "O" "u1" store_order_of_ghost in
  fst res = true /\
  products (snd res) = products store_order_of_ghost /\
  stockMovements (snd res) = stockMovements store_order_of_ghost /\
  option_map PurchaseOrder.status (JsMap.get "O" (purchaseOrders (snd res)))
    = Some "received" /\
  MemStorage.receivePurchaseOrder "O" "u1" (snd res) = (false, snd res).
Proof.
  refine (X8_receipt_of_missing_products_consumes_the_order
            store_order_of_ghost "O" "u1" _ eq_refl _ _).
  - discriminate.
  - repeat constructor.
Defined.

(** ** Catalog maintenance next to the ledger *)

Lemma get_map_delete_same {V : Type} (k : string) (m : JsMap.t V) :
  JsMap.get k (map_delete k m) = None.
Proof.
  unfold map_delete. induction m as [|[k' v] m IH]; simpl; [reflexivity|].
  destruct (String.eqb k' k) eqn:E; simpl; [exact IH|]. now rewrite E.
Qed.

Lemma get_map_delete_other {V : Type} (k k' : string) (m : JsMap.t V) :
  k <> k' -> JsMap.get k' (map_delete k m) = JsMap.get k' m.
Proof.
  intros Hne. unfold map_delete.
  induction m as [|[k0 v] m IH]; simpl; [reflexivity|].
  destruct (String.eqb_spec k0 k) as [->|Hne0]; simpl.
  - apply String.eqb_neq in Hne. now rewrite Hne.
  - now rewrite IH.
Qed.

Lemma map_delete_absent {V : Type} (k : string) (m : JsMap.t V) :
  JsMap.get k m = None -> map_delete k m = m.
Proof.
  unfold map_delete. induction m as [|[k' v] m IH]; simpl; [reflexivity|].
  destruct (String.eqb k' k); simpl; [discriminate|].
  intros H. now rewrite IH.
Qed.

(** X9: [updateProduct] on a product of the store stores and returns the
    merged product, keeps its id and creation time, stamps [updatedAt],
    and takes a new quantity from the request as it is, with no stock
    movement written; an id that is not in the store gives no product
    and changes nothing. *)
Theorem X9_updateProduct_sets_quantity_without_movement :
  forall (st : Store) (id : string) (data : PartialProduct.t),
    let res := MemStorageCrud.updateProduct id data st in
    match JsMap.get id (products st) with
    | None => res = (None, st)
    | Some p =>
        exists p' : Product.t,
          fst res = Some p' /\
          JsMap.get id (products (snd res)) = Some p' /\
          Product.id p' = Product.id p /\
          Product.createdAt p' = Product.createdAt p /\
          Product.updatedAt p' = Some (clock st) /\
          Product.quantity p' =
            match PartialProduct.quantity data with
            | Some q => q
            | None => Product.quantity p
            end /\
          stockMovements (snd res) = stockMovements st /\
          (forall pid : string,
              pid <> id ->
              JsMap.get pid (products (snd res))
                = JsMap.get pid (products st))
    end.
Proof.
  intros st id data res. unfold res, MemStorageCrud.updateProduct.
  run_store. destruct (JsMap.get id (products st)) as [p|] eqn:Hp;
    [|reflexivity].
  simpl. eexists. split; [reflexivity|]. rewrite get_set_same.
  repeat split.
  intros pid Hne. apply get_set_other. congruence.
Qed.

(** X10: [deleteProduct] reports whether the product was there and removes
    it alone; the sale items and stock movements that name it stay, a
    later stock update of it is refused, and a second delete finds
    nothing. *)
Theorem X10_deleteProduct_removes_only_the_product :
  forall (st : Store) (id : string),
    let res := MemStorageCrud.deleteProduct id st in
    fst res = JsMap.has id (products st) /\
    JsMap.get id (products (snd res)) = None /\
    (forall pid : string,
        pid <> id ->
        JsMap.get pid (products (snd res)) = JsMap.get pid (products st)) /\
    saleItems (snd res) = saleItems st /\
    stockMovements (snd res) = stockMovements st /\
    (forall (d : Z) (ty : string) (r uid : option string),
        MemStorage.updateProductStock id d ty r uid (snd res)
          = (false, snd res)) /\
    MemStorageCrud.deleteProduct id (snd res) = (false, snd res).
Proof.
  intros st id res. unfold res, MemStorageCrud.deleteProduct. run_store.
  assert (Hgone : JsMap.get id (map_delete id (products st)) = None)
    by apply get_map_delete_same.
  split; [reflexivity|]. split; [exact Hgone|].
  split; [intros pid Hne; apply get_map_delete_other; congruence|].
  split; [reflexivity|]. split; [reflexivity|]. split.
  - intros d ty r uid. now apply updateProductStock_missing.
  - unfold JsMap.has, with_products. simpl. rewrite Hgone.
    now rewrite (map_delete_absent id _ Hgone).
Qed.

(** ** Low stock *)

Lemma get_In_values {V : Type} (k : string) (v : V) (m : JsMap.t V) :
  JsMap.get k m = Some v -> In v (JsMap.values m).
Proof.
  induction m as [|[k' v'] m IH]; simpl; [discriminate|].
  destruct (String.eqb k' k).
  - intros H. injection H as ->. now left.
  - intros H. right. now apply IH.
Qed.

Lemma getLowStockProducts_base (cat : Catalog) (st : Store) :
  map ProductWithDetails.base (MemStorageCrud.getLowStockProducts cat st) =
  filter (fun p => Product.trackStock p
                   && (Product.quantity p <=? Product.minStockLevel p))
         (JsMap.values (products st)).
Proof.
  unfold MemStorageCrud.getLowStockProducts, MemStorageCrud.getAllProducts.
  induction (JsMap.values (products st)) as [|p l IH]; [reflexivity|].
  simpl.
  destruct (Product.trackStock p
            && (Product.quantity p <=? Product.minStockLevel p));
    simpl; now rewrite IH.
Qed.

(** X11: after a stock update of a tracked product, the product as now
    stored is on the low-stock list exactly when its new quantity is at or
    below its minimum stock level. *)
Theorem X11_low_stock_list_follows_stock_updates :
  forall (cat : Catalog) (st : Store) (id : string) (d : Z) (ty : string)
         (r uid : option string) (p : Product.t),
    JsMap.get id (products st) = Some p ->
    Product.trackStock p = true ->
    let st' := snd (MemStorage.updateProductStock id d ty r uid st) in
    exists p' : Product.t,
      JsMap.get id (products st') = Some p' /\
      Product.quantity p' = Product.quantity p + d /\
      ((exists e : ProductWithDetails.t,
           In e (MemStorageCrud.getLowStockProducts cat st') /\
           ProductWithDetails.base e = p')
       <-> Product.quantity p + d <= Product.minStockLevel p).
Proof.
  intros cat st id d ty r uid p Hp Htrack st'.
  destruct (updateProductStock_product id d ty r uid st id p Hp)
    as (p' & Hget & Hq & Hsame).
  fold st' in Hget. rewrite String.eqb_refl in Hq.
  exists p'. split; [exact Hget|]. split; [exact Hq|].
  assert (Hmin : Product.minStockLevel p' = Product.minStockLevel p)
    by apply Hsame.
  assert (Htr : Product.trackStock p' = true)
    by (destruct Hsame as (_&_&_&_&_&_&_&_&_&_&Ht&_); now rewrite Ht).
  assert (Hin : (exists e, In e (MemStorageCrud.getLowStockProducts cat st')
                           /\ ProductWithDetails.base e = p')
                <-> In p' (map ProductWithDetails.base
                             (MemStorageCrud.getLowStockProducts cat st'))).
  { rewrite in_map_iff. split; intros (e & H1 & H2); exists e; now split. }
  rewrite Hin, getLowStockProducts_base, filter_In, Htr, Hmin, Hq. simpl.
  rewrite Z.leb_le. split; [now intros (_ & H) | intros H; split; [|exact H]].
  now apply (get_In_values id).
Qed.

Lemma X11_low_stock_list_follows_stock_updates_witness :
  let st' :=
    snd (MemStorage.updateProductStock "P" (-3) "sale" None (Some "u1")
           store_P5) in
  exists p' : Product.t,
    JsMap.get "P" (products st') = Some p' /\
    Product.quantity p' = 5 + -3 /\
    ((exists e : ProductWithDetails.t,
         In e (MemStorageCrud.getLowStockProducts no_catalog st') /\
         ProductWithDetails.base e = p')
     <-> 5 + -3 <= 10).
Proof.
  exact (X11_low_stock_list_follows_stock_updates no_catalog store_P5 "P"
           (-3) "sale" None (Some "u1") _ eq_refl eq_refl).
Defined.

(** X12: on the same products, the low-stock list of the in-memory store
    is the low-stock list of the relational store restricted to tracked
    products: the relational query has no [trackStock] condition and also
    lists untracked products at or below their minimum. *)
Theorem X12_low_stock_lists_differ_by_untracked_products :
  forall (cat : Catalog) (st : Store),
    map ProductWithDetails.base (MemStorageCrud.getLowStockProducts cat st) =
    filter Product.trackStock
      (map ProductWithNames.base
         (DatabaseStorageCrud.getLowStockProducts cat st)).
Proof.
  intros cat st. rewrite getLowStockProducts_base.
  unfold DatabaseStorageCrud.getLowStockProducts.
  rewrite map_map. simpl. rewrite map_id.
  induction (JsMap.values (products st)) as [|p l IH]; [reflexivity|].
  simpl. destruct (Product.quantity p <=? Product.minStockLevel p); simpl;
    destruct (Product.trackStock p); simpl; now rewrite IH.
Qed.

(** ** Movements written directly *)

(** X13: [createStockMovement] appends the movement it returns, for any
    product id, known or not, and changes no product; the movement then
    closes the list that [getStockMovements] gives for its product. *)
Theorem X13_createStockMovement_appends_and_moves_no_stock :
  forall (st : Store) (mv : InsertStockMovement.t),
    fresh_ids st ->
    InsertStockMovement.productId mv <> "" ->
    let res := MemStorageCrud.createStockMovement mv st in
    products (snd res) = products st /\
    StockMovement.quantity (fst res) = InsertStockMovement.quantity mv /\
    StockMovement.productId (fst res) = InsertStockMovement.productId mv /\
    MemStorageCrud.getStockMovements None (snd res)
      = MemStorageCrud.getStockMovements None st ++ [fst res] /\
    MemStorageCrud.getStockMovements
      (Some (InsertStockMovement.productId mv)) (snd res)
      = MemStorageCrud.getStockMovements
          (Some (InsertStockMovement.productId mv)) st ++ [fst res].
Proof.
  intros st mv Hf Hne res. unfold res, MemStorageCrud.createStockMovement.
  run_store. unfold MemStorageCrud.getStockMovements. simpl.
  apply String.eqb_neq in Hne. rewrite Hne. simpl.
  rewrite values_set_fresh by (apply fresh_from_now, Hf).
  repeat split. rewrite filter_app. simpl. now rewrite String.eqb_refl.
Qed.

Lemma X13_createStockMovement_appends_and_moves_no_stock_witness :
  let mv :=
    InsertStockMovement.mk "ghost" "transfer" 7 None (Some "T-1") "u1" in
  let res := MemStorageCrud.createStockMovement mv store_P5 in
  products (snd res) = products store_P5 /\
  StockMovement.quantity (fst res) = 7 /\
  StockMovement.productId (fst res) = "ghost" /\
  MemStorageCrud.getStockMovements None (snd res)
    = MemStorageCrud.getStockMovements None store_P5 ++ [fst res] /\
  MemStorageCrud.getStockMovements (Some "ghost") (snd res)
    = MemStorageCrud.getStockMovements (Some "ghost") store_P5 ++ [fst res].
Proof.
  refine (X13_createStockMovement_appends_and_moves_no_stock store_P5
            (InsertStockMovement.mk "ghost" "transfer" 7 None (Some "T-1")
               "u1")
            (fresh_ids_store_of_products _) _).
  discriminate.
Defined.

(** ** The relational store: partial writes and missing rows *)

Lemma update_where_id_absent {V : Type} (k : string) (f : V -> V)
    (m : JsMap.t V) :
  JsMap.get k m = None -> Table.update_where_id k f m = m.
Proof.
  induction m as [|[k' v] m IH]; simpl; [reflexivity|].
  destruct (String.eqb k' k); [discriminate|]. intros H. now rewrite IH.
Qed.












(** X16: [createReturn] of the relational store never touches a product
    or the movement log: with the sale, the product and the user in place
    it inserts the return and nothing else; with one of them missing it
    throws and stores nothing. *)
Theorem X16_database_createReturn_never_restocks :
  forall (st : Store) (ins : InsertReturn.t),
    let res := DatabaseStorageCrud.createReturn ins st in
    products (snd res) = products st /\
    stockMovements (snd res) = stockMovements st /\
    (if JsMap.has (InsertReturn.saleId ins) (sales st)
        && JsMap.has (InsertReturn.productId ins) (products st)
        && JsMap.has (InsertReturn.userId ins) (users st)
     then
       exists r : Return.t,
         fst res = Ok r /\
         JsMap.get (Return.id r) (returns (snd res)) = Some r /\
         Return.quantity r = InsertReturn.quantity ins
     else
       (exists e : DbError, fst res = Throw e) /\ snd res = st).
Proof.
  intros st ins res.
  unfold res, DatabaseStorageCrud.createReturn,
    DatabaseStorageCrud.insert_returns, Table.references, throw, lift.
  destruct (JsMap.has (InsertReturn.saleId ins) (sales st)); simpl;
    [|split; [reflexivity|split; [reflexivity|split; [eexists|]]];
      reflexivity].
  destruct (JsMap.has (InsertReturn.productId ins) (products st)); simpl;
    [|split; [reflexivity|split; [reflexivity|split; [eexists|]]];
      reflexivity].
  destruct (JsMap.has (InsertReturn.userId ins) (users st)); simpl;
    [|split; [reflexivity|split; [reflexivity|split; [eexists|]]];
      reflexivity].
  split; [reflexivity|]. split; [reflexivity|].
  eexists. split; [reflexivity|]. simpl. now rewrite get_set_same.
Qed.

(** X17: for a product that is not in the table, [updateProductStock] of
    the relational store changes nothing; it answers false when an acting
    user is given (the movement insert violates the foreign key, and the
    exception is caught) and true when none is. *)
Theorem X17_database_updateProductStock_of_missing_product :
  forall (st : Store) (id : string) (quantity : Z) (ty : string)
         (reason uid : option string),
    JsMap.get id (products st) = None ->
    DatabaseStorage.updateProductStock id quantity ty reason uid st
      = (Ok (negb (truthy uid)), st).
Proof.
  intros st id quantity ty reason uid Hnone.
  unfold DatabaseStorage.updateProductStock, try_catch, db_bind, db_ret,
    DatabaseStorage.update_products_quantity, lift.
  run_store. rewrite (update_where_id_absent id _ _ Hnone).
  assert (Hst : with_products (products st) st = st) by now destruct st.
  rewrite Hst. destruct (truthy uid); [|reflexivity].
  unfold DatabaseStorage.insert_stockMovements, Table.references, throw.
  unfold JsMap.has. now rewrite Hnone.
Qed.

Lemma X17_database_updateProductStock_of_missing_product_witness :
  JsMap.get "ghost" (products store_P5) = None /\
  DatabaseStorage.updateProductStock "ghost" 3 "adjustment" None (Some "u1")
    store_P5 = (Ok false, store_P5) /\
  DatabaseStorage.updateProductStock "ghost" 3 "adjustment" None None
    store_P5 = (Ok true, store_P5).
Proof.
  split; [reflexivity|]. split.
  - exact (X17_database_updateProductStock_of_missing_product store_P5
             "ghost" 3 "adjustment" None (Some "u1") eq_refl).
  - exact (X17_database_updateProductStock_of_missing_product store_P5
             "ghost" 3 "adjustment" None None eq_refl).
Defined.

(** X18: [receivePurchaseOrder] of the relational store answers true for
    every id, known or not, and in every status; it stamps the order, if
    there is one, as received now, and never changes a product or the
    movement log. *)
Theorem X18_database_receivePurchaseOrder_only_stamps_the_order :
  forall (st : Store) (id uid : string),
    let res := DatabaseStorage.receivePurchaseOrder id uid st in
    fst res = Ok true /\
    products (snd res) = products st /\
    stockMovements (snd res) = stockMovements st /\
    JsMap.get id (purchaseOrders (snd res)) =
      option_map (PurchaseOrder.with_received (Some (clock st)))
        (JsMap.get id (purchaseOrders st)) /\
    (forall other : string,
        other <> id ->
        JsMap.get other (purchaseOrders (snd res))
          = JsMap.get other (purchaseOrders st)).
Proof.
  intros st id uid res.
  unfold res, DatabaseStorage.receivePurchaseOrder, try_catch, db_bind,
    db_ret, lift.
  run_store. repeat split.
  - now rewrite get_update_where_id, String.eqb_refl.
  - intros other Hne. rewrite get_update_where_id.
    destruct (String.eqb_spec id other); [congruence | reflexivity].
Qed.

(** ** Routes *)

Lemma requireRole_refuses (roles : list string) (user : AuthUser.t)
    (next : M Response) (st : Store) :
  existsb (String.eqb (AuthUser.role user)) roles = false ->
  Routes.requireRole roles user next st
    = (mkResponse 403 "Insufficient permissions", st).
Proof. intros H. unfold Routes.requireRole. now rewrite H. Qed.

(** X19: the three stock routes run their handler for the right roles
    only.  Without a token that verifies, or with a role other than admin
    or manager (a cashier), adjusting stock and receiving an order are
    refused with 401 or 403 and the store is untouched; deleting a product
    is refused in the same way to everyone but an admin. *)
Theorem X19_stock_routes_refuse_other_roles :
  forall (st : Store) (token : Token) (id : string) (quantity : option Z)
         (reason : option string),
    token_role token <> Some "admin" ->
    (snd (Routes.delete_product_route token id st) = st /\
     refused (fst (Routes.delete_product_route token id st))) /\
    (token_role token <> Some "manager" ->
     snd (Routes.adjust_stock_route token id quantity reason st) = st /\
     refused (fst (Routes.adjust_stock_route token id quantity reason st)) /\
     snd (Routes.receive_route token id st) = st /\
     refused (fst (Routes.receive_route token id st))).
Proof.
  intros st token id quantity reason Hadmin.
  destruct token as [| |u].
  1, 2: unfold Routes.delete_product_route, Routes.adjust_stock_route,
          Routes.receive_route, Routes.authenticateToken, ret, refused;
        simpl; split; [|intros _]; repeat split;
        first [ now left | now right ].
  assert (Ha : String.eqb (AuthUser.role u) "admin" = false)
    by (apply String.eqb_neq; intros E; apply Hadmin; simpl; now rewrite E).
  unfold Routes.delete_product_route, Routes.adjust_stock_route,
    Routes.receive_route, Routes.authenticateToken.
  split.
  - rewrite requireRole_refuses by (simpl; now rewrite Ha).
    split; [reflexivity | now right].
  - intros Hman.
    assert (Hm : String.eqb (AuthUser.role u) "manager" = false)
      by (apply String.eqb_neq; intros E; apply Hman; simpl; now rewrite E).
    rewrite !requireRole_refuses by (simpl; now rewrite Ha, Hm).
    repeat split; now right.
Qed.

Lemma X19_stock_routes_refuse_other_roles_witness :
  token_role (ValidToken cashier) <> Some "admin" /\
  token_role (ValidToken cashier) <> Some "manager" /\
  snd (Routes.delete_product_route (ValidToken cashier) "P" store_P5)
    = store_P5 /\
  snd (Routes.adjust_stock_route (ValidToken cashier) "P" (Some 3) None
         store_P5) = store_P5 /\
  snd (Routes.receive_route (ValidToken cashier) "O" store_P5) = store_P5.
Proof.
  assert (Ha : token_role (ValidToken cashier) <> Some "admin")
    by discriminate.
  assert (Hm : token_role (ValidToken cashier) <> Some "manager")
    by discriminate.
  pose proof (X19_stock_routes_refuse_other_roles store_P5
                (ValidToken cashier) "P" (Some 3) None Ha) as HP.
  pose proof (X19_stock_routes_refuse_other_roles store_P5
                (ValidToken cashier) "O" (Some 3) None Ha) as HO.
  split; [exact Ha|]. split; [exact Hm|].
  split; [exact (proj1 (proj1 HP))|].
  split; [exact (proj1 (proj2 HP Hm))|].
  exact (proj1 (proj2 (proj2 (proj2 HO Hm)))).
Defined.

(** X20: for an admin or a manager the stock-adjustment route answers 400
    to a quantity that is not a number, 404 to a product that is not in
    the store, both without touching the store, and otherwise 200 after
    adding the quantity to the stock and logging an "adjustment" movement
    in the name of the user of the token. *)
Theorem X20_adjust_stock_route_outcomes :
  forall (st : Store) (u : AuthUser.t) (id : string) (d : Z)
         (reason : option string),
    AuthUser.role u = "admin" \/ AuthUser.role u = "manager" ->
    Routes.adjust_stock_route (ValidToken u) id None reason st
      = (mkResponse 400 "Quantity must be a number", st) /\
    let res := Routes.adjust_stock_route (ValidToken u) id (Some d) reason st
    in
    match JsMap.get id (products st) with
    | None => res = (mkResponse 404 "Product not found", st)
    | Some p =>
        code (fst res) = 200 /\
        quantity_of id (snd res) = Some (Product.quantity p + d) /\
        (fresh_ids st ->
         AuthUser.id u <> "" ->
         exists mv : StockMovement.t,
           JsMap.values (stockMovements (snd res))
             = JsMap.values (stockMovements st) ++ [mv] /\
           StockMovement.movementType mv = "adjustment" /\
           StockMovement.quantity mv = d /\
           StockMovement.reason mv = reason /\
           StockMovement.userId mv = AuthUser.id u)
    end.
Proof.
  intros st u id d reason Hrole.
  assert (Hr : existsb (String.eqb (AuthUser.role u)) ["admin"; "manager"]
               = true)
    by (destruct Hrole as [-> | ->]; reflexivity).
  unfold Routes.adjust_stock_route, Routes.authenticateToken,
    Routes.requireRole.
  rewrite Hr. split; [reflexivity|]. cbv zeta. unfold bind.
  destruct (JsMap.get id (products st)) as [p|] eqn:Hp.
  - destruct (updateProductStock_found id d "adjustment" reason
                (Some (AuthUser.id u)) st p Hp) as (Hok & Hps & Hm & _).
    destruct (MemStorage.updateProductStock id d "adjustment" reason
                (Some (AuthUser.id u)) st) as [b st1].
    cbn [fst snd] in Hok, Hps, Hm. subst b. unfold ret. simpl.
    split; [reflexivity|]. split.
    + unfold quantity_of. now rewrite Hps, get_set_same.
    + intros Hf Hu.
      assert (Ht : truthy (Some (AuthUser.id u)) = true)
        by (simpl; apply String.eqb_neq in Hu; now rewrite Hu).
      rewrite Ht in Hm. rewrite Hm. eexists. split.
      * apply values_set_fresh, fresh_from_now, Hf.
      * now repeat split.
  - now rewrite updateProductStock_missing.
Qed.

Lemma X20_adjust_stock_route_outcomes_witness :
  let res :=
    Routes.adjust_stock_route (ValidToken manager) "P" (Some (-2))
      (Some "damaged") store_P5 in
  code (fst res) = 200 /\
  quantity_of "P" (snd res) = Some (5 + -2).
Proof.
  pose proof (proj2 (X20_adjust_stock_route_outcomes store_P5 manager "P"
                       (-2) (Some "damaged") (or_intror eq_refl))) as H.
  cbv zeta in H. simpl JsMap.get in H.
  split; [exact (proj1 H) | exact (proj1 (proj2 H))].
Defined.

(** X21: for an admin or a manager the receipt route answers 404, with the
    store untouched, both when the order does not exist and when it is
    already received, and otherwise 200 with the order marked
    "received". *)
Theorem X21_receive_route_outcomes :
  forall (st : Store) (u : AuthUser.t) (id : string),
    AuthUser.role u = "admin" \/ AuthUser.role u = "manager" ->
    let res := Routes.receive_route (ValidToken u) id st in
    match JsMap.get id (purchaseOrders st) with
    | None =>
        res = (mkResponse 404 "Purchase order not found or already received",
               st)
    | Some o =>
        if String.eqb (PurchaseOrder.status o) "received" then
          res = (mkResponse 404
                   "Purchase order not found or already received", st)
        else
          code (fst res) = 200 /\
          option_map PurchaseOrder.status
            (JsMap.get id (purchaseOrders (snd res))) = Some "received"
    end.
Proof.
  intros st u id Hrole res.
  assert (Hr : existsb (String.eqb (AuthUser.role u)) ["admin"; "manager"]
               = true)
    by (destruct Hrole as [-> | ->]; reflexivity).
  unfold res, Routes.receive_route, Routes.authenticateToken,
    Routes.requireRole.
  rewrite Hr. unfold bind.
  destruct (JsMap.get id (purchaseOrders st)) as [o|] eqn:Ho.
  - destruct (String.eqb_spec (PurchaseOrder.status o) "received")
      as [Hs|Hs].
    + rewrite receivePurchaseOrder_refused by (now rewrite Ho). reflexivity.
    + rewrite (receivePurchaseOrder_accepted id (AuthUser.id u) st o Ho Hs).
      simpl. split; [reflexivity|].
      rewrite receivePurchaseOrder_items_frame. simpl.
      now rewrite get_set_same.
  - rewrite receivePurchaseOrder_refused by (now rewrite Ho). reflexivity.
Qed.

Lemma X21_receive_route_outcomes_witness :
  Routes.receive_route (ValidToken manager) "O"
    (store_order "received" (Some 0%nat))
  = (mkResponse 404 "Purchase order not found or already received",
     store_order "received" (Some 0%nat)) /\
  Routes.receive_route (ValidToken manager) "nope"
    (store_order "received" (Some 0%nat))
  = (mkResponse 404 "Purchase order not found or already received",
     store_order "received" (Some 0%nat)).
Proof.
  split.
  - exact (X21_receive_route_outcomes (store_order "received" (Some 0%nat))
             manager "O" (or_intror eq_refl)).
  - exact (X21_receive_route_outcomes (store_order "received" (Some 0%nat))
             manager "nope" (or_intror eq_refl)).
Defined.

(** ** The cart of the point-of-sale page *)

Lemma cart_absent_of_find (cart : list CartItem.t) (pid : string) :
  find (fun item => String.eqb (CartItem.productId item) pid) cart = None ->
  ~ In pid (map CartItem.productId cart).
Proof.
  intros Hf Hin. apply in_map_iff in Hin as (item & Hid & Hitem).
  pose proof (find_none _ _ Hf item Hitem) as H. simpl in H.
  rewrite Hid, String.eqb_refl in H. discriminate.
Qed.

Lemma updateQuantity_ids (cart : list CartItem.t) (pid : string)
    (change : Z) (x : string) :
  In x (map CartItem.productId (Pos.updateQuantity cart pid change)) ->
  In x (map CartItem.productId cart).
Proof.
  unfold Pos.updateQuantity. induction cart as [|item cart IH]; simpl;
    [tauto|].
  rewrite map_app, in_app_iff. intros [H|H]; [|right; now apply IH].
  left. destruct (String.eqb (CartItem.productId item) pid).
  - destruct (Z.max 0 (CartItem.quantity item + change) =? 0); simpl in H;
      [contradiction | now destruct H].
  - simpl in H. now destruct H.
Qed.

Lemma removeFromCart_ids (cart : list CartItem.t) (pid x : string) :
  In x (map CartItem.productId (Pos.removeFromCart cart pid)) ->
  In x (map CartItem.productId cart).
Proof.
  unfold Pos.removeFromCart. rewrite !in_map_iff.
  intros (item & Hid & Hin). apply filter_In in Hin as (Hin & _).
  now exists item.
Qed.

(** X22: the cart keeps its shape under every action of the page: after
    adding a product, changing a quantity or removing a line, every line
    still holds at least one unit, its total is still quantity times unit
    price, and no product has two lines. *)
Theorem X22_cart_actions_keep_the_cart_well_formed :
  forall (products : list ProductWithDetails.t) (cart : list CartItem.t)
         (pid : string) (change : Z),
    cart_ok cart ->
    cart_ok (Pos.addToCart products cart pid) /\
    cart_ok (Pos.updateQuantity cart pid change) /\
    cart_ok (Pos.removeFromCart cart pid).
Proof.
  intros products cart pid change (Hall & Hnd). split; [|split].
  - unfold Pos.addToCart.
    destruct (find _ products) as [prod|]; [|now split].
    destruct (find _ cart) as [found|] eqn:Hf.
    + split.
      * apply Forall_map. eapply Forall_impl; [|exact Hall].
        intros item (Hq & Ht).
        destruct (String.eqb (CartItem.productId item) pid);
          [|now split].
        unfold cart_line_ok. simpl. split; [lia | reflexivity].
      * rewrite map_map. erewrite map_ext; [exact Hnd|].
        intros item. simpl.
        now destruct (String.eqb (CartItem.productId item) pid).
    + split.
      * apply Forall_app. split; [exact Hall|].
        constructor; [|constructor]. unfold cart_line_ok. simpl.
        split; [lia|]. now destruct (Product.sellingPrice _).
      * rewrite map_app. simpl. apply NoDup_app; [exact Hnd | |].
        -- constructor; [intros [] | constructor].
        -- intros a Ha [E|[]]. subst a.
           now apply (cart_absent_of_find cart pid).
  - split.
    + unfold Pos.updateQuantity. apply Forall_flat_map.
      eapply Forall_impl; [|exact Hall]. intros item (Hq & Ht).
      destruct (String.eqb (CartItem.productId item) pid);
        [|now repeat constructor].
      destruct (Z.eqb_spec (Z.max 0 (CartItem.quantity item + change)) 0);
        [constructor|].
      constructor; [|constructor]. unfold cart_line_ok. simpl.
      split; [lia | reflexivity].
    + clear Hall. induction cart as [|item cart IH]; [constructor|].
      inversion Hnd as [|? ? Hnotin Hnd']; subst.
      change (Pos.updateQuantity (item :: cart) pid change)
        with ((if String.eqb (CartItem.productId item) pid then
                 let newQuantity :=
                   Z.max 0 (CartItem.quantity item + change) in
                 if newQuantity =? 0 then []
                 else [CartItem.mk (CartItem.productId item)
                         (CartItem.product item) newQuantity
                         (CartItem.unitPrice item)
                         (newQuantity * CartItem.unitPrice item)]
               else [item]) ++ Pos.updateQuantity cart pid change).
      assert (Hfresh : ~ In (CartItem.productId item)
                         (map CartItem.productId
                            (Pos.updateQuantity cart pid change)))
        by (intros H; apply Hnotin; eapply updateQuantity_ids; exact H).
      destruct (String.eqb (CartItem.productId item) pid); cbv zeta.
      * destruct (Z.max 0 (CartItem.quantity item + change) =? 0); simpl;
          [now apply IH | constructor; [exact Hfresh | now apply IH]].
      * simpl. constructor; [exact Hfresh | now apply IH].
  - split.
    + unfold Pos.removeFromCart. clear Hnd.
      induction Hall as [|item cart Hi _ IH]; simpl; [constructor|].
      destruct (negb _); [now constructor | exact IH].
    + clear Hall. induction cart as [|item cart IH]; [constructor|].
      inversion Hnd as [|? ? Hnotin Hnd']; subst.
      unfold Pos.removeFromCart. simpl.
      destruct (negb (String.eqb (CartItem.productId item) pid)); simpl;
        [|now apply IH].
      constructor; [|now apply IH].
      intros H. apply Hnotin. eapply removeFromCart_ids. exact H.
Qed.

Lemma cart_ok_sample_cart : cart_ok sample_cart.
Proof.
  split.
  - repeat constructor; simpl; lia.
  - repeat constructor; simpl; intuition discriminate.
Qed.

Lemma X22_cart_actions_keep_the_cart_well_formed_witness :
  cart_ok sample_cart /\
  cart_ok (Pos.addToCart [details_of (sample_product "P" 5 350 true)]
             sample_cart "P") /\
  cart_ok (Pos.updateQuantity sample_cart "U" (-1)) /\
  cart_ok (Pos.removeFromCart sample_cart "P").
Proof.
  split; [exact cart_ok_sample_cart|].
  pose proof (X22_cart_actions_keep_the_cart_well_formed
                [details_of (sample_product "P" 5 350 true)] sample_cart) as H.
  split; [exact (proj1 (H "P" 0 cart_ok_sample_cart))|].
  split; [exact (proj1 (proj2 (H "U" (-1) cart_ok_sample_cart)))|].
  exact (proj2 (proj2 (H "P" 0 cart_ok_sample_cart))).
Defined.

Lemma cart_quantity_absent (cart : list CartItem.t) (pid : string) :
  ~ In pid (map CartItem.productId cart) -> cart_quantity pid cart = 0.
Proof.
  induction cart as [|item cart IH]; simpl; [reflexivity|]. intros H.
  destruct (String.eqb_spec (CartItem.productId item) pid) as [E|_].
  - exfalso. apply H. now left.
  - apply IH. intros Hin. apply H. now right.
Qed.

Lemma cart_quantity_app (pid : string) (a b : list CartItem.t) :
  cart_quantity pid (a ++ b) = cart_quantity pid a + cart_quantity pid b.
Proof.
  induction a as [|item a IH]; simpl; [reflexivity|]. rewrite IH.
  destruct (String.eqb (CartItem.productId item) pid); lia.
Qed.

Lemma updateQuantity_other (cart : list CartItem.t) (pid other : string)
    (change : Z) :
  other <> pid ->
  cart_quantity other (Pos.updateQuantity cart pid change)
    = cart_quantity other cart.
Proof.
  intros Hne. unfold Pos.updateQuantity.
  induction cart as [|item cart IH]; [reflexivity|]. simpl.
  rewrite cart_quantity_app. fold (Pos.updateQuantity cart pid change) in *.
  rewrite IH.
  destruct (String.eqb_spec (CartItem.productId item) pid) as [E|_].
  - assert (Ho : String.eqb (CartItem.productId item) other = false)
      by (apply String.eqb_neq; congruence).
    rewrite Ho.
    destruct (Z.max 0 (CartItem.quantity item + change) =? 0); simpl;
      [lia | rewrite Ho; lia].
  - simpl. destruct (String.eqb (CartItem.productId item) other); lia.
Qed.

Lemma updateQuantity_absent (cart : list CartItem.t) (pid : string)
    (change : Z) :
  ~ In pid (map CartItem.productId cart) ->
  Pos.updateQuantity cart pid change = cart.
Proof.
  unfold Pos.updateQuantity. induction cart as [|item cart IH];
    [reflexivity|].
  simpl. intros H.
  destruct (String.eqb_spec (CartItem.productId item) pid) as [E|_].
  - exfalso. apply H. now left.
  - simpl. f_equal. apply IH. intros Hin. apply H. now right.
Qed.

(** X23: changing the quantity of a product that is in the cart moves its
    units by the change, never below zero, and a line that would reach
    zero is dropped; the units of every other product stay. *)
Theorem X23_updateQuantity_moves_one_line :
  forall (cart : list CartItem.t) (pid : string) (change : Z),
    cart_ok cart ->
    In pid (map CartItem.productId cart) ->
    cart_quantity pid (Pos.updateQuantity cart pid change)
      = Z.max 0 (cart_quantity pid cart + change) /\
    (cart_quantity pid cart + change <= 0 ->
     ~ In pid (map CartItem.productId (Pos.updateQuantity cart pid change)))
    /\
    (forall other : string,
        other <> pid ->
        cart_quantity other (Pos.updateQuantity cart pid change)
          = cart_quantity other cart).
Proof.
  intros cart pid change (_ & Hnd) Hin.
  split; [|split; [|intros other Hne; now apply updateQuantity_other]].
  - induction cart as [|item cart IH]; [contradiction|].
    inversion Hnd as [|? ? Hnotin Hnd']; subst. simpl in Hin.
    unfold Pos.updateQuantity. simpl. rewrite cart_quantity_app.
    fold (Pos.updateQuantity cart pid change).
    destruct (String.eqb_spec (CartItem.productId item) pid) as [E|Hne].
    + rewrite E in Hnotin.
      rewrite (updateQuantity_absent cart pid change Hnotin).
      rewrite (cart_quantity_absent cart pid Hnotin).
      destruct (Z.eqb_spec (Z.max 0 (CartItem.quantity item + change)) 0);
        simpl; [lia|].
      rewrite E, String.eqb_refl. lia.
    + destruct Hin as [Hin|Hin]; [contradiction|].
      simpl. apply String.eqb_neq in Hne. rewrite Hne.
      rewrite (IH Hnd' Hin). lia.
  - intros Hle Hin'. apply in_map_iff in Hin' as (x & Hid & Hx).
    unfold Pos.updateQuantity in Hx. apply in_flat_map in Hx as (item & Hi & Hx).
    assert (Hq : cart_quantity pid cart = CartItem.quantity item
                 \/ CartItem.productId item <> pid).
    { clear Hx Hin Hle. induction cart as [|it cart IH]; [contradiction|].
      simpl in Hnd. apply NoDup_cons_iff in Hnd as (Hnotin & Hnd'). simpl.
      destruct Hi as [->|Hi].
      - destruct (String.eqb_spec (CartItem.productId item) pid) as [E|Hne];
          [|now right].
        left. rewrite E in Hnotin.
        rewrite (cart_quantity_absent cart pid Hnotin). lia.
      - destruct (String.eqb_spec (CartItem.productId it) pid) as [E|Hne].
        + right. intros E'. apply Hnotin. rewrite E, <- E'.
          now apply in_map.
        + apply IH; assumption. }
    destruct (String.eqb_spec (CartItem.productId item) pid) as [E|Hne].
    + destruct Hq as [Hq|Hq]; [|contradiction].
      destruct (Z.eqb_spec (Z.max 0 (CartItem.quantity item + change)) 0);
        [contradiction|lia].
    + destruct Hx as [<-|[]]. contradiction.
Qed.

Lemma X23_updateQuantity_moves_one_line_witness :
  cart_ok sample_cart /\
  In "P" (map CartItem.productId sample_cart) /\
  cart_quantity "P" (Pos.updateQuantity sample_cart "P" (-5))
    = Z.max 0 (cart_quantity "P" sample_cart + -5) /\
  (cart_quantity "P" sample_cart + -5 <= 0 ->
   ~ In "P" (map CartItem.productId
               (Pos.updateQuantity sample_cart "P" (-5)))) /\
  (forall other : string,
      other <> "P" ->
      cart_quantity other (Pos.updateQuantity sample_cart "P" (-5))
        = cart_quantity other sample_cart).
Proof.
  split; [exact cart_ok_sample_cart|].
  split; [now left|].
  exact (X23_updateQuantity_moves_one_line sample_cart "P" (-5)
           cart_ok_sample_cart (or_introl eq_refl)).
Defined.

Lemma addToCart_increment (cart : list CartItem.t) (pid : string) :
  NoDup (map CartItem.productId cart) ->
  In pid (map CartItem.productId cart) ->
  cart_quantity pid
    (map (fun item =>
            if String.eqb (CartItem.productId item) pid then
              CartItem.mk (CartItem.productId item) (CartItem.product item)
                (CartItem.quantity item + 1) (CartItem.unitPrice item)
                ((CartItem.quantity item + 1) * CartItem.unitPrice item)
            else item)
         cart)
  = cart_quantity pid cart + 1.
Proof.
  induction cart as [|item cart IH]; simpl; [contradiction|].
  intros Hnd Hin. apply NoDup_cons_iff in Hnd as (Hnotin & Hnd').
  destruct (String.eqb_spec (CartItem.productId item) pid) as [E|Hne].
  - simpl. rewrite E, String.eqb_refl. rewrite E in Hnotin.
    erewrite map_ext_in.
    + rewrite map_id. lia.
    + intros x Hx. simpl.
      destruct (String.eqb_spec (CartItem.productId x) pid) as [Ex|_];
        [|reflexivity].
      exfalso. apply Hnotin. rewrite <- Ex. now apply in_map.
  - destruct Hin as [Hin|Hin]; [contradiction|].
    apply String.eqb_neq in Hne. rewrite Hne. now apply IH.
Qed.

Lemma addToCart_increment_other (cart : list CartItem.t)
    (pid other : string) :
  other <> pid ->
  cart_quantity other
    (map (fun item =>
            if String.eqb (CartItem.productId item) pid then
              CartItem.mk (CartItem.productId item) (CartItem.product item)
                (CartItem.quantity item + 1) (CartItem.unitPrice item)
                ((CartItem.quantity item + 1) * CartItem.unitPrice item)
            else item)
         cart)
  = cart_quantity other cart.
Proof.
  intros Hne. induction cart as [|item cart IH]; simpl; [reflexivity|].
  rewrite IH.
  destruct (String.eqb_spec (CartItem.productId item) pid) as [E|_];
    [|reflexivity].
  simpl. assert (Ho : String.eqb (CartItem.productId item) other = false)
    by (apply String.eqb_neq; congruence).
  now rewrite Ho.
Qed.

(** X24: a click on a product card adds exactly one unit of that product
    to the cart, unless the product is tracked and its quantity is exactly
    zero, in which case the cart stays.  The stock is not compared with
    the units already in the cart, and a negative quantity does not block
    the click. *)
Theorem X24_grid_click_adds_one_unit_whatever_the_stock :
  forall (products : list ProductWithDetails.t)
         (product : ProductWithDetails.t) (cart : list CartItem.t),
    cart_ok cart ->
    find (fun p =>
            String.eqb (Product.id (ProductWithDetails.base p))
              (Product.id (ProductWithDetails.base product)))
         products <> None ->
    let pid := Product.id (ProductWithDetails.base product) in
    let cart' := ProductGrid.onClick products product cart in
    cart_quantity pid cart' =
      cart_quantity pid cart
      + (if Product.trackStock (ProductWithDetails.base product)
            && (Product.quantity (ProductWithDetails.base product) =? 0)
         then 0 else 1) /\
    (forall other : string,
        other <> pid -> cart_quantity other cart' = cart_quantity other cart).
Proof.
  intros products product cart (_ & Hnd) Hfind pid cart'.
  unfold cart', ProductGrid.onClick, ProductGrid.isOutOfStock. cbv zeta.
  fold pid.
  destruct (Product.trackStock (ProductWithDetails.base product)
            && (Product.quantity (ProductWithDetails.base product) =? 0));
    simpl negb; cbv iota; [split; [lia | reflexivity]|].
  unfold Pos.addToCart.
  destruct (find _ products) as [prod|]; [|contradiction].
  destruct (find _ cart) as [found|] eqn:Hf.
  - apply find_some in Hf as (Hin & Heq). simpl in Heq.
    apply String.eqb_eq in Heq.
    assert (Hpid : In pid (map CartItem.productId cart))
      by (rewrite <- Heq; now apply in_map).
    split; [now apply addToCart_increment|].
    intros other Hne. now apply addToCart_increment_other.
  - split.
    + rewrite cart_quantity_app. simpl. rewrite String.eqb_refl. lia.
    + intros other Hne. rewrite cart_quantity_app. simpl.
      assert (Ho : String.eqb pid other = false)
        by (apply String.eqb_neq; congruence).
      rewrite Ho. lia.
Qed.

Lemma X24_grid_click_adds_one_unit_whatever_the_stock_witness :
  let oversold := details_of (sample_product "P" (-5) 350 true) in
  cart_ok sample_cart /\
  cart_quantity "P" (ProductGrid.onClick [oversold] oversold sample_cart)
    = cart_quantity "P" sample_cart + 1.
Proof.
  split; [exact cart_ok_sample_cart|].
  refine (proj1 (X24_grid_click_adds_one_unit_whatever_the_stock
                   [details_of (sample_product "P" (-5) 350 true)]
                   (details_of (sample_product "P" (-5) 350 true))
                   sample_cart cart_ok_sample_cart _)).
  discriminate.
Defined.

(** ** Stock badges *)

(** X25: for a product whose minimum stock level is not negative, the
    point-of-sale grid shows a stock badge, and the product table shows
    "Low Stock" or "Out of Stock", exactly when the product is on the
    low-stock list of the store. *)
Theorem X25_stock_badges_agree_with_low_stock_list :
  forall (cat : Catalog) (st : Store) (e : ProductWithDetails.t),
    In e (MemStorageCrud.getAllProducts cat st) ->
    0 <= Product.minStockLevel (ProductWithDetails.base e) ->
    (ProductGrid.getStockStatus e <> None
     <-> In e (MemStorageCrud.getLowStockProducts cat st)) /\
    (ProductTable.getStockStatus e = "Low Stock"
     \/ ProductTable.getStockStatus e = "Out of Stock"
     <-> In e (MemStorageCrud.getLowStockProducts cat st)).
Proof.
  intros cat st e Hin Hmin.
  unfold MemStorageCrud.getLowStockProducts. rewrite !filter_In.
  unfold ProductGrid.getStockStatus, ProductTable.getStockStatus.
  cbv zeta.
  destruct (Product.trackStock (ProductWithDetails.base e)); simpl;
    [destruct (Z.eqb_spec (Product.quantity (ProductWithDetails.base e)) 0)
       as [E|Hne];
     destruct (Z.leb_spec (Product.quantity (ProductWithDetails.base e))
                 (Product.minStockLevel (ProductWithDetails.base e)))
       as [Hle|Hgt];
     try lia|];
    (split; split;
     [ intros H;
       first [ now (split; [exact Hin | reflexivity])
             | exfalso; now apply H ]
     | intros (_ & H);
       first [ discriminate H | discriminate ]
     | intros H;
       first [ now (split; [exact Hin | reflexivity])
             | exfalso; destruct H as [H|H]; discriminate H ]
     | intros (_ & H);
       first [ discriminate H | now left | now right ] ]).
Qed.

Lemma X25_stock_badges_agree_with_low_stock_list_witness :
  let e := details_of (sample_product "P" 5 350 true) in
  In e (MemStorageCrud.getAllProducts no_catalog store_P5) /\
  0 <= Product.minStockLevel (ProductWithDetails.base e) /\
  (ProductGrid.getStockStatus e <> None
   <-> In e (MemStorageCrud.getLowStockProducts no_catalog store_P5)).
Proof.
  assert (Hin : In (details_of (sample_product "P" 5 350 true))
                  (MemStorageCrud.getAllProducts no_catalog store_P5))
    by now left.
  assert (Hmin : 0 <= Product.minStockLevel
                        (ProductWithDetails.base
                           (details_of (sample_product "P" 5 350 true))))
    by (simpl; lia).
  split; [exact Hin|]. split; [exact Hmin|].
  exact (proj1 (X25_stock_badges_agree_with_low_stock_list no_catalog
                  store_P5 _ Hin Hmin)).
Defined.

(** ** Limits of the top-products report *)

Lemma length_set_le {V : Type} (k : string) (v : V) (m : JsMap.t V) :
  (List.length (JsMap.set k v m) <= S (List.length m))%nat.
Proof.
  induction m as [|[k' v'] m IH]; simpl; [lia|].
  destruct (String.eqb k' k); simpl; lia.
Qed.

Lemma length_productSales_of (items : list SaleItem.t) :
  (List.length (MemStorage.productSales_of items) <= List.length items)%nat.
Proof.
  unfold MemStorage.productSales_of.
  assert (H : forall acc : JsMap.t MemStorage.Stats,
             (List.length (fold_left MemStorage.tally items acc)
              <= List.length acc + List.length items)%nat).
  { induction items as [|it items IH]; intros acc; simpl; [lia|].
    specialize (IH (MemStorage.tally acc it)).
    assert (Hs : (List.length (MemStorage.tally acc it)
                  <= S (List.length acc))%nat)
      by (unfold MemStorage.tally; apply length_set_le).
    lia. }
  specialize (H JsMap.empty). simpl in H. lia.
Qed.

Lemma length_with_products_of (ps : JsMap.t Product.t)
    (es : list (string * MemStorage.Stats)) :
  (List.length (MemStorage.with_products_of ps es) <= List.length es)%nat.
Proof.
  induction es as [|[k s] es IH]; simpl; [lia|].
  destruct (JsMap.get k ps); simpl; lia.
Qed.

(** X26: the limit of the top-products report at its edges.  With the
    number of sale items as limit nothing is cut; against that full
    ranking, no limit means the first five entries, limit 0 means none,
    and a negative limit [-k] means all but the last [k]. *)
Theorem X26_getTopProducts_limit_edges :
  forall (st : Store) (k : Z),
    let full :=
      MemStorage.getTopProducts
        (Some (Z.of_nat (List.length (JsMap.values (saleItems st))))) st in
    MemStorage.getTopProducts None st = firstn 5 full /\
    MemStorage.getTopProducts (Some 0) st = [] /\
    (0 < k ->
     MemStorage.getTopProducts (Some (- k)) st
       = firstn (List.length full - Z.to_nat k) full).
Proof.
  intros st k full.
  set (ranked :=
         MemStorage.sort_by_revenue
           (MemStorage.with_products_of (products st)
              (JsMap.entries
                 (MemStorage.productSales_of (JsMap.values (saleItems st)))))).
  assert (Hlen : (List.length ranked
                  <= List.length (JsMap.values (saleItems st)))%nat).
  { unfold ranked.
    rewrite <- (Permutation_length (sort_by_revenue_perm _)).
    etransitivity; [apply length_with_products_of|].
    apply length_productSales_of. }
  assert (Hfull : full = ranked).
  { unfold full, MemStorage.getTopProducts. fold ranked.
    rewrite slice0_firstn by lia. rewrite Nat2Z.id.
    now apply firstn_all2. }
  rewrite Hfull. unfold MemStorage.getTopProducts. fold ranked.
  split; [|split].
  - unfold MemStorage.default_limit. now rewrite slice0_firstn by lia.
  - now rewrite slice0_firstn by lia.
  - intros Hk. unfold MemStorage.slice0.
    destruct (Z.ltb_spec (- k) 0) as [_|Hge]; [|lia].
    f_equal. lia.
Qed.

(** ** The sales of a customer *)

(** X28: a sale created for a customer is listed by
    [getSalesByCustomer] for that customer, with the header that
    [createSale] returned. *)
Theorem X28_created_sale_is_in_the_customers_sales :
  forall (st : Store) (ins : InsertSale.t) (lines : list InsertSaleItem.t)
         (cid : string),
    InsertSale.customerId ins = Some cid ->
    let res := MemStorage.createSale ins lines st in
    exists d : SaleWithDetails.t,
      In d (MemStorageCrud.getSalesByCustomer cid (snd res)) /\
      SaleWithDetails.sale d = fst res.
Proof.
  intros st ins lines cid Hcid res. unfold res. rewrite createSale_eq.
  cbv zeta. simpl fst. simpl snd.
  set (sale := Sale.of_insert ins (uuid_of (uuids st)) (Some (clock st))).
  match goal with
  | |- context [for_of lines _ ?s] => set (st0 := s)
  end.
  destruct (createSale_lines_frame sale lines st0) as (_ & Hs).
  set (st1 := snd (for_of lines (MemStorage.createSale_line sale) st0)) in *.
  destruct (createSale_customer_frame sale st1) as (_ & Hs2 & _).
  set (st2 := snd (MemStorage.createSale_customer sale st1)) in *.
  assert (Hget : JsMap.get (Sale.id sale) (sales st2) = Some sale)
    by (rewrite Hs2, Hs; unfold st0; simpl; apply get_set_same).
  destruct (MemStorageCrud.getSale (Sale.id sale) st2) as [d|] eqn:Hd.
  2:{ unfold MemStorageCrud.getSale in Hd. rewrite Hget in Hd.
      discriminate. }
  assert (Hsale : SaleWithDetails.sale d = sale).
  { unfold MemStorageCrud.getSale in Hd. rewrite Hget in Hd.
    injection Hd as <-. reflexivity. }
  exists d. split; [|exact Hsale].
  unfold MemStorageCrud.getSalesByCustomer. apply filter_In. split.
  - unfold MemStorageCrud.getAllSales. apply in_flat_map.
    exists sale. split; [now apply (get_In_values (Sale.id sale))|].
    rewrite Hd. now left.
  - rewrite Hsale. change (Sale.customerId sale)
      with (InsertSale.customerId ins).
    rewrite Hcid. apply String.eqb_refl.
Qed.

Lemma X28_created_sale_is_in_the_customers_sales_witness :
  let res :=
    MemStorage.createSale (sample_sale (Some "K") 5000)
      [sample_line "P" 1 5000] store_customer in
  exists d : SaleWithDetails.t,
    In d (MemStorageCrud.getSalesByCustomer "K" (snd res)) /\
    SaleWithDetails.sale d = fst res.
Proof.
  exact (X28_created_sale_is_in_the_customers_sales store_customer
           (sample_sale (Some "K") 5000) [sample_line "P" 1 5000] "K"
           eq_refl).
Defined.
